(** * Client-side sync manager of the note-taking service

    A shallow embedding of the SSE / Yjs synchronisation module
    (the file that exports [initSyncManager], [startPageSync],
    [stopPageSync], [startCollectionSync] and [stopCollectionSync]).

    The module is event driven: the host (browser) calls the exported
    functions and the registered listeners.  Every listener body is a
    function [State -> State]; the host objects the module allocates
    ([Y.Doc], [EventSource], timers) live in stores inside the state and
    are referred to by index, so that aliasing between the module-level
    variables and the closures of the listeners is kept. *)

From stdpp Require Import gmap strings list.

Set Default Proof Using "Type".
Open Scope string_scope.
Open Scope list_scope.

(** ** The replicated-state engine

    Yjs is imported from a CDN and is opaque to the module.  Only the
    primitives the module calls are listed.  [Y_applyUpdate] returns
    [None] when the library throws, and otherwise the merged content
    together with the update handed to the ['update'] observers ([None]
    when the transaction changed nothing).  [Y_mapSet] is [Y.Map.set],
    which always produces a transaction with content. *)
Class YEngine := {
  YContent : Type;
  YUpdate : Type;
  Y_new : YContent;
  Y_applyUpdate : YContent -> YUpdate -> option (YContent * option YUpdate);
  Y_mapGet : YContent -> string -> option string;
  Y_mapSet : YContent -> string -> string -> YContent * YUpdate
}.

(** Transaction origin: ['remote'] or none given. *)
Inductive Origin := OriginRemote | OriginNone.

#[export] Instance Origin_eq_dec : EqDecision Origin.
Proof. solve_decision. Defined.

(** ** Host objects *)

(** [EventSource.readyState]. *)
Inductive ReadyState := CONNECTING | OPEN | CLOSED.

(** What an [EventSource] streams, with the variables its listeners
    closed over: [/api/pages/${pageId}/sync] or
    [/api/collections/${collectionId}/sync]. *)
Inductive Stream :=
| PageStream (pageId : string) (isEncrypted : bool)
| CollectionStream (collectionId : string).

Record EventSource := {
  es_stream : Stream;
  readyState : ReadyState
}.

(** A callback handed to [setTimeout]. *)
Inductive TimerAction :=
| Reconnect (pageId : string) (isEncrypted : bool)
| Debounce (binding : nat).

Record Timer := {
  due : nat;
  action : TimerAction
}.

(** The closure variables of one call of [setupEditorBinding]. *)
Record Binding := {
  remoteUpdatePending : option string;
  updateTimeout : option nat;
  isUpdating : bool
}.

(** The Tiptap editor, as far as the module uses it.  [bindings] lists
    the closures whose ['update'] and ['blur'] listeners were registered
    on it, in registration order; [_setPendingRemoteUpdate] is the index
    of the closure the property currently points to. *)
Record Editor := {
  getHTML : string;
  hasFocus : bool;
  bindings : list Binding;
  _setPendingRemoteUpdate : option nat;
  _syncIsUpdating : option bool
}.

(** [currentPageSync = { eventSource, pageId }]. *)
Record PageSync := {
  ps_eventSource : nat;
  ps_pageId : string
}.

(** [currentCollectionSync = { eventSource, collectionId }]. *)
Record CollectionSync := {
  cs_eventSource : nat;
  cs_collectionId : string
}.

(** Messages put on screen by [showInfo] and [showUserNotification]. *)
Inductive Notice :=
| NoticeEncrypted
| NoticeOnline
| NoticeOffline
| NoticeUserJoined (username color : string).

(** The icon element inside a sidebar title: [<i class=...>] or
    [<span class="page-icon">...</span>]. *)
Inductive Icon := IconI (cls : string) | IconSpan (body : string).

(** [.page-list-item-title]: an optional icon followed by the text. *)
Record TitleSpan := {
  span_icon : option Icon;
  span_text : string
}.

(** An element carrying [data-page-id]. *)
Record SidebarEntry := {
  entry_pageId : string;
  entry_title : option TitleSpan
}.

(** Calls into the cover manager. *)
Inductive CoverCall := ShowCover (url : string) (position : nat) | HideCover.

(** The parsed [data] of a [metadata-change] event. *)
Record MetaData := {
  md_pageId : string;
  md_field : string;
  md_value : string
}.

Section SyncManager.
Context `{YEngine}.

(** A [Y.Doc] object: its content, whether [destroy] was called, and the
    page ids closed over by its ['update'] observers. *)
Record YDoc := {
  doc_content : YContent;
  doc_destroyed : bool;
  doc_observers : list string
}.

(** The module-level variables, the [state] object, and the part of the
    host the module acts on. *)
Record State := {
  currentPageSync : option PageSync;
  currentCollectionSync : option CollectionSync;
  ydoc : option nat;
  yXmlFragment : option nat;
  yMetadata : option nat;
  editor : option Editor;
  currentPageId : option string;
  currentCollectionId : option string;
  fetchPageList : bool;
  docs : list YDoc;
  sources : list EventSource;
  timers : gmap nat Timer;
  nextTimer : nat;
  clock : nat;
  sent : list (string * YUpdate);
  notices : list Notice;
  sidebar : list SidebarEntry;
  coverCalls : list CoverCall;
  coverImageEl : option string;
  pageListFetches : nat
}.

Definition set_currentPageSync v (s : State) : State :=
  Build_State v (currentCollectionSync s) (ydoc s) (yXmlFragment s) (yMetadata s) (editor s) (currentPageId s) (currentCollectionId s) (fetchPageList s) (docs s) (sources s) (timers s) (nextTimer s) (clock s) (sent s) (notices s) (sidebar s) (coverCalls s) (coverImageEl s) (pageListFetches s).
Definition set_currentCollectionSync v (s : State) : State :=
  Build_State (currentPageSync s) v (ydoc s) (yXmlFragment s) (yMetadata s) (editor s) (currentPageId s) (currentCollectionId s) (fetchPageList s) (docs s) (sources s) (timers s) (nextTimer s) (clock s) (sent s) (notices s) (sidebar s) (coverCalls s) (coverImageEl s) (pageListFetches s).
Definition set_ydoc v (s : State) : State :=
  Build_State (currentPageSync s) (currentCollectionSync s) v (yXmlFragment s) (yMetadata s) (editor s) (currentPageId s) (currentCollectionId s) (fetchPageList s) (docs s) (sources s) (timers s) (nextTimer s) (clock s) (sent s) (notices s) (sidebar s) (coverCalls s) (coverImageEl s) (pageListFetches s).
Definition set_yXmlFragment v (s : State) : State :=
  Build_State (currentPageSync s) (currentCollectionSync s) (ydoc s) v (yMetadata s) (editor s) (currentPageId s) (currentCollectionId s) (fetchPageList s) (docs s) (sources s) (timers s) (nextTimer s) (clock s) (sent s) (notices s) (sidebar s) (coverCalls s) (coverImageEl s) (pageListFetches s).
Definition set_yMetadata v (s : State) : State :=
  Build_State (currentPageSync s) (currentCollectionSync s) (ydoc s) (yXmlFragment s) v (editor s) (currentPageId s) (currentCollectionId s) (fetchPageList s) (docs s) (sources s) (timers s) (nextTimer s) (clock s) (sent s) (notices s) (sidebar s) (coverCalls s) (coverImageEl s) (pageListFetches s).
Definition set_editor v (s : State) : State :=
  Build_State (currentPageSync s) (currentCollectionSync s) (ydoc s) (yXmlFragment s) (yMetadata s) v (currentPageId s) (currentCollectionId s) (fetchPageList s) (docs s) (sources s) (timers s) (nextTimer s) (clock s) (sent s) (notices s) (sidebar s) (coverCalls s) (coverImageEl s) (pageListFetches s).
Definition set_currentPageId v (s : State) : State :=
  Build_State (currentPageSync s) (currentCollectionSync s) (ydoc s) (yXmlFragment s) (yMetadata s) (editor s) v (currentCollectionId s) (fetchPageList s) (docs s) (sources s) (timers s) (nextTimer s) (clock s) (sent s) (notices s) (sidebar s) (coverCalls s) (coverImageEl s) (pageListFetches s).
Definition set_currentCollectionId v (s : State) : State :=
  Build_State (currentPageSync s) (currentCollectionSync s) (ydoc s) (yXmlFragment s) (yMetadata s) (editor s) (currentPageId s) v (fetchPageList s) (docs s) (sources s) (timers s) (nextTimer s) (clock s) (sent s) (notices s) (sidebar s) (coverCalls s) (coverImageEl s) (pageListFetches s).
Definition set_fetchPageList v (s : State) : State :=
  Build_State (currentPageSync s) (currentCollectionSync s) (ydoc s) (yXmlFragment s) (yMetadata s) (editor s) (currentPageId s) (currentCollectionId s) v (docs s) (sources s) (timers s) (nextTimer s) (clock s) (sent s) (notices s) (sidebar s) (coverCalls s) (coverImageEl s) (pageListFetches s).
Definition set_docs v (s : State) : State :=
  Build_State (currentPageSync s) (currentCollectionSync s) (ydoc s) (yXmlFragment s) (yMetadata s) (editor s) (currentPageId s) (currentCollectionId s) (fetchPageList s) v (sources s) (timers s) (nextTimer s) (clock s) (sent s) (notices s) (sidebar s) (coverCalls s) (coverImageEl s) (pageListFetches s).
Definition set_sources v (s : State) : State :=
  Build_State (currentPageSync s) (currentCollectionSync s) (ydoc s) (yXmlFragment s) (yMetadata s) (editor s) (currentPageId s) (currentCollectionId s) (fetchPageList s) (docs s) v (timers s) (nextTimer s) (clock s) (sent s) (notices s) (sidebar s) (coverCalls s) (coverImageEl s) (pageListFetches s).
Definition set_timers v (s : State) : State :=
  Build_State (currentPageSync s) (currentCollectionSync s) (ydoc s) (yXmlFragment s) (yMetadata s) (editor s) (currentPageId s) (currentCollectionId s) (fetchPageList s) (docs s) (sources s) v (nextTimer s) (clock s) (sent s) (notices s) (sidebar s) (coverCalls s) (coverImageEl s) (pageListFetches s).
Definition set_nextTimer v (s : State) : State :=
  Build_State (currentPageSync s) (currentCollectionSync s) (ydoc s) (yXmlFragment s) (yMetadata s) (editor s) (currentPageId s) (currentCollectionId s) (fetchPageList s) (docs s) (sources s) (timers s) v (clock s) (sent s) (notices s) (sidebar s) (coverCalls s) (coverImageEl s) (pageListFetches s).
Definition set_clock v (s : State) : State :=
  Build_State (currentPageSync s) (currentCollectionSync s) (ydoc s) (yXmlFragment s) (yMetadata s) (editor s) (currentPageId s) (currentCollectionId s) (fetchPageList s) (docs s) (sources s) (timers s) (nextTimer s) v (sent s) (notices s) (sidebar s) (coverCalls s) (coverImageEl s) (pageListFetches s).
Definition set_sent v (s : State) : State :=
  Build_State (currentPageSync s) (currentCollectionSync s) (ydoc s) (yXmlFragment s) (yMetadata s) (editor s) (currentPageId s) (currentCollectionId s) (fetchPageList s) (docs s) (sources s) (timers s) (nextTimer s) (clock s) v (notices s) (sidebar s) (coverCalls s) (coverImageEl s) (pageListFetches s).
Definition set_notices v (s : State) : State :=
  Build_State (currentPageSync s) (currentCollectionSync s) (ydoc s) (yXmlFragment s) (yMetadata s) (editor s) (currentPageId s) (currentCollectionId s) (fetchPageList s) (docs s) (sources s) (timers s) (nextTimer s) (clock s) (sent s) v (sidebar s) (coverCalls s) (coverImageEl s) (pageListFetches s).
Definition set_sidebar v (s : State) : State :=
  Build_State (currentPageSync s) (currentCollectionSync s) (ydoc s) (yXmlFragment s) (yMetadata s) (editor s) (currentPageId s) (currentCollectionId s) (fetchPageList s) (docs s) (sources s) (timers s) (nextTimer s) (clock s) (sent s) (notices s) v (coverCalls s) (coverImageEl s) (pageListFetches s).
Definition set_coverCalls v (s : State) : State :=
  Build_State (currentPageSync s) (currentCollectionSync s) (ydoc s) (yXmlFragment s) (yMetadata s) (editor s) (currentPageId s) (currentCollectionId s) (fetchPageList s) (docs s) (sources s) (timers s) (nextTimer s) (clock s) (sent s) (notices s) (sidebar s) v (coverImageEl s) (pageListFetches s).
Definition set_coverImageEl v (s : State) : State :=
  Build_State (currentPageSync s) (currentCollectionSync s) (ydoc s) (yXmlFragment s) (yMetadata s) (editor s) (currentPageId s) (currentCollectionId s) (fetchPageList s) (docs s) (sources s) (timers s) (nextTimer s) (clock s) (sent s) (notices s) (sidebar s) (coverCalls s) v (pageListFetches s).
Definition set_pageListFetches v (s : State) : State :=
  Build_State (currentPageSync s) (currentCollectionSync s) (ydoc s) (yXmlFragment s) (yMetadata s) (editor s) (currentPageId s) (currentCollectionId s) (fetchPageList s) (docs s) (sources s) (timers s) (nextTimer s) (clock s) (sent s) (notices s) (sidebar s) (coverCalls s) (coverImageEl s) v.

(** ** Host primitives *)

(** JavaScript truthiness of a string. *)
Definition truthy (v : string) : bool :=
  match v with
  | EmptyString => false
  | String _ _ => true
  end.

(** [new EventSource(url)]. *)
Definition newEventSource (st : Stream) (s : State) : nat * State :=
  (length (sources s),
   set_sources (sources s ++ [{| es_stream := st; readyState := CONNECTING |}]) s).

(** [eventSource.close()]. *)
Definition close (i : nat) (s : State) : State :=
  set_sources
    (alter (fun es => {| es_stream := es_stream es; readyState := CLOSED |}) i (sources s)) s.

(** [new Y.Doc()]. *)
Definition newDoc (s : State) : nat * State :=
  (length (docs s),
   set_docs (docs s ++ [{| doc_content := Y_new; doc_destroyed := false;
                           doc_observers := [] |}]) s).

(** [ydoc.destroy()]: the observers go with the document. *)
Definition destroy (r : nat) (s : State) : State :=
  set_docs
    (alter (fun d => {| doc_content := doc_content d; doc_destroyed := true;
                        doc_observers := [] |}) r (docs s)) s.

(** [setTimeout(callback, delay)]. *)
Definition setTimeout (a : TimerAction) (delay : nat) (s : State) : nat * State :=
  (nextTimer s,
   set_nextTimer (S (nextTimer s))
     (set_timers (<[nextTimer s := {| due := clock s + delay; action := a |}]> (timers s)) s)).

(** [clearTimeout(id)]. *)
Definition clearTimeout (id : nat) (s : State) : State :=
  set_timers (delete id (timers s)) s.

Definition showInfo (n : Notice) (s : State) : State :=
  set_notices (notices s ++ [n]) s.

Definition showUserNotification (n : Notice) (s : State) : State :=
  set_notices (notices s ++ [n]) s.

Definition set_getHTML (content : string) (ed : Editor) : Editor :=
  {| getHTML := content; hasFocus := hasFocus ed; bindings := bindings ed;
     _setPendingRemoteUpdate := _setPendingRemoteUpdate ed;
     _syncIsUpdating := _syncIsUpdating ed |}.

Definition set_bindings (bs : list Binding) (ed : Editor) : Editor :=
  {| getHTML := getHTML ed; hasFocus := hasFocus ed; bindings := bs;
     _setPendingRemoteUpdate := _setPendingRemoteUpdate ed;
     _syncIsUpdating := _syncIsUpdating ed |}.

Definition set_hasFocus (f : bool) (ed : Editor) : Editor :=
  {| getHTML := getHTML ed; hasFocus := f; bindings := bindings ed;
     _setPendingRemoteUpdate := _setPendingRemoteUpdate ed;
     _syncIsUpdating := _syncIsUpdating ed |}.

(** The function stored in [_setPendingRemoteUpdate] by the [k]-th
    binding: [remoteUpdatePending = content]. *)
Definition storePending (content : string) (b : Binding) : Binding :=
  {| remoteUpdatePending := Some content; updateTimeout := updateTimeout b;
     isUpdating := isUpdating b |}.

Definition setPendingRemoteUpdate (k : nat) (content : string) (ed : Editor) : Editor :=
  set_bindings (alter (storePending content) k (bindings ed)) ed.

(** ** The editor's ['update'] event *)

(** The ['update'] listener registered by binding [k], with closure
    variables [b]: unless [isUpdating], clear the pending timeout and
    set a new one of 200 ms. *)
Definition onEditorUpdate (k : nat) (b : Binding) (s : State) : Binding * State :=
  if isUpdating b then (b, s)
  else
    let s :=
      match updateTimeout b with
      | Some id => clearTimeout id s
      | None => s
      end in
    let '(id, s) := setTimeout (Debounce k) 200 s in
    ({| remoteUpdatePending := remoteUpdatePending b; updateTimeout := Some id;
        isUpdating := isUpdating b |}, s).

(** The ['update'] listeners, run in registration order; [k] is the
    index of the first binding of [bs]. *)
Fixpoint updateListeners (k : nat) (bs : list Binding) (s : State)
    : list Binding * State :=
  match bs with
  | [] => ([], s)
  | b :: bs' =>
    let '(b1, s1) := onEditorUpdate k b s in
    let '(bs2, s2) := updateListeners (S k) bs' s1 in
    (b1 :: bs2, s2)
  end.

(** [editor.commands.setContent(content, emitUpdate)] of Tiptap 2, the
    version the application loads: the editor shows [content], and the
    transaction is kept from the ['update'] listeners only when
    [emitUpdate], read as a boolean, is false. *)
Definition setContent (content : string) (emitUpdate : bool) (s : State) : State :=
  match editor s with
  | None => s
  | Some ed =>
    let ed := set_getHTML content ed in
    if emitUpdate then
      let '(bs, s) := updateListeners 0 (bindings ed) s in
      set_editor (Some (set_bindings bs ed)) s
    else set_editor (Some ed) s
  end.

(** What the module passes as [emitUpdate]: the object
    [{ emitUpdate: false }], which is truthy as every object is. *)
Definition optionsObject : bool := true.

(** ** Sending and observing updates *)

(** [sendYjsUpdate]: the POST to [/api/pages/${pageId}/sync-update];
    the response is only logged. *)
Definition sendYjsUpdate (pageId : string) (update : YUpdate) (s : State) : State :=
  set_sent (sent s ++ [(pageId, update)]) s.

(** The observer registered by [ydoc.on('update', ...)] in
    [startPageSync]. *)
Definition onDocUpdate (pageId : string) (update : YUpdate) (origin : Origin)
    (s : State) : State :=
  match origin with
  | OriginRemote => s
  | OriginNone => sendYjsUpdate pageId update s
  end.

(** The document runs its ['update'] observers. *)
Definition emitUpdate (observers : list string) (update : YUpdate) (origin : Origin)
    (s : State) : State :=
  foldl (fun s pageId => onDocUpdate pageId update origin s) s observers.

Definition set_content (c : YContent) (d : YDoc) : YDoc :=
  {| doc_content := c; doc_destroyed := doc_destroyed d;
     doc_observers := doc_observers d |}.

(** [Y.applyUpdate(target, update, origin)]; [None] when it throws. *)
Definition applyUpdate (target : option nat) (update : YUpdate) (origin : Origin)
    (s : State) : option State :=
  match target with
  | None => None
  | Some r =>
    match docs s !! r with
    | None => None
    | Some d =>
      match Y_applyUpdate (doc_content d) update with
      | None => None
      | Some (c, emitted) =>
        let s := set_docs (<[r := set_content c d]> (docs s)) s in
        Some match emitted with
             | Some u => emitUpdate (doc_observers d) u origin s
             | None => s
             end
      end
    end
  end.

(** [yMetadata.get(key)]; the outer [None] when [yMetadata] is null. *)
Definition yMetadata_get (key : string) (s : State) : option (option string) :=
  match yMetadata s with
  | None => None
  | Some r =>
    match docs s !! r with
    | None => None
    | Some d => Some (Y_mapGet (doc_content d) key)
    end
  end.

(** [yMetadata.set(key, value)]: a transaction without origin. *)
Definition yMetadata_set (key value : string) (s : State) : option State :=
  match yMetadata s with
  | None => None
  | Some r =>
    match docs s !! r with
    | None => None
    | Some d =>
      let '(c, u) := Y_mapSet (doc_content d) key value in
      Some (emitUpdate (doc_observers d) u OriginNone
              (set_docs (<[r := set_content c d]> (docs s)) s))
    end
  end.

(** [ydoc.on('update', ...)] with [pageId] in the closure. *)
Definition observeUpdates (target : option nat) (pageId : string) (s : State) : State :=
  match target with
  | None => s
  | Some r =>
    set_docs
      (alter (fun d => {| doc_content := doc_content d; doc_destroyed := doc_destroyed d;
                          doc_observers := doc_observers d ++ [pageId] |}) r (docs s)) s
  end.

(** ** Page sync *)

Definition stopPageSync (s : State) : State :=
  let s :=
    match currentPageSync s with
    | Some ps => set_currentPageSync None (close (ps_eventSource ps) s)
    | None => s
    end in
  let s :=
    match ydoc s with
    | Some r =>
      set_yMetadata None (set_yXmlFragment None (set_ydoc None (destroy r s)))
    | None => s
    end in
  set_currentPageId None s.

(** The listeners are registered on the new source; their bodies are
    [onInit], [onYjsUpdate], [onUserJoined] and [onPageError] below. *)
Definition startPageSync (pageId : string) (isEncrypted : bool) (s : State) : State :=
  if isEncrypted then showInfo NoticeEncrypted s
  else
    let s := stopPageSync s in
    let s := set_currentPageId (Some pageId) s in
    let '(r, s) := newDoc s in
    let s := set_ydoc (Some r) s in
    let s := set_yXmlFragment (Some r) s in
    let s := set_yMetadata (Some r) s in
    let '(es, s) := newEventSource (PageStream pageId isEncrypted) s in
    let s := set_currentPageSync (Some {| ps_eventSource := es; ps_pageId := pageId |}) s in
    observeUpdates (ydoc s) pageId s.

(** [setupEditorBinding]. *)
Definition setupEditorBinding (s : State) : State :=
  match editor s, ydoc s, yMetadata s with
  | Some ed, Some _, Some _ =>
    let currentContent := getHTML ed in
    match yMetadata_set "content" currentContent s with
    | None => s
    | Some s =>
      let k := length (bindings ed) in
      let b := {| remoteUpdatePending := None; updateTimeout := None;
                  isUpdating := false |} in
      set_editor
        (Some {| getHTML := getHTML ed; hasFocus := hasFocus ed;
                 bindings := bindings ed ++ [b];
                 _setPendingRemoteUpdate := Some k;
                 _syncIsUpdating := Some false |}) s
    end
  | _, _, _ => s
  end.

(** The ['init'] listener; [payload] is the decoded [data.state], [None]
    when [JSON.parse] or [atob] throws. *)
Definition onInit (payload : option YUpdate) (s : State) : State :=
  match payload with
  | None => s
  | Some stateUpdate =>
    match applyUpdate (ydoc s) stateUpdate OriginNone s with
    | None => s
    | Some s => setupEditorBinding s
    end
  end.

(** The ['yjs-update'] listener; [payload] is the decoded
    [data.update]. *)
Definition onYjsUpdate (payload : option YUpdate) (s : State) : State :=
  match payload with
  | None => s
  | Some update =>
    match applyUpdate (ydoc s) update OriginRemote s with
    | None => s
    | Some s =>
      match yMetadata_get "content" s with
      | None => s
      | Some content =>
        match content, editor s with
        | Some content, Some ed =>
          if truthy content then
            let currentContent := getHTML ed in
            if decide (content = currentContent) then s
            else if hasFocus ed then
              match _setPendingRemoteUpdate ed with
              | Some k => set_editor (Some (setPendingRemoteUpdate k content ed)) s
              | None => s
              end
            else setContent content optionsObject s
          else s
        | _, _ => s
        end
      end
    end
  end.

(** The ['user-joined'] listener. *)
Definition onUserJoined (payload : option (string * string)) (s : State) : State :=
  match payload with
  | None => s
  | Some (username, color) => showUserNotification (NoticeUserJoined username color) s
  end.

(** [eventSource.onerror] of a page stream. *)
Definition onPageError (i : nat) (pageId : string) (isEncrypted : bool)
    (s : State) : State :=
  snd (setTimeout (Reconnect pageId isEncrypted) 3000 (close i s)).

(** The callback of the reconnect timer. *)
Definition reconnect (pageId : string) (isEncrypted : bool) (s : State) : State :=
  if decide (currentPageId s = Some pageId) then startPageSync pageId isEncrypted s
  else s.

(** ** Collection sync *)

Definition stopCollectionSync (s : State) : State :=
  let s :=
    match currentCollectionSync s with
    | Some cs => set_currentCollectionSync None (close (cs_eventSource cs) s)
    | None => s
    end in
  set_currentCollectionId None s.

Definition startCollectionSync (collectionId : string) (s : State) : State :=
  let s := stopCollectionSync s in
  let s := set_currentCollectionId (Some collectionId) s in
  let '(es, s) := newEventSource (CollectionStream collectionId) s in
  set_currentCollectionSync
    (Some {| cs_eventSource := es; cs_collectionId := collectionId |}) s.

Definition onCollectionError (i : nat) (s : State) : State := close i s.

(** ** Sidebar and cover *)

(** The string made of the bytes [l]. *)
Definition bytes (l : list nat) : string :=
  String.string_of_list_ascii (Ascii.ascii_of_nat <$> l).

(** The characters [trim] removes, each as the bytes of its UTF-8
    encoding: the WhiteSpace and LineTerminator code points of
    ECMAScript, which are TAB, LF, VT, FF, CR, SP, U+00A0, U+1680,
    U+2000 to U+200A, U+2028, U+2029, U+202F, U+205F, U+3000 and
    U+FEFF. *)
Definition whiteSpace : list string :=
  bytes <$>
    [[9]; [10]; [11]; [12]; [13]; [32]; [194; 160]; [225; 154; 128];
     [226; 128; 128]; [226; 128; 129]; [226; 128; 130]; [226; 128; 131];
     [226; 128; 132]; [226; 128; 133]; [226; 128; 134]; [226; 128; 135];
     [226; 128; 136]; [226; 128; 137]; [226; 128; 138];
     [226; 128; 168]; [226; 128; 169]; [226; 128; 175]; [226; 129; 159];
     [227; 128; 128]; [239; 187; 191]].

(** The first of the strings [ws] that [v] starts with. *)
Definition leading (ws : list string) (v : string) : option string :=
  List.find (fun w => String.prefix w v) ws.

(** [v] without the characters of [ws] it starts with; [skip] counts
    the bytes of such a character still to be passed. *)
Fixpoint dropLeading (ws : list string) (skip : nat) (v : string) : string :=
  match v with
  | EmptyString => EmptyString
  | String _ v' =>
    match skip with
    | S k => dropLeading ws k v'
    | 0 =>
      match leading ws v with
      | Some w => dropLeading ws (String.length w - 1) v'
      | None => v
      end
    end
  end.

Definition trimStart (v : string) : string := dropLeading whiteSpace 0 v.

(** White space removed from the end: the bytes of a character are met
    in reverse there. *)
Definition trimEnd (v : string) : string :=
  String.rev (dropLeading (String.rev <$> whiteSpace) 0 (String.rev v)).

(** [String.prototype.trim]. *)
Definition trim (v : string) : string := trimEnd (trimStart v).

(** [textContent] of an icon element. *)
Definition iconText (i : option Icon) : string :=
  match i with
  | Some (IconSpan body) => body
  | Some (IconI _) | None => ""
  end.

(** [titleSpan.textContent]. *)
Definition textContent (t : TitleSpan) : string :=
  iconText (span_icon t) +:+ span_text t.

(** A string none of whose bytes is among [codes]. *)
Definition without (codes : list nat) (v : string) : bool :=
  forallb (fun a => negb (bool_decide (Ascii.nat_of_ascii a ∈ codes)))
    (String.list_ascii_of_string v).

(** A text the HTML parser gives back byte for byte once its markup
    characters are escaped: it holds no NUL, which the parser drops, and
    no CR, which the parser turns into LF. *)
Definition plainText (v : string) : bool := without [0; 13] v.

(** A value the HTML parser reads as it is written, in an element and
    in a quoted attribute: a plain text without double quote, ampersand
    and less-than sign (34, 38, 60). *)
Definition plainValue (v : string) : bool := without [0; 13; 34; 38; 60] v.

(** The element built from [iconHtml] in the ['icon'] branch, for a
    [value] that is plain: the value is pasted into the markup as it is,
    so that one with markup in it gives another element. *)
Definition iconOf (value : string) : option Icon :=
  if truthy value then
    if String.prefix "fa-" value then Some (IconI value) else Some (IconSpan value)
  else None.

(** What [updatePageInSidebar] does to the element it found.  Setting
    [innerHTML] to the kept icon followed by [escapeHtml(text)] leaves
    the icon element and a text node reading [text], for a [text] that
    is plain. *)
Definition updateEntry (field value : string) (e : SidebarEntry) : SidebarEntry :=
  if decide (field = "title") then
    match entry_title e with
    | Some t =>
      {| entry_pageId := entry_pageId e;
         entry_title := Some {| span_icon := span_icon t; span_text := value |} |}
    | None => e
    end
  else if decide (field = "icon") then
    match entry_title e with
    | Some t =>
      {| entry_pageId := entry_pageId e;
         entry_title := Some {| span_icon := iconOf value;
                                span_text := trim (textContent t) |} |}
    | None => e
    end
  else e.

(** [document.querySelector] returns the first match only. *)
Fixpoint updateFirst (pageId : string) (f : SidebarEntry -> SidebarEntry)
    (l : list SidebarEntry) : list SidebarEntry :=
  match l with
  | [] => []
  | e :: l' =>
    if decide (entry_pageId e = pageId) then f e :: l'
    else e :: updateFirst pageId f l'
  end.

Definition updatePageInSidebar (pageId field value : string) (s : State) : State :=
  set_sidebar (updateFirst pageId (updateEntry field value) (sidebar s)) s.

Definition showCover (url : string) (position : nat) (s : State) : State :=
  set_coverCalls (coverCalls s ++ [ShowCover url position]) s.

Definition hideCover (s : State) : State :=
  set_coverCalls (coverCalls s ++ [HideCover]) s.

(** The ['metadata-change'] listener. *)
Definition onMetadataChange (payload : option MetaData) (s : State) : State :=
  match payload with
  | None => s
  | Some data =>
    let s :=
      if decide (md_field data = "coverImage" /\ Some (md_pageId data) = currentPageId s)
      then if truthy (md_value data) then showCover (md_value data) 50 s else hideCover s
      else s in
    let s :=
      if decide (md_field data = "coverPosition" /\ Some (md_pageId data) = currentPageId s)
      then match coverImageEl s with
           | Some _ => set_coverImageEl (Some (md_value data +:+ "%")) s
           | None => s
           end
      else s in
    updatePageInSidebar (md_pageId data) (md_field data) (md_value data) s
  end.

(** The ['page-created'] and ['page-deleted'] listeners; [parsed] tells
    whether [JSON.parse] succeeded. *)
Definition onPageListChange (parsed : bool) (s : State) : State :=
  if parsed && fetchPageList s then set_pageListFetches (S (pageListFetches s)) s
  else s.

(** ** Editor listeners *)

(** The callback of a debounce timer. *)
Definition debounced (s : State) : State :=
  match editor s with
  | None => s
  | Some ed =>
    let newContent := getHTML ed in
    match yMetadata_get "content" s with
    | None => s
    | Some oldContent =>
      if decide (Some newContent = oldContent) then s
      else match yMetadata_set "content" newContent s with
           | Some s' => s'
           | None => s
           end
    end
  end.

(** An assignment to the closure variables of binding [k]. *)
Definition setBinding (k : nat) (f : Binding -> Binding) (s : State) : State :=
  match editor s with
  | Some ed => set_editor (Some (set_bindings (alter f k (bindings ed)) ed)) s
  | None => s
  end.

Definition set_isUpdating (v : bool) (b : Binding) : Binding :=
  {| remoteUpdatePending := remoteUpdatePending b; updateTimeout := updateTimeout b;
     isUpdating := v |}.

(** The end of the ['blur'] listener: [remoteUpdatePending = null] and
    [isUpdating = false]. *)
Definition clearPending (b : Binding) : Binding :=
  {| remoteUpdatePending := None; updateTimeout := updateTimeout b;
     isUpdating := false |}.

(** The ['blur'] listener registered by binding [k]: a pending content
    is applied with [isUpdating] set, and the slot emptied. *)
Definition onEditorBlur (k : nat) (s : State) : State :=
  match editor s with
  | None => s
  | Some ed =>
    match bindings ed !! k with
    | None => s
    | Some b =>
      match remoteUpdatePending b with
      | Some pending =>
        if truthy pending then
          let s := setBinding k (set_isUpdating true) s in
          let s := setContent pending optionsObject s in
          setBinding k clearPending s
        else s
      | None => s
      end
    end
  end.

(** The ['blur'] listeners of the bindings [ks], run in that order. *)
Definition blurListeners (ks : list nat) (s : State) : State :=
  foldl (fun s k => onEditorBlur k s) s ks.

(** The user edits: the editor shows [content] and emits ['update']. *)
Definition editorInput (content : string) (s : State) : State :=
  match editor s with
  | None => s
  | Some ed =>
    let ed := set_getHTML content ed in
    let '(bs, s) := updateListeners 0 (bindings ed) s in
    set_editor (Some (set_bindings bs ed)) s
  end.

Definition editorFocus (s : State) : State :=
  match editor s with
  | None => s
  | Some ed => set_editor (Some (set_hasFocus true ed)) s
  end.

(** The editor loses focus and emits ['blur']: the listeners run in
    registration order. *)
Definition editorBlur (s : State) : State :=
  match editor s with
  | None => s
  | Some ed =>
    blurListeners (seq 0 (length (bindings ed)))
      (set_editor (Some (set_hasFocus false ed)) s)
  end.

(** ** Window and document listeners *)

Definition handleOnline (s : State) : State :=
  let s :=
    match currentPageId s, currentPageSync s with
    | Some pageId, None => if truthy pageId then startPageSync pageId false s else s
    | _, _ => s
    end in
  let s :=
    match currentCollectionId s, currentCollectionSync s with
    | Some collectionId, None =>
      if truthy collectionId then startCollectionSync collectionId s else s
    | _, _ => s
    end in
  showInfo NoticeOnline s.

Definition handleOffline (s : State) : State := showInfo NoticeOffline s.

Definition isOpen (i : nat) (s : State) : bool :=
  match sources s !! i with
  | Some {| readyState := OPEN |} => true
  | _ => false
  end.

Definition handleVisibilityChange (hidden : bool) (s : State) : State :=
  if hidden then s
  else
    let s :=
      match currentPageSync s with
      | Some ps =>
        if isOpen (ps_eventSource ps) s then s else startPageSync (ps_pageId ps) false s
      | None => s
      end in
    match currentCollectionSync s with
    | Some cs =>
      if isOpen (cs_eventSource cs) s then s
      else startCollectionSync (cs_collectionId cs) s
    | None => s
    end.

(** [initSyncManager(appState)]: [Object.assign(state, appState)].  The
    editor handed over is described by its content and focus; no
    binding has been set up on it yet. *)
Record AppState := {
  app_editor : option (string * bool);
  app_currentPageId : option string;
  app_currentCollectionId : option string;
  app_fetchPageList : bool
}.

Definition initSyncManager (appState : AppState) (s : State) : State :=
  set_fetchPageList (app_fetchPageList appState)
    (set_currentCollectionId (app_currentCollectionId appState)
       (set_currentPageId (app_currentPageId appState)
          (set_editor
             (match app_editor appState with
              | Some (content, focus) =>
                Some {| getHTML := content; hasFocus := focus; bindings := [];
                        _setPendingRemoteUpdate := None; _syncIsUpdating := None |}
              | None => None
              end) s))).

(** The state when the module has been loaded, in a page showing
    [entries] in the sidebar. *)
Definition loaded (entries : list SidebarEntry) (coverEl : option string) : State :=
  {| currentPageSync := None; currentCollectionSync := None;
     ydoc := None; yXmlFragment := None; yMetadata := None;
     editor := None; currentPageId := None; currentCollectionId := None;
     fetchPageList := false;
     docs := []; sources := []; timers := ∅; nextTimer := 1; clock := 0;
     sent := []; notices := [];
     sidebar := entries; coverCalls := []; coverImageEl := coverEl;
     pageListFetches := 0 |}.

(** ** The event loop *)

(** A named server-sent event with its decoded data ([None] or [false]
    when decoding throws). *)
Inductive Message :=
| MInit (state : option YUpdate)
| MYjsUpdate (update : option YUpdate)
| MUserJoined (data : option (string * string))
| MUserLeft
| MMetadataChange (data : option MetaData)
| MPageCreated (parsed : bool)
| MPageDeleted (parsed : bool).

(** What the host can do to the module. *)
Inductive Event :=
| CallStartPageSync (pageId : string) (isEncrypted : bool)
| CallStopPageSync
| CallStartCollectionSync (collectionId : string)
| CallStopCollectionSync
| WindowOnline
| WindowOffline
| VisibilityChange (hidden : bool)
| SourceOpen (i : nat)
| SourceMessage (i : nat) (m : Message)
| SourceError (i : nat)
| TimerFire (id : nat)
| Elapse (ms : nat)
| EditorInput (content : string)
| EditorFocus
| EditorBlur.

(** The transport of source [i] is established. *)
Definition sourceOpen (i : nat) (s : State) : State :=
  match sources s !! i with
  | Some {| es_stream := st; readyState := CONNECTING |} =>
    set_sources (<[i := {| es_stream := st; readyState := OPEN |}]> (sources s)) s
  | _ => s
  end.

(** Source [i] receives [m]: an open source runs the listener registered
    for the event name; a source that is not open delivers nothing. *)
Definition sourceMessage (i : nat) (m : Message) (s : State) : State :=
  if isOpen i s then
    match es_stream <$> sources s !! i, m with
    | Some (PageStream _ _), MInit payload => onInit payload s
    | Some (PageStream _ _), MYjsUpdate payload => onYjsUpdate payload s
    | Some (PageStream _ _), MUserJoined payload => onUserJoined payload s
    | Some (CollectionStream _), MMetadataChange payload => onMetadataChange payload s
    | Some (CollectionStream _), MPageCreated parsed => onPageListChange parsed s
    | Some (CollectionStream _), MPageDeleted parsed => onPageListChange parsed s
    | _, _ => s
    end
  else s.

(** The transport of source [i] fails: [onerror] runs unless the source
    was closed. *)
Definition sourceError (i : nat) (s : State) : State :=
  match sources s !! i with
  | Some {| es_stream := st; readyState := rs |} =>
    match rs with
    | CLOSED => s
    | _ =>
      match st with
      | PageStream pageId isEncrypted => onPageError i pageId isEncrypted s
      | CollectionStream _ => onCollectionError i s
      end
    end
  | None => s
  end.

(** Timer [id] fires: only a pending timer whose delay has passed. *)
Definition timerFire (id : nat) (s : State) : State :=
  match timers s !! id with
  | Some t =>
    if decide (due t <= clock s) then
      let s := set_timers (delete id (timers s)) s in
      match action t with
      | Reconnect pageId isEncrypted => reconnect pageId isEncrypted s
      | Debounce _ => debounced s
      end
    else s
  | None => s
  end.

Definition step (s : State) (e : Event) : State :=
  match e with
  | CallStartPageSync pageId isEncrypted => startPageSync pageId isEncrypted s
  | CallStopPageSync => stopPageSync s
  | CallStartCollectionSync collectionId => startCollectionSync collectionId s
  | CallStopCollectionSync => stopCollectionSync s
  | WindowOnline => handleOnline s
  | WindowOffline => handleOffline s
  | VisibilityChange hidden => handleVisibilityChange hidden s
  | SourceOpen i => sourceOpen i s
  | SourceMessage i m => sourceMessage i m s
  | SourceError i => sourceError i s
  | TimerFire id => timerFire id s
  | Elapse ms => set_clock (clock s + ms) s
  | EditorInput content => editorInput content s
  | EditorFocus => editorFocus s
  | EditorBlur => editorBlur s
  end.

Definition run (s : State) (tr : list Event) : State := foldl step s tr.


(** ** The CSRF token read from the cookies *)

(** [pieces] with [a] put in front of the first piece. *)
Definition extendFirst (a : Ascii.ascii) (pieces : list string) : list string :=
  match pieces with
  | [] => [String a ""]
  | piece :: pieces' => String a piece :: pieces'
  end.

(** The pieces of [v] between the occurrences of [sep], found from left
    to right; [skip] counts the characters of an occurrence still to be
    passed. *)
Fixpoint splitFrom (sep : string) (skip : nat) (v : string) : list string :=
  match v with
  | EmptyString => [""]
  | String a v' =>
    match skip with
    | S k => splitFrom sep k v'
    | 0 =>
      if String.prefix sep v then "" :: splitFrom sep (String.length sep - 1) v'
      else extendFirst a (splitFrom sep 0 v')
    end
  end.

(** [String.prototype.split(sep)]; with the empty separator, the
    characters of [v].  Strings are sequences of bytes here: the
    separators the module uses are ASCII, which no multi-byte character
    contains. *)
Definition splitOn (sep v : string) : list string :=
  match sep with
  | EmptyString => (fun a => String a "") <$> String.list_ascii_of_string v
  | String _ _ => splitFrom sep 0 v
  end.

(** [getCsrfToken], on the value of [document.cookie]; [None] stands
    for [undefined]. *)
Definition getCsrfToken (cookie : string) : option string :=
  let cookies := splitOn "; " cookie in
  match List.find (String.prefix "nteok_csrf=") cookies with
  | Some csrfCookie =>
    if truthy csrfCookie then splitOn "=" csrfCookie !! 1 else Some ""
  | None => Some ""
  end.

(** ** The server's check of the token

    The request [sendYjsUpdate] posts carries the token in its
    [X-CSRF-Token] header; the server compares it with the cookie. *)

(** What a call gives: a value, or an exception. *)
Inductive Outcome := Returns (b : bool) | Throws.

(** [verifyCsrfToken(req)], on [req.headers["x-csrf-token"]] and
    [req.cookies["nteok_csrf"]], [None] for [undefined].  A string is
    its UTF-8 bytes, as [Buffer.from] makes them; [crypto.timingSafeEqual]
    throws when the two buffers differ in length. *)
Definition verifyCsrfToken (tokenFromHeader tokenFromCookie : option string) : Outcome :=
  match tokenFromHeader, tokenFromCookie with
  | Some h, Some c =>
    if negb (truthy h) || negb (truthy c) then Returns false
    else if Nat.eqb (String.length h) (String.length c) then Returns (String.eqb h c)
    else Throws
  | _, _ => Returns false
  end.

(** ** Vocabulary of the properties *)

(** The part of the state that decides which connections and documents
    are current. *)
Definition control (s : State) :=
  (currentPageSync s, currentCollectionSync s, sources s, ydoc s, yXmlFragment s,
   yMetadata s, currentPageId s, currentCollectionId s, length (docs s),
   doc_observers <$> docs s).

(** [es] after [close()]. *)
Definition closedES (es : EventSource) : EventSource :=
  {| es_stream := es_stream es; readyState := CLOSED |}.

(** Source [i] is the one the module currently holds for its stream. *)
Definition current (s : State) (i : nat) (es : EventSource) : Prop :=
  match es_stream es with
  | PageStream pageId _ =>
    currentPageSync s = Some {| ps_eventSource := i; ps_pageId := pageId |}
  | CollectionStream collectionId =>
    currentCollectionSync s =
      Some {| cs_eventSource := i; cs_collectionId := collectionId |}
  end.

(** Every source that was not closed is held in [currentPageSync] or
    [currentCollectionSync]. *)
Definition sources_tracked (s : State) : Prop :=
  forall i es, sources s !! i = Some es -> readyState es = CLOSED \/ current s i es.

(** [ydoc], [yXmlFragment] and [yMetadata] are set and cleared
    together, and point to an allocated document, which exists only
    while [currentPageSync] is set. *)
Definition aliased (s : State) : Prop :=
  yXmlFragment s = ydoc s /\ yMetadata s = ydoc s /\
  (forall r, ydoc s = Some r -> r < length (docs s)) /\
  (forall r, ydoc s = Some r -> is_Some (currentPageSync s)).

(** While [currentPageSync] is set, it holds an allocated source and
    [ydoc] points to a document whose only ['update'] observer is the
    one registered for that page. *)
Definition doc_tracked (s : State) : Prop :=
  forall ps, currentPageSync s = Some ps ->
    ps_eventSource ps < length (sources s) /\
    exists r, ydoc s = Some r /\
      (doc_observers <$> docs s) !! r = Some [ps_pageId ps].

(** What holds of the connections and documents in every state the
    module reaches. *)
Definition tracked (s : State) : Prop :=
  sources_tracked s /\ aliased s /\ doc_tracked s.

(** The document [startPageSync] leaves for [pageId]: empty, observed
    once. *)
Definition freshDoc (pageId : string) : YDoc :=
  {| doc_content := Y_new; doc_destroyed := false; doc_observers := [pageId] |}.

(** The states the module can be in: it is loaded, initialised once,
    and then driven by the host. *)
Definition boot (appState : AppState) (entries : list SidebarEntry)
    (coverEl : option string) : State :=
  initSyncManager appState (loaded entries coverEl).

(** [es] is a page stream. *)
Definition isPageStream (es : EventSource) : bool :=
  match es_stream es with
  | PageStream _ _ => true
  | CollectionStream _ => false
  end.

(** A source that was not closed holds a transport, connecting or open. *)
Definition isActive (es : EventSource) : bool :=
  match readyState es with
  | CLOSED => false
  | _ => true
  end.

(** The page streams, and the collection streams, that hold a
    transport. *)
Definition activePage (s : State) : list EventSource :=
  List.filter (fun es => isActive es && isPageStream es) (sources s).

Definition activeCollection (s : State) : list EventSource :=
  List.filter (fun es => isActive es && negb (isPageStream es)) (sources s).

(** The document after [Y.applyUpdate(ydoc, update, ...)]. *)
Definition merged (d : YDoc) (u : YUpdate) : YDoc :=
  match Y_applyUpdate (doc_content d) u with
  | Some (c, _) => set_content c d
  | None => d
  end.

(** The same state with the editor focused or not. *)
Definition withFocus (f : bool) (s : State) : State :=
  match editor s with
  | Some ed => set_editor (Some (set_hasFocus f ed)) s
  | None => s
  end.

(** The content the fresh document gets from the ['init'] event: the
    snapshot applied to an empty document, then the editor's content
    written under ['content'] by [setupEditorBinding]. *)
Definition seeded (snapshot : YUpdate) (ed : option Editor) : YContent :=
  match Y_applyUpdate Y_new snapshot with
  | Some (c, _) =>
    match ed with
    | Some e => (Y_mapSet c "content" (getHTML e)).1
    | None => c
    end
  | None => Y_new
  end.

(** The content held by the closure behind [_setPendingRemoteUpdate]. *)
Definition pendingSlot (s : State) : option string :=
  match editor s with
  | Some ed =>
    match _setPendingRemoteUpdate ed with
    | Some k =>
      match bindings ed !! k with
      | Some b => remoteUpdatePending b
      | None => None
      end
    | None => None
    end
  | None => None
  end.

(** What the editor shows. *)
Definition rendered (s : State) : option string := getHTML <$> editor s.

(** The ['content'] entry of the replicated state. *)
Definition mergedContent (s : State) : option string :=
  match yMetadata_get "content" s with
  | Some c => c
  | None => None
  end.

(** A binding whose slot is empty (null or the empty string). *)
Definition slotEmpty (b : Binding) : bool :=
  match remoteUpdatePending b with
  | Some pending => negb (truthy pending)
  | None => true
  end.

(** What the deferral promises for update [u] received on source [i] in
    state [s]: the editor keeps showing what it shows, the slot holds the
    content of the merged state, and after the next blur the editor
    shows the content of the merged state and the slot is empty. *)
Definition deferred_until_blur (s : State) (i : nat) (u : YUpdate) : Prop :=
  let s1 := step s (SourceMessage i (MYjsUpdate (Some u))) in
  let s2 := step s1 EditorBlur in
  rendered s1 = rendered s /\
  pendingSlot s1 = mergedContent s1 /\
  rendered s2 = mergedContent s2 /\
  pendingSlot s2 = None.

(** [es] streams page [p]. *)
Definition isPageOf (p : string) (es : EventSource) : bool :=
  match es_stream es with
  | PageStream pageId _ => bool_decide (pageId = p)
  | CollectionStream _ => false
  end.

(** The sources ever constructed for page [p]. *)
Definition pageSources (p : string) (s : State) : list EventSource :=
  List.filter (isPageOf p) (sources s).

(** No timer is set to reconnect to page [p]. *)
Definition reconnectFree (p : string) (m : gmap nat Timer) : Prop :=
  map_Forall (fun _ t => forall enc, action t <> Reconnect p enc) m.

(** Every source of page [p] is closed. *)
Definition closedFor (p : string) (l : list EventSource) : Prop :=
  Forall (fun es => isPageOf p es = true -> readyState es = CLOSED) l.

(** Nothing in the state refers to a sync of page [p]: it is not the
    current page, no reconnect to it is scheduled and no stream of it is
    open. *)
Definition untargeted (p : string) (s : State) : Prop :=
  currentPageId s <> Some p /\
  (forall ps, currentPageSync s = Some ps -> ps_pageId ps <> p) /\
  reconnectFree p (timers s) /\
  closedFor p (sources s).

(** The part of the state [untargeted] and [pageSources] look at. *)
Definition targets (s : State) :=
  (currentPageId s, currentPageSync s, timers s, sources s).








(** The updates the callback of a debounce timer submits in state [s]:
    one per observer of the document when the editor's content differs
    from the stored ['content'], none otherwise. *)
Definition debouncedDelta (s : State) : list (string * YUpdate) :=
  match editor s, yMetadata s with
  | Some ed, Some r =>
    match docs s !! r with
    | Some d =>
      if decide (Some (getHTML ed) = Y_mapGet (doc_content d) "content") then []
      else (fun pageId => (pageId, (Y_mapSet (doc_content d) "content" (getHTML ed)).2))
             <$> doc_observers d
    | None => []
    end
  | _, _ => []
  end.


(** ** Vocabulary of the further properties *)

(** [needle] occurs in [v]. *)
Fixpoint contains (needle v : string) : bool :=
  match v with
  | EmptyString => String.prefix needle ""
  | String _ v' => String.prefix needle v || contains needle v'
  end.

(** The part of [v] before the first occurrence of [sep]; all of [v]
    when there is none. *)
Fixpoint before (sep v : string) : string :=
  match v with
  | EmptyString => ""
  | String a v' => if String.prefix sep v then "" else String a (before sep v')
  end.

(** What [document.cookie] reads for a jar of cookies, given as pairs
    of a name and a value. *)
Definition cookieString (jar : list (string * string)) : string :=
  String.concat "; " ((fun nv => nv.1 +:+ "=" +:+ nv.2) <$> jar).

(** The value of the first cookie of the jar called [name]. *)
Definition cookieValue (name : string) (jar : list (string * string)) : option string :=
  snd <$> List.find (fun nv => String.eqb nv.1 name) jar.

(** A jar the browser can hold: no [;] in a name or a value, no [=] in
    a name. *)
Definition wellFormedJar (jar : list (string * string)) : bool :=
  forallb (fun nv => negb (contains ";" nv.1) && negb (contains "=" nv.1) &&
                     negb (contains ";" nv.2)) jar.

(** [a] is one of the digits [toString("hex")] writes. *)
Definition isHexDigit (a : Ascii.ascii) : bool :=
  let n := Ascii.nat_of_ascii a in
  (Nat.leb 48 n && Nat.leb n 57) || (Nat.leb 97 n && Nat.leb n 102).

(** [v] is written with these digits only. *)
Fixpoint isHex (v : string) : bool :=
  match v with
  | EmptyString => true
  | String a v' => isHexDigit a && isHex v'
  end.

(** A token as [generateCsrfToken] makes them: hexadecimal digits, at
    least one. *)
Definition isToken (v : string) : bool := truthy v && isHex v.

(** The part of the state that ties the current syncs to their streams
    and to the ids of the [state] object. *)
Definition wiring (s : State) :=
  (currentPageSync s, currentCollectionSync s, es_stream <$> sources s,
   currentPageId s, currentCollectionId s).

(** A current sync holds a stream of its own page or collection, and
    [state] names that page or collection. *)
Definition wired (s : State) : Prop :=
  (forall ps, currentPageSync s = Some ps ->
     currentPageId s = Some (ps_pageId ps) /\
     (es_stream <$> sources s) !! ps_eventSource ps =
       Some (PageStream (ps_pageId ps) false)) /\
  (forall cs, currentCollectionSync s = Some cs ->
     currentCollectionId s = Some (cs_collectionId cs) /\
     (es_stream <$> sources s) !! cs_eventSource cs =
       Some (CollectionStream (cs_collectionId cs))).

(** [state] names a page or a collection only while a sync of it is
    current. *)
Definition paired (s : State) : Prop :=
  (currentPageSync s = None -> currentPageId s = None) /\
  (currentCollectionSync s = None -> currentCollectionId s = None).

(** The host events that start a collection sync by themselves: the
    call, and the tab becoming visible. *)
Definition startsCollection (e : Event) : bool :=
  match e with
  | CallStartCollectionSync _ | VisibilityChange false => true
  | _ => false
  end.

(** The call that starts a page sync. *)
Definition startsPage (e : Event) : bool :=
  match e with
  | CallStartPageSync _ false => true
  | _ => false
  end.

(** Every page stream ([page] true), or every collection stream
    ([page] false), of [l] is closed. *)
Definition closedKind (page : bool) (l : list EventSource) : Prop :=
  Forall (fun es => isPageStream es = page -> readyState es = CLOSED) l.

(** No collection stream holds a transport, and the online handler has
    no collection to start. *)
Definition collectionIdle (s : State) : Prop :=
  closedKind false (sources s) /\
  (currentCollectionSync s = None -> currentCollectionId s = None).

(** The module after [stopPageSync]: no page sync, no page id, no
    document, and no page stream that holds a transport. *)
Definition pageStopped (s : State) : Prop :=
  currentPageSync s = None /\ currentPageId s = None /\
  ydoc s = None /\ yMetadata s = None /\
  closedKind true (sources s).

(** What a stopped page sync must leave alone. *)
Definition pageView (s : State) :=
  (currentPageSync s, currentPageId s, ydoc s, yMetadata s, sent s, docs s).

(** Every pending timer is a debounce timer. *)
Definition onlyDebounce (m : gmap nat Timer) : bool :=
  forallb (fun it => match action it.2 with
                     | Debounce _ => true
                     | Reconnect _ _ => false
                     end) (map_to_list m).

(** Reading a key of a map after writing it gives what was written. *)
Definition readsBack : Prop :=
  forall c k v, Y_mapGet (Y_mapSet c k v).1 k = Some v.

(** [document.querySelector(`[data-page-id="${pageId}"]`)]: the first
    element of the sidebar that carries the page id. *)
Definition querySelector (pageId : string) (l : list SidebarEntry) : option SidebarEntry :=
  List.find (fun e => bool_decide (entry_pageId e = pageId)) l.

(** An entry with its title span showing [text] behind [icon]. *)
Definition withTitle (icon : option Icon) (text : string) (e : SidebarEntry) : SidebarEntry :=
  {| entry_pageId := entry_pageId e;
     entry_title := Some {| span_icon := icon; span_text := text |} |}.

(** The bindings registered on the editor. *)
Definition bindingsOf (s : State) : list Binding :=
  match editor s with
  | Some ed => bindings ed
  | None => []
  end.

(** The pending slot of each binding, and its [isUpdating] flag. *)
Definition slots (s : State) : list (option string) :=
  remoteUpdatePending <$> bindingsOf s.

Definition flags (s : State) : list bool := isUpdating <$> bindingsOf s.

(** What its blur listener leaves in a slot holding [p]. *)
Definition cleared (p : option string) : option string :=
  match p with
  | Some x => if truthy x then None else Some x
  | None => None
  end.

(** What the editor shows after the blur listener of a slot holding [p]
    ran on an editor showing [c]. *)
Definition applied (c : string) (p : option string) : string :=
  match p with
  | Some x => if truthy x then x else c
  | None => c
  end.

(** What the editor shows after the blur listeners of the slots [l] ran
    in order: the content of the last slot that held one. *)
Definition lastPending (l : list (option string)) (c : string) : string :=
  foldl applied c l.

(** What the listeners leave of the editor: its focus, the closure
    behind [_setPendingRemoteUpdate], the flag and the number of
    bindings. *)
Definition editorFrame (s : State) :=
  (fun ed => (hasFocus ed, _setPendingRemoteUpdate ed, _syncIsUpdating ed,
              length (bindings ed))) <$> editor s.

(** [s'] differs from [s] in the editor and the timers at most. *)
Definition editorOnly (s s' : State) : Prop :=
  s' = set_editor (editor s')
         (set_nextTimer (nextTimer s') (set_timers (timers s') s)).



End SyncManager.

(** ** A concrete engine for the examples

    A last-writer-wins map: an update is a list of assignments, applied
    right to left; observers are told when the content changed. *)
Definition lww_apply (c : gmap string string) (u : list (string * string))
    : gmap string string :=
  foldr (fun kv m => <[kv.1 := kv.2]> m) c u.

#[export] Instance LwwEngine : YEngine := {|
  YContent := gmap string string;
  YUpdate := list (string * string);
  Y_new := ∅;
  Y_applyUpdate c u :=
    let c' := lww_apply c u in
    Some (c', if decide (c' = c) then None else Some u);
  Y_mapGet c k := c !! k;
  Y_mapSet c k v := (<[k := v]> c, [(k, v)])
|}.

(** An application state with an editor showing one paragraph. *)
Definition exampleApp : AppState :=
  {| app_editor := Some ("<p>A</p>", false); app_currentPageId := None;
     app_currentCollectionId := None; app_fetchPageList := true |}.

(** Page [p1] is opened, its stream connects and delivers a snapshot. *)
Definition exampleLive : list Event :=
  [CallStartPageSync "p1" false; SourceOpen 0;
   SourceMessage 0 (MInit (Some [("content", "<p>S</p>")]))].

(** The same, and the user then puts the cursor in the editor. *)
Definition exampleFocused : list Event :=
  exampleLive ++ [EditorFocus].

(** Two remote updates: the first sets the content to [<p>B</p>], the
    second back to what the editor of [exampleApp] shows. *)
Definition updateB : YUpdate := [("content", "<p>B</p>")].
Definition updateA : YUpdate := [("content", "<p>A</p>")].

(** A sidebar with two pages, and an open collection stream. *)
Definition exampleSidebar : list SidebarEntry :=
  [{| entry_pageId := "p1";
      entry_title := Some {| span_icon := None; span_text := "One" |} |};
   {| entry_pageId := "p2";
      entry_title := Some {| span_icon := Some (IconSpan "*"); span_text := "Two" |} |}].

Definition exampleCollection : list Event :=
  [CallStartCollectionSync "c1"; SourceOpen 0].

(** A session on page [p1] with an error, a reconnect and the window
    signals, and an encrypted start of page [p2]. *)
Definition exampleSignals : list Event :=
  [CallStartPageSync "p1" false; SourceOpen 0; SourceError 0; Elapse 3000;
   TimerFire 1; WindowOnline; VisibilityChange false; CallStartPageSync "p2" true].


(** Page [p1] is opened and its stream connects; no snapshot yet. *)
Definition exampleConnected : list Event :=
  [CallStartPageSync "p1" false; SourceOpen 0].

(** After [exampleLive] the user types, and 200 ms pass. *)
Definition exampleTyped : list Event :=
  exampleLive ++ [EditorInput "<p>AB</p>"; Elapse 200].


(** What the host does after the collection stream failed. *)
Definition exampleAfterFailure : list Event :=
  [WindowOnline; Elapse 5000; SourceOpen 0; TimerFire 1; CallStartPageSync "p1" false;
   VisibilityChange true].

(** What the host does after [stopPageSync]. *)
Definition exampleAfterStop : list Event :=
  [Elapse 200; TimerFire 1; WindowOnline; VisibilityChange false;
   CallStartPageSync "p2" true; EditorInput "<p>ABC</p>"; Elapse 200; TimerFire 2].

(** The cookies of a session; the token ends in padding. *)
Definition exampleJar : list (string * string) :=
  [("theme", "dark"); ("nteok_csrf", "ab12=="); ("nteok_session", "s1")].

(** The cookies of a session with a token of hexadecimal digits. *)
Definition exampleSession : list (string * string) :=
  [("nteok_session", "5b1e"); ("nteok_csrf", "9f3c0a7d"); ("theme", "dark")].

(** The editor after [exampleTyped]: the edit is shown and the debounce
    timer of the binding is pending. *)
Definition exampleEdited : Editor :=
  {| getHTML := "<p>AB</p>"; hasFocus := false;
     bindings := [{| remoteUpdatePending := None; updateTimeout := Some 1;
                     isUpdating := false |}];
     _setPendingRemoteUpdate := Some 0; _syncIsUpdating := Some false |}.

(** After [exampleFocused] a remote update with content [<p>B</p>] has
    arrived: the editor is focused, so the content waits in the slot. *)
Definition exampleStale : list Event :=
  exampleFocused ++ [SourceMessage 0 (MYjsUpdate (Some updateB))].

(** The editor after [exampleStale]. *)
Definition examplePending : Editor :=
  {| getHTML := "<p>A</p>"; hasFocus := true;
     bindings := [{| remoteUpdatePending := Some "<p>B</p>"; updateTimeout := None;
                     isUpdating := false |}];
     _setPendingRemoteUpdate := Some 0; _syncIsUpdating := Some false |}.

(** After [exampleStale] page [p2] is opened, its stream connects and
    delivers a snapshot: [setupEditorBinding] runs a second time. *)
Definition exampleSwitched : list Event :=
  exampleStale ++
  [CallStartPageSync "p2" false; SourceOpen 1;
   SourceMessage 1 (MInit (Some [("content", "<p>S2</p>")]))].

(** The application state when page [p2] is the page on display. *)
Definition exampleOpened : AppState :=
  {| app_editor := Some ("<p>A</p>", false); app_currentPageId := Some "p2";
     app_currentCollectionId := None; app_fetchPageList := true |}.

(** The editor [initSyncManager] takes from [exampleApp]. *)
Definition exampleInitial : Editor :=
  {| getHTML := "<p>A</p>"; hasFocus := false; bindings := [];
     _setPendingRemoteUpdate := None; _syncIsUpdating := None |}.

(** * Properties *)

Section Properties.
Context `{YEngine}.

(** ** How the primitives change the state *)

Lemma set_sent_id s : set_sent (sent s) s = s.
Proof. by destruct s. Qed.

Lemma emitUpdate_sent obs u o s :
  emitUpdate obs u o s = set_sent (sent (emitUpdate obs u o s)) s.
Proof.
  unfold emitUpdate. revert s.
  induction obs as [|p obs IH]; intros s; simpl.
  - by rewrite set_sent_id.
  - rewrite (IH (onDocUpdate p u o s)) at 1. by destruct o.
Qed.

Lemma applyUpdate_shape t u o s s' :
  applyUpdate t u o s = Some s' ->
  exists r d c l out,
    t = Some r /\ docs s !! r = Some d /\
    Y_applyUpdate (doc_content d) u = Some (c, l) /\
    s' = set_sent out (set_docs (<[r := set_content c d]> (docs s)) s).
Proof.
  unfold applyUpdate. intros Hs.
  repeat case_match; simplify_eq; eexists _, _, _, _, _; repeat split; eauto.
  by rewrite emitUpdate_sent at 1.
Qed.

Lemma yMetadata_set_shape k v s s' :
  yMetadata_set k v s = Some s' ->
  exists r d out,
    yMetadata s = Some r /\ docs s !! r = Some d /\
    s' = set_sent out
           (set_docs (<[r := set_content (Y_mapSet (doc_content d) k v).1 d]> (docs s)) s).
Proof.
  unfold yMetadata_set. intros Hs.
  repeat case_match; simplify_eq; eexists _, _, _; repeat split; eauto.
  match goal with Hm : Y_mapSet _ _ _ = _ |- _ => rewrite Hm; simpl end.
  by rewrite emitUpdate_sent at 1.
Qed.

Lemma onEditorUpdate_shape k b s :
  (onEditorUpdate k b s).2 =
    set_nextTimer (nextTimer (onEditorUpdate k b s).2)
      (set_timers (timers (onEditorUpdate k b s).2) s).
Proof.
  unfold onEditorUpdate. destruct (isUpdating b); simpl; [by destruct s|].
  by destruct (updateTimeout b).
Qed.

Lemma updateListeners_cons k b bs s :
  updateListeners k (b :: bs) s =
    ((onEditorUpdate k b s).1 ::
       (updateListeners (S k) bs (onEditorUpdate k b s).2).1,
     (updateListeners (S k) bs (onEditorUpdate k b s).2).2).
Proof.
  simpl. destruct (onEditorUpdate k b s) as [b1 s1]. simpl.
  by destruct (updateListeners (S k) bs s1).
Qed.

Lemma updateListeners_shape bs : forall k s bs' s',
  updateListeners k bs s = (bs', s') ->
  s' = set_nextTimer (nextTimer s') (set_timers (timers s') s).
Proof.
  induction bs as [|b bs IH]; intros k s bs' s' Hs.
  - simpl in Hs. simplify_eq. by destruct s'.
  - rewrite updateListeners_cons in Hs. injection Hs as _ Hs.
    destruct (updateListeners (S k) bs (onEditorUpdate k b s).2) as [bs2 s2] eqn:E.
    simpl in Hs. subst s2. apply IH in E. rewrite E.
    by rewrite (onEditorUpdate_shape k b s).
Qed.

Lemma updateListeners_length bs : forall k s,
  length (updateListeners k bs s).1 = length bs.
Proof.
  induction bs as [|b bs IH]; intros k s; [done|].
  rewrite updateListeners_cons. cbn. by rewrite IH.
Qed.

Lemma observers_insert r c d (l : list YDoc) :
  l !! r = Some d ->
  doc_observers <$> <[r := set_content c d]> l = doc_observers <$> l.
Proof.
  intros Hr. rewrite list_fmap_insert. apply list_insert_id.
  by rewrite list_lookup_fmap, Hr.
Qed.

Ltac use_shapes :=
  repeat match goal with
  | Hs : applyUpdate _ _ _ _ = Some _ |- _ =>
    apply applyUpdate_shape in Hs as (?&?&?&?&?&?&?&?&->)
  | Hs : yMetadata_set _ _ _ = Some _ |- _ =>
    apply yMetadata_set_shape in Hs as (?&?&?&?&?&->)
  | Hs : updateListeners _ _ _ = (_, _) |- _ =>
    apply updateListeners_shape in Hs as ->
  end.

(** [setContent] changes the editor and the timers only. *)
Lemma setContent_shape c e s :
  setContent c e s =
    set_editor (editor (setContent c e s))
      (set_nextTimer (nextTimer (setContent c e s))
         (set_timers (timers (setContent c e s)) s)).
Proof.
  unfold setContent. destruct (editor s) as [ed|] eqn:Eed; [|by destruct s].
  destruct e; [|by destruct s].
  destruct (updateListeners 0 (bindings (set_getHTML c ed)) s) as [bs s'] eqn:E.
  apply updateListeners_shape in E. rewrite E. by destruct s.
Qed.

Lemma setContent_frame c e s :
  docs (setContent c e s) = docs s /\ sent (setContent c e s) = sent s /\
  clock (setContent c e s) = clock s /\ sources (setContent c e s) = sources s.
Proof. by rewrite setContent_shape. Qed.


Lemma docs_setContent c e s : docs (setContent c e s) = docs s.
Proof. apply setContent_frame. Qed.

Lemma setContent_true content s : setContent content true s = editorInput content s.
Proof. done. Qed.

Arguments setContent : simpl never.

Ltac frame :=
  intros; repeat case_match; simplify_eq; use_shapes;
  try rewrite setContent_shape;
  unfold control; simpl in *;
  rewrite ?length_insert, ?observers_insert by done; try done.

Lemma control_onInit payload s : control (onInit payload s) = control s.
Proof. unfold onInit, setupEditorBinding. frame. Qed.

Lemma control_onYjsUpdate payload s : control (onYjsUpdate payload s) = control s.
Proof. unfold onYjsUpdate. frame. Qed.

Lemma control_onUserJoined payload s : control (onUserJoined payload s) = control s.
Proof. unfold onUserJoined. frame. Qed.

Lemma control_onMetadataChange payload s :
  control (onMetadataChange payload s) = control s.
Proof. unfold onMetadataChange. frame. Qed.

Lemma control_onPageListChange parsed s :
  control (onPageListChange parsed s) = control s.
Proof. unfold onPageListChange. frame. Qed.

Lemma control_debounced s : control (debounced s) = control s.
Proof. unfold debounced. frame. Qed.

Lemma editor_debounced s : editor (debounced s) = editor s.
Proof. unfold debounced. repeat case_match; simplify_eq; use_shapes; done. Qed.

Lemma control_editorInput content s : control (editorInput content s) = control s.
Proof. unfold editorInput. frame. Qed.

Lemma control_editorFocus s : control (editorFocus s) = control s.
Proof. unfold editorFocus. frame. Qed.

Lemma editorOnly_refl s : editorOnly s s.
Proof. unfold editorOnly. by destruct s. Qed.

Lemma editorOnly_trans s1 s2 s3 : editorOnly s1 s2 -> editorOnly s2 s3 -> editorOnly s1 s3.
Proof. unfold editorOnly. intros E1 E2. rewrite E2, E1. done. Qed.

Lemma editorOnly_setBinding k f s : editorOnly s (setBinding k f s).
Proof. unfold setBinding. destruct (editor s); [|apply editorOnly_refl]. by destruct s. Qed.

Lemma editorOnly_setContent c e s : editorOnly s (setContent c e s).
Proof. apply setContent_shape. Qed.

Lemma editorOnly_onEditorBlur k s : editorOnly s (onEditorBlur k s).
Proof.
  unfold onEditorBlur. repeat case_match; try apply editorOnly_refl.
  eapply editorOnly_trans; [|apply editorOnly_setBinding].
  eapply editorOnly_trans; [|apply editorOnly_setContent].
  apply editorOnly_setBinding.
Qed.

Lemma editorOnly_blurListeners ks : forall s, editorOnly s (blurListeners ks s).
Proof.
  induction ks as [|k ks IH]; intros s; [apply editorOnly_refl|].
  eapply editorOnly_trans; [apply (editorOnly_onEditorBlur k)|apply IH].
Qed.

Lemma editorOnly_editorBlur s : editorOnly s (editorBlur s).
Proof.
  unfold editorBlur. destruct (editor s) as [ed|]; [|apply editorOnly_refl].
  eapply editorOnly_trans; [|apply editorOnly_blurListeners]. by destruct s.
Qed.

Lemma editorOnly_control s s' : editorOnly s s' -> control s' = control s.
Proof. intros ->. done. Qed.

Lemma control_editorBlur s : control (editorBlur s) = control s.
Proof. apply editorOnly_control, editorOnly_editorBlur. Qed.
(** ** Connections and documents in use *)

Arguments startPageSync : simpl never.
Arguments stopPageSync : simpl never.
Arguments startCollectionSync : simpl never.
Arguments stopCollectionSync : simpl never.

Lemma tracked_control s s' : control s' = control s -> tracked s -> tracked s'.
Proof.
  unfold control, tracked, sources_tracked, aliased, doc_tracked, current.
  intros [= E1 E2 E3 E4 E5 E6 E7 E8 E9 E10].
  rewrite E1, E2, E3, E4, E5, E6, E9, E10. tauto.
Qed.

Lemma stopPageSync_fields s :
  aliased s ->
  currentPageSync (stopPageSync s) = None /\
  ydoc (stopPageSync s) = None /\
  yXmlFragment (stopPageSync s) = None /\
  yMetadata (stopPageSync s) = None /\
  currentPageId (stopPageSync s) = None /\
  currentCollectionSync (stopPageSync s) = currentCollectionSync s /\
  currentCollectionId (stopPageSync s) = currentCollectionId s /\
  length (docs (stopPageSync s)) = length (docs s) /\
  sources (stopPageSync s) =
    match currentPageSync s with
    | Some ps => alter closedES (ps_eventSource ps) (sources s)
    | None => sources s
    end.
Proof.
  intros (Ex&Em&_). unfold stopPageSync, close, destroy.
  destruct (currentPageSync s) as [ps|] eqn:Eps; simpl;
    destruct (ydoc s) eqn:Ey; simpl; rewrite ?length_alter; repeat split; done.
Qed.

Lemma tracked_stopPageSync s : tracked s -> tracked (stopPageSync s).
Proof.
  intros (Hs&Ha&Hd).
  destruct (stopPageSync_fields s Ha) as (E1&E2&E3&E4&E5&E6&E7&E8&E9).
  split; [|split].
  - intros i es. rewrite E9. unfold current. rewrite E1, E6. intros Hi.
    destruct (currentPageSync s) as [ps|] eqn:Eps.
    + destruct (decide (i = ps_eventSource ps)) as [->|Hne].
      * rewrite list_lookup_alter_eq in Hi.
        destruct (sources s !! ps_eventSource ps); simplify_eq/=. by left.
      * rewrite list_lookup_alter_ne in Hi by done.
        destruct (Hs i es Hi) as [|Hc]; [by left|]. unfold current in Hc.
        destruct (es_stream es); [|by right].
        rewrite Eps in Hc. by simplify_eq/=.
    + destruct (Hs i es Hi) as [|Hc]; [by left|]. unfold current in Hc.
      destruct (es_stream es); [|by right]. by rewrite Eps in Hc.
  - unfold aliased. rewrite E2, E3, E4. done.
  - intros ps. by rewrite E1.
Qed.

(** After [stopPageSync] no page stream is left open. *)
Lemma stopPageSync_closes s i es pageId isEncrypted :
  tracked s ->
  sources (stopPageSync s) !! i = Some es ->
  es_stream es = PageStream pageId isEncrypted ->
  readyState es = CLOSED.
Proof.
  intros Ht Hi Hes.
  destruct (tracked_stopPageSync s Ht) as (Hs&_).
  destruct (Hs i es Hi) as [|Hc]; [done|].
  unfold current in Hc. rewrite Hes in Hc.
  destruct Ht as (_&Ha&_).
  destruct (stopPageSync_fields s Ha) as (E1&_). by rewrite E1 in Hc.
Qed.
Lemma startPageSync_fields pageId s :
  let s1 := stopPageSync s in
  let s2 := startPageSync pageId false s in
  currentPageSync s2 =
    Some {| ps_eventSource := length (sources s1); ps_pageId := pageId |} /\
  sources s2 =
    sources s1 ++ [{| es_stream := PageStream pageId false; readyState := CONNECTING |}] /\
  ydoc s2 = Some (length (docs s1)) /\
  yXmlFragment s2 = Some (length (docs s1)) /\
  yMetadata s2 = Some (length (docs s1)) /\
  currentPageId s2 = Some pageId /\
  docs s2 = docs s1 ++ [freshDoc pageId] /\
  currentCollectionSync s2 = currentCollectionSync s1 /\
  currentCollectionId s2 = currentCollectionId s1.
Proof.
  unfold startPageSync, observeUpdates, newDoc, newEventSource. simpl.
  repeat split; try done.
  rewrite alter_app_r_alt, Nat.sub_diag by lia. done.
Qed.

Lemma tracked_startPageSync pageId isEncrypted s :
  tracked s -> tracked (startPageSync pageId isEncrypted s).
Proof.
  intros Ht. destruct isEncrypted.
  { revert Ht. by apply tracked_control. }
  pose proof (tracked_stopPageSync s Ht) as (Hs1&Ha1&Hd1).
  destruct Ht as (Hs&Ha&Hd).
  destruct (stopPageSync_fields s Ha) as (E1&_).
  destruct (startPageSync_fields pageId s) as (F1&F2&F3&F4&F5&F6&F7&F8&F9).
  split; [|split].
  - intros i es. unfold current. rewrite F1, F2, F8. intros Hi.
    apply lookup_app_Some in Hi as [Hi|[Hlen Hi]].
    + destruct (Hs1 i es Hi) as [|Hc]; [by left|]. unfold current in Hc.
      destruct (es_stream es); [|by right]. by rewrite E1 in Hc.
    + apply list_lookup_singleton_Some in Hi as [Hi <-]. right. cbn [es_stream].
      do 2 f_equal. lia.
  - unfold aliased. rewrite F1, F3, F4, F5, F7. repeat split; try done.
    intros r Hr.
    assert (Er : length (docs (stopPageSync s)) = r) by congruence.
    rewrite length_app. cbn [length]. lia.
  - intros ps Hps. rewrite F1 in Hps. rewrite F2, F3, F7.
    assert (Ees : ps_eventSource ps = length (sources (stopPageSync s)))
      by (by destruct ps; inversion Hps).
    assert (Epg : ps_pageId ps = pageId) by (by destruct ps; inversion Hps).
    rewrite Ees, Epg, !length_app. cbn [length]. split; [lia|].
    eexists; split; [done|].
    rewrite list_lookup_fmap, list_lookup_middle by done. done.
Qed.

Lemma stopCollectionSync_fields s :
  currentCollectionSync (stopCollectionSync s) = None /\
  currentCollectionId (stopCollectionSync s) = None /\
  currentPageSync (stopCollectionSync s) = currentPageSync s /\
  ydoc (stopCollectionSync s) = ydoc s /\
  yXmlFragment (stopCollectionSync s) = yXmlFragment s /\
  yMetadata (stopCollectionSync s) = yMetadata s /\
  docs (stopCollectionSync s) = docs s /\
  sources (stopCollectionSync s) =
    match currentCollectionSync s with
    | Some cs => alter closedES (cs_eventSource cs) (sources s)
    | None => sources s
    end.
Proof.
  unfold stopCollectionSync, close.
  destruct (currentCollectionSync s) eqn:Ecs; simpl; repeat split; done.
Qed.

Lemma tracked_stopCollectionSync s : tracked s -> tracked (stopCollectionSync s).
Proof.
  intros (Hs&Ha&Hd).
  destruct (stopCollectionSync_fields s) as (E1&E2&E3&E4&E5&E6&E7&E8).
  split; [|split].
  - intros i es. rewrite E8. unfold current. rewrite E1, E3. intros Hi.
    destruct (currentCollectionSync s) as [cs|] eqn:Ecs.
    + destruct (decide (i = cs_eventSource cs)) as [->|Hne].
      * rewrite list_lookup_alter_eq in Hi.
        destruct (sources s !! cs_eventSource cs); simplify_eq/=. by left.
      * rewrite list_lookup_alter_ne in Hi by done.
        destruct (Hs i es Hi) as [|Hc]; [by left|]. unfold current in Hc.
        destruct (es_stream es); [by right|].
        rewrite Ecs in Hc. by simplify_eq/=.
    + destruct (Hs i es Hi) as [|Hc]; [by left|]. unfold current in Hc.
      destruct (es_stream es); [by right|]. by rewrite Ecs in Hc.
  - unfold aliased. rewrite E3, E4, E5, E6, E7. done.
  - intros ps. rewrite E3, E4, E7, E8. intros Hps.
    destruct (Hd ps Hps) as [Hlt Hr]. split; [|done].
    destruct (currentCollectionSync s); by rewrite ?length_alter.
Qed.

Lemma startCollectionSync_fields collectionId s :
  let s1 := stopCollectionSync s in
  let s2 := startCollectionSync collectionId s in
  currentCollectionSync s2 =
    Some {| cs_eventSource := length (sources s1); cs_collectionId := collectionId |} /\
  sources s2 =
    sources s1 ++ [{| es_stream := CollectionStream collectionId;
                      readyState := CONNECTING |}] /\
  currentCollectionId s2 = Some collectionId /\
  currentPageSync s2 = currentPageSync s1 /\
  ydoc s2 = ydoc s1 /\ yXmlFragment s2 = yXmlFragment s1 /\
  yMetadata s2 = yMetadata s1 /\ docs s2 = docs s1.
Proof. unfold startCollectionSync, newEventSource. simpl. repeat split; done. Qed.

Lemma tracked_startCollectionSync collectionId s :
  tracked s -> tracked (startCollectionSync collectionId s).
Proof.
  intros Ht.
  pose proof (tracked_stopCollectionSync s Ht) as (Hs1&Ha1&Hd1).
  destruct (stopCollectionSync_fields s) as (E1&_).
  destruct (startCollectionSync_fields collectionId s) as (F1&F2&F3&F4&F5&F6&F7&F8).
  split; [|split].
  - intros i es. unfold current. rewrite F1, F2, F4. intros Hi.
    apply lookup_app_Some in Hi as [Hi|[Hlen Hi]].
    + destruct (Hs1 i es Hi) as [|Hc]; [by left|]. unfold current in Hc.
      destruct (es_stream es); [by right|]. by rewrite E1 in Hc.
    + apply list_lookup_singleton_Some in Hi as [Hi <-]. right. cbn [es_stream].
      do 2 f_equal. lia.
  - unfold aliased. rewrite F4, F5, F6, F7, F8. done.
  - intros ps. rewrite F2, F4, F5, F8. intros Hps.
    destruct (Hd1 ps Hps) as [Hlt Hr]. split; [|done].
    rewrite length_app. lia.
Qed.
Lemma tracked_close i s : tracked s -> tracked (close i s).
Proof.
  intros (Hs&Ha&Hd). split; [|split]; [|done|].
  - intros j es. unfold close, current. simpl. intros Hj.
    destruct (decide (i = j)) as [->|Hne].
    + rewrite list_lookup_alter_eq in Hj.
      destruct (sources s !! j); simplify_eq/=. by left.
    + rewrite list_lookup_alter_ne in Hj by done. by apply Hs.
  - intros ps Hps. unfold close. simpl. rewrite length_alter. by apply Hd.
Qed.

Lemma tracked_sourceOpen i s : tracked s -> tracked (sourceOpen i s).
Proof.
  intros (Hs&Ha&Hd). unfold sourceOpen.
  destruct (sources s !! i) as [[st rs]|] eqn:Ei; [|done].
  destruct rs; try done.
  split; [|split]; [|done|].
  - intros j es. unfold current. simpl. intros Hj.
    destruct (decide (i = j)) as [->|Hne].
    + rewrite list_lookup_insert_eq in Hj by (by eapply lookup_lt_Some).
      simplify_eq/=. right.
      destruct (Hs j _ Ei) as [|Hc]; [done|]. apply Hc.
    + rewrite list_lookup_insert_ne in Hj by done. by apply Hs.
  - intros ps Hps. simpl. rewrite length_insert. by apply Hd.
Qed.

Lemma tracked_sourceError i s : tracked s -> tracked (sourceError i s).
Proof.
  intros Ht. unfold sourceError.
  destruct (sources s !! i) as [[st rs]|]; [|done].
  destruct rs; try done; destruct st; unfold onPageError, onCollectionError;
    try (by apply tracked_close).
  all: eapply tracked_control; [|by apply (tracked_close i)]; done.
Qed.

Lemma tracked_timerFire id s : tracked s -> tracked (timerFire id s).
Proof.
  intros Ht. unfold timerFire.
  destruct (timers s !! id) as [t|]; [|done].
  case_decide; [|done].
  assert (Ht' : tracked (set_timers (delete id (timers s)) s)).
  { revert Ht. by apply tracked_control. }
  destruct (action t).
  - unfold reconnect. case_decide; [|done]. by apply tracked_startPageSync.
  - revert Ht'. apply tracked_control, control_debounced.
Qed.

Lemma tracked_handleOnline s : tracked s -> tracked (handleOnline s).
Proof.
  intros Ht. unfold handleOnline.
  set (s1 := match currentPageId s, currentPageSync s with
             | Some pageId, None =>
               if truthy pageId then startPageSync pageId false s else s
             | _, _ => s
             end).
  assert (Ht1 : tracked s1).
  { unfold s1. repeat case_match; try done. by apply tracked_startPageSync. }
  clearbody s1.
  eapply tracked_control; [unfold showInfo, control; simpl; reflexivity|].
  repeat case_match; try done. by apply tracked_startCollectionSync.
Qed.

Lemma tracked_handleVisibilityChange hidden s :
  tracked s -> tracked (handleVisibilityChange hidden s).
Proof.
  intros Ht. unfold handleVisibilityChange. destruct hidden; [done|].
  set (s1 := match currentPageSync s with
             | Some ps =>
               if isOpen (ps_eventSource ps) s then s
               else startPageSync (ps_pageId ps) false s
             | None => s
             end).
  assert (Ht1 : tracked s1).
  { unfold s1. repeat case_match; try done. by apply tracked_startPageSync. }
  clearbody s1. repeat case_match; try done. by apply tracked_startCollectionSync.
Qed.

Lemma tracked_sourceMessage i m s : tracked s -> tracked (sourceMessage i m s).
Proof.
  intros Ht. unfold sourceMessage.
  repeat case_match; try done; revert Ht; apply tracked_control;
    auto using control_onInit, control_onYjsUpdate, control_onUserJoined,
      control_onMetadataChange, control_onPageListChange.
Qed.

Lemma tracked_step s e : tracked s -> tracked (step s e).
Proof.
  intros Ht. destruct e; simpl;
    auto using tracked_startPageSync, tracked_stopPageSync,
      tracked_startCollectionSync, tracked_stopCollectionSync,
      tracked_handleOnline, tracked_handleVisibilityChange, tracked_sourceOpen,
      tracked_sourceMessage, tracked_sourceError, tracked_timerFire.
  - revert Ht. apply tracked_control, control_editorInput.
  - revert Ht. apply tracked_control, control_editorFocus.
  - revert Ht. apply tracked_control, control_editorBlur.
Qed.

Lemma tracked_run tr : forall s, tracked s -> tracked (run s tr).
Proof.
  induction tr as [|e tr IH]; intros s Ht; simpl; [done|].
  by apply IH, tracked_step.
Qed.

Lemma tracked_boot appState entries coverEl : tracked (boot appState entries coverEl).
Proof.
  split; [|split]; [|done|done].
  intros i es. unfold boot, initSyncManager, loaded. simpl. by rewrite lookup_nil.
Qed.
(** ** At most one connection of each kind *)

Lemma filter_nil_lookup {A} (f : A -> bool) (l : list A) :
  (forall i x, l !! i = Some x -> f x = false) -> List.filter f l = [].
Proof.
  induction l as [|a l IH]; intros Hl; simpl; [done|].
  rewrite (Hl 0 a eq_refl). apply IH. intros i x Hi. by apply (Hl (S i)).
Qed.

Lemma filter_at_most_one {A} (f : A -> bool) (l : list A) :
  (forall i j x y, l !! i = Some x -> l !! j = Some y ->
     f x = true -> f y = true -> i = j) ->
  length (List.filter f l) <= 1.
Proof.
  induction l as [|a l IH]; intros Hl; simpl; [lia|].
  destruct (f a) eqn:Ea.
  - rewrite filter_nil_lookup; [simpl; lia|].
    intros i x Hi. destruct (f x) eqn:Ex; [|done].
    by specialize (Hl 0 (S i) a x eq_refl Hi Ea Ex).
  - apply IH. intros i j x y Hi Hj Hx Hy.
    by specialize (Hl (S i) (S j) x y Hi Hj Hx Hy) as [= ->].
Qed.

Lemma tracked_activePage s : tracked s -> length (activePage s) <= 1.
Proof.
  intros (Hs&_). apply filter_at_most_one.
  intros i j x y Hi Hj [Hax Hpx]%andb_prop [Hay Hpy]%andb_prop.
  destruct (Hs i x Hi) as [Hc|Hc]; [unfold isActive in Hax; by rewrite Hc in Hax|].
  destruct (Hs j y Hj) as [Hd|Hd]; [unfold isActive in Hay; by rewrite Hd in Hay|].
  unfold current, isPageStream in *.
  destruct (es_stream x), (es_stream y); try done. congruence.
Qed.

Lemma tracked_activeCollection s : tracked s -> length (activeCollection s) <= 1.
Proof.
  intros (Hs&_). apply filter_at_most_one.
  intros i j x y Hi Hj [Hax Hpx]%andb_prop [Hay Hpy]%andb_prop.
  destruct (Hs i x Hi) as [Hc|Hc]; [unfold isActive in Hax; by rewrite Hc in Hax|].
  destruct (Hs j y Hj) as [Hd|Hd]; [unfold isActive in Hay; by rewrite Hd in Hay|].
  unfold current, isPageStream in *.
  destruct (es_stream x), (es_stream y); try done. congruence.
Qed.

Lemma activePage_stopPageSync s : tracked s -> activePage (stopPageSync s) = [].
Proof.
  intros Ht. apply filter_nil_lookup. intros i es Hi.
  destruct (isPageStream es) eqn:Ep; [|by rewrite andb_false_r].
  unfold isPageStream in Ep. destruct (es_stream es) eqn:Es; [|done].
  unfold isActive. by rewrite (stopPageSync_closes s i es _ _ Ht Hi Es).
Qed.

Lemma activeCollection_stopCollectionSync s :
  tracked s -> activeCollection (stopCollectionSync s) = [].
Proof.
  intros Ht. apply filter_nil_lookup. intros i es Hi.
  destruct (isPageStream es) eqn:Ep; [by rewrite andb_false_r|].
  unfold isPageStream in Ep. destruct (es_stream es) eqn:Es; [done|].
  destruct (tracked_stopCollectionSync s Ht) as (Hs&_).
  destruct (stopCollectionSync_fields s) as (E1&_).
  destruct (Hs i es Hi) as [Hc|Hc]; [unfold isActive; by rewrite Hc|].
  unfold current in Hc. rewrite Es, E1 in Hc. done.
Qed.

(** C6: in every state the module can reach there is at most one page
    stream and at most one collection stream that was not closed, and a
    call that starts a page (collection) sync leaves exactly the new
    stream active: the previous one has been stopped first. *)
Theorem one_sync_of_each_kind appState entries coverEl tr pageId collectionId :
  let s := run (boot appState entries coverEl) tr in
  length (activePage s) <= 1 /\
  length (activeCollection s) <= 1 /\
  activePage (startPageSync pageId false s) =
    [{| es_stream := PageStream pageId false; readyState := CONNECTING |}] /\
  activeCollection (startCollectionSync collectionId s) =
    [{| es_stream := CollectionStream collectionId; readyState := CONNECTING |}].
Proof.
  intros s.
  assert (Ht : tracked s) by apply tracked_run, tracked_boot.
  split; [by apply tracked_activePage|].
  split; [by apply tracked_activeCollection|].
  split.
  - destruct (startPageSync_fields pageId s) as (_&F2&_).
    unfold activePage. rewrite F2, List.filter_app.
    fold (activePage (stopPageSync s)). by rewrite activePage_stopPageSync.
  - destruct (startCollectionSync_fields collectionId s) as (_&F2&_).
    unfold activeCollection. rewrite F2, List.filter_app.
    fold (activeCollection (stopCollectionSync s)).
    by rewrite activeCollection_stopCollectionSync.
Qed.
(** ** Remote updates are merged whatever the focus *)

Lemma control_withFocus f s : control (withFocus f s) = control s.
Proof. unfold withFocus. by destruct (editor s). Qed.

Lemma docs_withFocus f s : docs (withFocus f s) = docs s.
Proof. unfold withFocus. by destruct (editor s). Qed.

Lemma applyUpdate_docs r d u o s :
  docs s !! r = Some d ->
  match applyUpdate (Some r) u o s with
  | Some s' => docs s' = <[r := merged d u]> (docs s) /\ ydoc s' = ydoc s
  | None => merged d u = d
  end.
Proof.
  intros Hd. unfold applyUpdate, merged. rewrite Hd.
  destruct (Y_applyUpdate (doc_content d) u) as [[c [e|]]|]; try done.
  by rewrite emitUpdate_sent.
Qed.

Lemma onYjsUpdate_docs r d u s :
  ydoc s = Some r -> docs s !! r = Some d ->
  docs (onYjsUpdate (Some u) s) = <[r := merged d u]> (docs s) /\
  ydoc (onYjsUpdate (Some u) s) = Some r.
Proof.
  intros Hr Hd. unfold onYjsUpdate. rewrite Hr.
  pose proof (applyUpdate_docs r d u OriginRemote s Hd) as Ha.
  destruct (applyUpdate (Some r) u OriginRemote s) as [s'|].
  - destruct Ha as [Ha1 Ha2]. rewrite Hr in Ha2.
    repeat case_match; try rewrite setContent_shape; simpl; done.
  - rewrite Ha, list_insert_id by done. done.
Qed.

Lemma sourceMessage_page i pageId isEncrypted m s :
  sources s !! i =
    Some {| es_stream := PageStream pageId isEncrypted; readyState := OPEN |} ->
  sourceMessage i m s =
    match m with
    | MInit payload => onInit payload s
    | MYjsUpdate payload => onYjsUpdate payload s
    | MUserJoined payload => onUserJoined payload s
    | _ => s
    end.
Proof. intros Hi. unfold sourceMessage, isOpen. rewrite Hi. by destruct m. Qed.

(** C1: in every state the module can reach, whatever the focus of the
    editor, a ['yjs-update'] event received on an open page stream
    replaces the document [ydoc] points to by the result of
    [Y.applyUpdate] on it; nothing else in the handler touches the
    document. *)
Theorem remote_update_always_merged
    appState entries coverEl tr focus i pageId isEncrypted u :
  let s := withFocus focus (run (boot appState entries coverEl) tr) in
  sources s !! i =
    Some {| es_stream := PageStream pageId isEncrypted; readyState := OPEN |} ->
  exists r d,
    ydoc s = Some r /\ docs s !! r = Some d /\
    ydoc (step s (SourceMessage i (MYjsUpdate (Some u)))) = Some r /\
    docs (step s (SourceMessage i (MYjsUpdate (Some u)))) !! r = Some (merged d u).
Proof.
  intros s Hi.
  assert (Ht : tracked s).
  { eapply tracked_control; [apply control_withFocus|].
    apply tracked_run, tracked_boot. }
  destruct Ht as (Hs&Ha&Hd).
  destruct (Hs i _ Hi) as [|Hc]; [done|]. unfold current in Hc. simpl in Hc.
  destruct (Hd _ Hc) as (_&r&Hr&Hobs).
  rewrite list_lookup_fmap in Hobs.
  destruct (docs s !! r) as [d|] eqn:Hdoc; [|done].
  exists r, d. split; [done|]. split; [done|].
  change (step s (SourceMessage i (MYjsUpdate (Some u))))
    with (sourceMessage i (MYjsUpdate (Some u)) s).
  rewrite (sourceMessage_page _ _ _ _ _ Hi).
  destruct (onYjsUpdate_docs r d u s Hr Hdoc) as [E1 E2].
  split; [done|]. rewrite E1. apply list_lookup_insert_eq.
  by eapply lookup_lt_Some.
Qed.
(** ** Stopping discards the local state *)

Lemma stopPageSync_frame s :
  editor (stopPageSync s) = editor s /\
  timers (stopPageSync s) = timers s /\
  nextTimer (stopPageSync s) = nextTimer s /\
  clock (stopPageSync s) = clock s /\
  sent (stopPageSync s) = sent s /\
  length (sources (stopPageSync s)) = length (sources s) /\
  length (docs (stopPageSync s)) = length (docs s).
Proof.
  unfold stopPageSync, close, destroy.
  destruct (currentPageSync s); simpl; destruct (ydoc s); simpl;
    rewrite ?length_alter; done.
Qed.

Lemma stopPageSync_destroys s r :
  ydoc s = Some r ->
  docs (stopPageSync s) !! r =
    (fun d => {| doc_content := doc_content d; doc_destroyed := true;
                 doc_observers := [] |}) <$> docs s !! r.
Proof.
  intros Hr. unfold stopPageSync, close, destroy.
  destruct (currentPageSync s); simpl; rewrite Hr; simpl;
    by rewrite list_lookup_alter_eq.
Qed.

Lemma stopPageSync_closes_current s ps :
  currentPageSync s = Some ps ->
  sources (stopPageSync s) !! ps_eventSource ps =
    closedES <$> sources s !! ps_eventSource ps.
Proof.
  intros Hps. unfold stopPageSync, close, destroy. rewrite Hps. simpl.
  destruct (ydoc s); simpl; by rewrite list_lookup_alter_eq.
Qed.

Lemma startPageSync_frame pageId s :
  editor (startPageSync pageId false s) = editor s /\
  timers (startPageSync pageId false s) = timers s /\
  nextTimer (startPageSync pageId false s) = nextTimer s /\
  clock (startPageSync pageId false s) = clock s /\
  sent (startPageSync pageId false s) = sent s.
Proof.
  destruct (stopPageSync_frame s) as (G1&G2&G3&G4&G5&_).
  unfold startPageSync, observeUpdates, newDoc, newEventSource. cbn.
  by rewrite G1, G2, G3, G4, G5.
Qed.

Lemma sourceOpen_connecting i st s :
  sources s !! i = Some {| es_stream := st; readyState := CONNECTING |} ->
  sourceOpen i s =
    set_sources (<[i := {| es_stream := st; readyState := OPEN |}]> (sources s)) s.
Proof. intros Hi. unfold sourceOpen. by rewrite Hi. Qed.

Lemma onInit_docs r d u s :
  ydoc s = Some r -> yMetadata s = Some r -> docs s !! r = Some d ->
  doc_content <$> docs (onInit (Some u) s) !! r =
    Some match Y_applyUpdate (doc_content d) u with
         | Some (c, _) =>
           match editor s with
           | Some e => (Y_mapSet c "content" (getHTML e)).1
           | None => c
           end
         | None => doc_content d
         end.
Proof.
  intros Hr Hm Hd. unfold onInit, applyUpdate. rewrite Hr, Hd.
  destruct (Y_applyUpdate (doc_content d) u) as [[c e]|]; [|by rewrite Hd].
  set (s1 := match e with
             | Some u0 => emitUpdate _ u0 OriginNone _
             | None => _
             end).
  assert (E1 : s1 = set_sent (sent s1) (set_docs (<[r := set_content c d]> (docs s)) s)).
  { unfold s1. destruct e; [by rewrite emitUpdate_sent at 1|done]. }
  clearbody s1. rewrite E1.
  assert (Hlen : r < length (docs s)) by by eapply lookup_lt_Some.
  unfold setupEditorBinding, yMetadata_set. simpl. rewrite Hr, Hm.
  destruct (editor s) as [ed|]; simpl.
  - rewrite list_lookup_insert_eq by done. simpl.
    destruct (Y_mapSet c "content" (getHTML ed)) as [c' u'] eqn:Es. simpl.
    rewrite emitUpdate_sent. simpl.
    rewrite list_lookup_insert_eq by (by rewrite length_insert). done.
  - by rewrite list_lookup_insert_eq.
Qed.

Lemma stopPageSync_clears s :
  tracked s ->
  (currentPageSync (stopPageSync s) = None /\ ydoc (stopPageSync s) = None /\
   yXmlFragment (stopPageSync s) = None /\ yMetadata (stopPageSync s) = None /\
   currentPageId (stopPageSync s) = None) /\
  activePage (stopPageSync s) = [] /\
  match currentPageSync s with
  | Some ps =>
    readyState <$> sources (stopPageSync s) !! ps_eventSource ps = Some CLOSED
  | None => True
  end /\
  match ydoc s with
  | Some r0 => doc_destroyed <$> docs (stopPageSync s) !! r0 = Some true
  | None => True
  end.
Proof.
  intros Ht. pose proof Ht as (Hs&Ha&Hd).
  destruct (stopPageSync_fields s Ha) as (E1&E2&E3&E4&E5&_).
  split; [by rewrite E1, E2, E3, E4, E5|].
  split; [by apply activePage_stopPageSync|].
  split.
  - destruct (currentPageSync s) as [ps|] eqn:Eps; [|exact I].
    rewrite (stopPageSync_closes_current s ps Eps).
    destruct (Hd ps Eps) as (Hlt&_).
    destruct (lookup_lt_is_Some_2 _ _ Hlt) as [e ->]. reflexivity.
  - destruct (ydoc s) as [r0|] eqn:Er0; [|exact I].
    rewrite (stopPageSync_destroys s r0 Er0).
    destruct Ha as (_&_&Hlt&_). specialize (Hlt r0 Er0).
    destruct (lookup_lt_is_Some_2 _ _ Hlt) as [d ->]. reflexivity.
Qed.

Lemma startPageSync_fresh pageId s :
  let s2 := startPageSync pageId false s in
  let r := length (docs s) in
  let es := length (sources s) in
  (ydoc s2 = Some r /\ yMetadata s2 = Some r /\ docs s !! r = None /\
   docs s2 !! r = Some (freshDoc pageId)) /\
  (currentPageSync s2 = Some {| ps_eventSource := es; ps_pageId := pageId |} /\
   sources s !! es = None /\
   sources s2 !! es =
     Some {| es_stream := PageStream pageId false; readyState := CONNECTING |}).
Proof.
  intros s2 r es.
  destruct (stopPageSync_frame s) as (_&_&_&_&_&G6&G7).
  destruct (startPageSync_fields pageId s) as (F1&F2&F3&_&F5&_&F7&_).
  fold s2 in F1, F2, F3, F5, F7.
  rewrite G6 in F1. rewrite G7 in F3, F5.
  split; [|split; [exact F1|split]].
  - split; [exact F3|]. split; [exact F5|].
    split; [apply lookup_ge_None_2; unfold r; lia|].
    rewrite F7. apply list_lookup_middle. symmetry. exact G7.
  - apply lookup_ge_None_2. unfold es. lia.
  - rewrite F2. apply list_lookup_middle. symmetry. exact G6.
Qed.

Lemma init_seeds pageId snapshot s2 r es :
  ydoc s2 = Some r -> yMetadata s2 = Some r ->
  docs s2 !! r = Some (freshDoc pageId) ->
  sources s2 !! es =
    Some {| es_stream := PageStream pageId false; readyState := CONNECTING |} ->
  doc_content <$>
    docs (step (step s2 (SourceOpen es))
            (SourceMessage es (MInit (Some snapshot)))) !! r =
  Some (seeded snapshot (editor s2)).
Proof.
  intros Hy Hm Hr Hes.
  change (step s2 (SourceOpen es)) with (sourceOpen es s2).
  rewrite (sourceOpen_connecting _ _ _ Hes).
  set (s2' := set_sources _ s2).
  change (step s2' (SourceMessage es (MInit (Some snapshot))))
    with (sourceMessage es (MInit (Some snapshot)) s2').
  assert (Hopen : sources s2' !! es =
            Some {| es_stream := PageStream pageId false; readyState := OPEN |}).
  { unfold s2'. cbn. apply list_lookup_insert_eq. by eapply lookup_lt_Some. }
  rewrite (sourceMessage_page _ _ _ _ _ Hopen).
  rewrite (onInit_docs r (freshDoc pageId) snapshot s2' Hy Hm Hr).
  reflexivity.
Qed.

(** C5: in every state the module can reach, [stopPageSync] clears
    [currentPageSync], [ydoc], [yXmlFragment], [yMetadata] and
    [state.currentPageId], leaves no page stream open, closes the stream
    that was current and destroys the document [ydoc] pointed to.  A
    [startPageSync] after it points [ydoc] to a newly allocated empty
    document and opens a new stream, and the content this document has
    after the ['init'] event is computed from the snapshot (and the
    editor's content) alone. *)
Theorem stop_discards_local_state appState entries coverEl tr pageId snapshot :
  let s := run (boot appState entries coverEl) tr in
  let s1 := stopPageSync s in
  let s2 := startPageSync pageId false s1 in
  let r := length (docs s) in
  let es := length (sources s) in
  let s3 := step (step s2 (SourceOpen es)) (SourceMessage es (MInit (Some snapshot))) in
  (currentPageSync s1 = None /\ ydoc s1 = None /\ yXmlFragment s1 = None /\
   yMetadata s1 = None /\ currentPageId s1 = None) /\
  activePage s1 = [] /\
  match currentPageSync s with
  | Some ps => readyState <$> sources s1 !! ps_eventSource ps = Some CLOSED
  | None => True
  end /\
  match ydoc s with
  | Some r0 => doc_destroyed <$> docs s1 !! r0 = Some true
  | None => True
  end /\
  (ydoc s2 = Some r /\ docs s !! r = None /\ docs s2 !! r = Some (freshDoc pageId)) /\
  (currentPageSync s2 = Some {| ps_eventSource := es; ps_pageId := pageId |} /\
   sources s !! es = None /\
   sources s2 !! es =
     Some {| es_stream := PageStream pageId false; readyState := CONNECTING |}) /\
  doc_content <$> docs s3 !! r = Some (seeded snapshot (editor s)).
Proof.
  intros s. generalize (tracked_run tr _ (tracked_boot appState entries coverEl)).
  fold s. generalize s. clear s. intros s Ht s1 s2 r es s3.
  destruct (stopPageSync_clears s Ht) as (C1&C2&C3&C4).
  destruct (stopPageSync_frame s) as (G1&_&_&_&_&G6&G7).
  destruct (startPageSync_fresh pageId s1) as ((A1&A2&A3&A4)&B1&B2&B3).
  destruct (startPageSync_frame pageId s1) as (K1&_).
  fold s1 in C1, C2, C3, C4, G1, G6, G7. fold s2 in A1, A2, A4, B1, B3, K1.
  rewrite G7 in A1, A2, A3, A4. rewrite G6 in B1, B2, B3.
  fold r in A1, A2, A3, A4. fold es in B1, B2, B3.
  pose proof (init_seeds pageId snapshot s2 r es A1 A2 A4 B3) as Hinit.
  fold s3 in Hinit. rewrite K1, G1 in Hinit.
  assert (A3' : docs s !! r = None) by (apply lookup_ge_None_2; unfold r; lia).
  assert (B2' : sources s !! es = None) by (apply lookup_ge_None_2; unfold es; lia).
  clearbody s3 s2 s1 r es.
  split; [exact C1|]. split; [exact C2|]. split; [exact C3|]. split; [exact C4|].
  split; [split; [exact A1|split; [exact A3'|exact A4]]|].
  split; [split; [exact B1|split; [exact B2'|exact B3]]|].
  exact Hinit.
Qed.
(** ** Reconnecting after a transport error *)

Lemma timerFire_reconnect id t pageId isEncrypted s :
  timers s !! id = Some t -> action t = Reconnect pageId isEncrypted ->
  timerFire id s =
    if decide (due t <= clock s) then
      if decide (currentPageId s = Some pageId)
      then startPageSync pageId isEncrypted (clearTimeout id s)
      else clearTimeout id s
    else s.
Proof.
  intros Ht Ha. unfold timerFire. rewrite Ht, Ha.
  case_decide; [|done]. unfold reconnect, clearTimeout. cbn.
  by case_decide.
Qed.

Lemma startPageSync_new_source pageId s :
  length (sources (startPageSync pageId false s)) = S (length (sources s)).
Proof.
  destruct (startPageSync_fields pageId s) as (_&F2&_).
  destruct (stopPageSync_frame s) as (_&_&_&_&_&G6&_).
  rewrite F2, length_app, G6. cbn [length]. lia.
Qed.

(** C4: when the transport of a page stream that was not closed fails,
    the stream is closed and one timer is set, due 3000 ms later, to
    reconnect to the same page.  The timer does nothing before it is due;
    when it fires it calls [startPageSync] for that page if and only if
    [state.currentPageId] is still that page, so that a new stream is
    created exactly in that case; after [stopPageSync], which clears the
    current page id, the timer creates none. *)
Theorem reconnect_after_error s i pageId rs :
  sources s !! i =
    Some {| es_stream := PageStream pageId false; readyState := rs |} ->
  rs <> CLOSED ->
  let s1 := step s (SourceError i) in
  let id := nextTimer s in
  let t := {| due := clock s + 3000; action := Reconnect pageId false |} in
  readyState <$> sources s1 !! i = Some CLOSED /\
  timers s1 = <[id := t]> (timers s) /\
  currentPageId s1 = currentPageId s /\
  forall s2, timers s2 !! id = Some t ->
    (clock s2 < clock s + 3000 -> step s2 (TimerFire id) = s2) /\
    (clock s + 3000 <= clock s2 ->
       step s2 (TimerFire id) =
         (if decide (currentPageId s2 = Some pageId)
          then startPageSync pageId false (clearTimeout id s2)
          else clearTimeout id s2) /\
       (length (sources (step s2 (TimerFire id))) = S (length (sources s2)) <->
        currentPageId s2 = Some pageId) /\
       currentPageId (stopPageSync s2) = None /\
       sources (step (stopPageSync s2) (TimerFire id)) = sources (stopPageSync s2)).
Proof.
  intros Hi Hrs s1 id t.
  assert (E1 : s1 = onPageError i pageId false s).
  { unfold s1. cbn. unfold sourceError. rewrite Hi. by destruct rs. }
  rewrite E1. unfold onPageError, setTimeout, close. cbn.
  split; [by rewrite list_lookup_alter_eq, Hi|].
  split; [done|]. split; [done|].
  intros s2 Ht.
  change (step s2 (TimerFire id)) with (timerFire id s2).
  rewrite (timerFire_reconnect id t pageId false s2 Ht eq_refl). cbn [due t].
  split.
  { intros Hlt. case_decide; [lia|done]. }
  intros Hle. case_decide; [|lia].
  split; [done|]. split.
  { case_decide as Hp.
    - rewrite startPageSync_new_source. done.
    - cbn. split; [lia|done]. }
  unfold stopPageSync at 1. cbn. split; [done|].
  destruct (stopPageSync_frame s2) as (_&G2&_&G4&_).
  change (step (stopPageSync s2) (TimerFire id)) with (timerFire id (stopPageSync s2)).
  rewrite (timerFire_reconnect id t pageId false).
  - case_decide; [|done]. case_decide as Hp; [|done].
    exfalso. revert Hp. unfold stopPageSync. by cbn.
  - by rewrite G2.
  - done.
Qed.
(** ** Metadata events touch one sidebar entry *)

Lemma updateFirst_length pageId f l : length (updateFirst pageId f l) = length l.
Proof.
  induction l as [|e l IH]; simpl; [done|].
  case_decide; simpl; by rewrite ?IH.
Qed.

Lemma updateFirst_other pageId f l j e :
  l !! j = Some e -> entry_pageId e <> pageId ->
  updateFirst pageId f l !! j = Some e.
Proof.
  revert j. induction l as [|a l IH]; intros j Hj Hne; simpl; [done|].
  destruct j as [|j]; simpl in *.
  - simplify_eq. by rewrite decide_False.
  - case_decide; simpl; [done|]. by apply IH.
Qed.

Lemma updateFirst_one_change pageId f l j1 j2 :
  updateFirst pageId f l !! j1 <> l !! j1 ->
  updateFirst pageId f l !! j2 <> l !! j2 ->
  j1 = j2.
Proof.
  revert j1 j2. induction l as [|a l IH]; intros j1 j2; simpl; [done|].
  case_decide.
  - destruct j1, j2; simpl; try done.
  - destruct j1, j2; simpl; try done. intros H1 H2. f_equal. by apply IH.
Qed.

Lemma updateEntry_pageId field value e :
  entry_pageId (updateEntry field value e) = entry_pageId e.
Proof. unfold updateEntry. by repeat case_match. Qed.

Lemma updateFirst_pageIds pageId field value l :
  entry_pageId <$> updateFirst pageId (updateEntry field value) l = entry_pageId <$> l.
Proof.
  induction l as [|e l IH]; [done|]. cbn [updateFirst].
  case_decide; rewrite !fmap_cons; [by rewrite updateEntry_pageId|by rewrite IH].
Qed.

Lemma sourceMessage_collection i collectionId m s :
  sources s !! i =
    Some {| es_stream := CollectionStream collectionId; readyState := OPEN |} ->
  sourceMessage i m s =
    match m with
    | MMetadataChange payload => onMetadataChange payload s
    | MPageCreated parsed | MPageDeleted parsed => onPageListChange parsed s
    | _ => s
    end.
Proof. intros Hi. unfold sourceMessage, isOpen. rewrite Hi. by destruct m. Qed.

(** C8: a ['metadata-change'] event on an open collection stream leaves
    the editor, the documents, the updates sent and the connections as
    they are.  In the sidebar the entries keep their page ids, every
    entry of another page than the one named in the event is unchanged,
    and at most one entry changes.  The cover manager is called only for
    a ['coverImage'] event naming [state.currentPageId], and the cover
    position is set only for a ['coverPosition'] event naming it. *)
Theorem metadata_change_frame s i collectionId data :
  sources s !! i =
    Some {| es_stream := CollectionStream collectionId; readyState := OPEN |} ->
  let s' := step s (SourceMessage i (MMetadataChange (Some data))) in
  (editor s' = editor s /\ docs s' = docs s /\ sent s' = sent s /\
   control s' = control s) /\
  (entry_pageId <$> sidebar s' = entry_pageId <$> sidebar s /\
   (forall j e, sidebar s !! j = Some e -> entry_pageId e <> md_pageId data ->
      sidebar s' !! j = Some e) /\
   (forall j1 j2, sidebar s' !! j1 <> sidebar s !! j1 ->
      sidebar s' !! j2 <> sidebar s !! j2 -> j1 = j2)) /\
  coverCalls s' =
    coverCalls s ++
    (if decide (md_field data = "coverImage" /\ Some (md_pageId data) = currentPageId s)
     then [if truthy (md_value data) then ShowCover (md_value data) 50 else HideCover]
     else []) /\
  coverImageEl s' =
    (if decide (md_field data = "coverPosition" /\
                Some (md_pageId data) = currentPageId s)
     then match coverImageEl s with
          | Some _ => Some (md_value data +:+ "%")
          | None => None
          end
     else coverImageEl s).
Proof.
  intros Hi s'.
  assert (E : s' = onMetadataChange (Some data) s).
  { unfold s'. cbn [step]. by rewrite (sourceMessage_collection _ _ _ _ Hi). }
  rewrite E. unfold onMetadataChange, updatePageInSidebar, showCover, hideCover.
  split.
  { repeat case_match; done. }
  split.
  { assert (Hsb : forall s0 : State,
              sidebar
                (if decide (md_field data = "coverPosition" /\
                            Some (md_pageId data) = currentPageId s0)
                 then match coverImageEl s0 with
                      | Some _ => set_coverImageEl (Some (md_value data +:+ "%")) s0
                      | None => s0
                      end
                 else s0) = sidebar s0).
    { intros s0. by repeat case_match. }
    cbn [sidebar set_sidebar]. rewrite Hsb.
    assert (Hsb' : sidebar
              (if decide (md_field data = "coverImage" /\
                          Some (md_pageId data) = currentPageId s)
               then if truthy (md_value data)
                    then set_coverCalls (coverCalls s ++ [ShowCover (md_value data) 50]) s
                    else set_coverCalls (coverCalls s ++ [HideCover]) s
               else s) = sidebar s).
    { by repeat case_match. }
    rewrite Hsb'.
    split; [apply updateFirst_pageIds|].
    split; [intros j e; apply updateFirst_other|apply updateFirst_one_change]. }
  split.
  - repeat case_match; cbn in *; rewrite ?app_nil_r; try done;
      intuition congruence.
  - repeat case_match; cbn in *; try done; intuition congruence.
Qed.
(** ** The pending slot and the blur listener *)

Lemma alter_at {A} (f : A -> A) k (l : list A) x :
  l !! k = Some x -> alter f k l = <[k := f x]> l.
Proof.
  intros Hk. apply list_eq. intros j. destruct (decide (k = j)) as [->|Hne].
  - rewrite list_lookup_alter_eq, Hk.
    by rewrite list_lookup_insert_eq by (by eapply lookup_lt_Some).
  - by rewrite list_lookup_alter_ne, list_lookup_insert_ne.
Qed.

Lemma alter_same {A} (f : A -> A) k (l : list A) :
  (forall x, l !! k = Some x -> f x = x) -> alter f k l = l.
Proof.
  intros Hf. apply list_eq. intros j. destruct (decide (k = j)) as [->|Hne].
  - rewrite list_lookup_alter_eq. destruct (l !! j) as [x|] eqn:E; [|done].
    cbn. by rewrite Hf.
  - by rewrite list_lookup_alter_ne.
Qed.

Lemma updateListeners_slots bs : forall k s,
  remoteUpdatePending <$> (updateListeners k bs s).1 = remoteUpdatePending <$> bs /\
  isUpdating <$> (updateListeners k bs s).1 = isUpdating <$> bs.
Proof.
  induction bs as [|b bs IH]; intros k s; [done|].
  rewrite updateListeners_cons. cbn [fst]. rewrite !fmap_cons.
  destruct (IH (S k) (onEditorUpdate k b s).2) as [-> ->].
  unfold onEditorUpdate. destruct (isUpdating b) eqn:E; cbn; by rewrite ?E.
Qed.

Lemma bindingsOf_setContent c e s :
  bindingsOf (setContent c e s) =
    if e then (updateListeners 0 (bindingsOf s) s).1 else bindingsOf s.
Proof.
  unfold setContent, bindingsOf. destruct (editor s) as [ed|] eqn:He.
  - destruct e; [|done]. cbn. by destruct (updateListeners 0 (bindings ed) s).
  - rewrite He. by destruct e.
Qed.

Lemma slots_setContent c e s :
  slots (setContent c e s) = slots s /\ flags (setContent c e s) = flags s.
Proof.
  unfold slots, flags. rewrite bindingsOf_setContent.
  destruct e; [apply updateListeners_slots|done].
Qed.

(** What [setContent] leaves of the editor. *)
Lemma editor_setContent c e s ed :
  editor s = Some ed ->
  exists bs,
    editor (setContent c e s) =
      Some {| getHTML := c; hasFocus := hasFocus ed; bindings := bs;
              _setPendingRemoteUpdate := _setPendingRemoteUpdate ed;
              _syncIsUpdating := _syncIsUpdating ed |} /\
    length bs = length (bindings ed).
Proof.
  intros He. unfold setContent. rewrite He. destruct e.
  - pose proof (updateListeners_length (bindings (set_getHTML c ed)) 0 s) as Hl.
    destruct (updateListeners 0 (bindings (set_getHTML c ed)) s) as [bs s'].
    exists bs. by split.
  - by exists (bindings ed).
Qed.

Lemma rendered_setContent c e s :
  rendered (setContent c e s) = (fun _ => c) <$> rendered s.
Proof.
  unfold rendered. destruct (editor s) as [ed|] eqn:He.
  - destruct (editor_setContent c e s ed He) as (bs&->&_). done.
  - unfold setContent. rewrite He. cbn. by rewrite He.
Qed.

Lemma bindingsOf_setBinding k f s :
  bindingsOf (setBinding k f s) = alter f k (bindingsOf s).
Proof.
  unfold setBinding, bindingsOf. destruct (editor s) eqn:He; [done|]. by rewrite He.
Qed.

Lemma rendered_setBinding k f s : rendered (setBinding k f s) = rendered s.
Proof.
  unfold setBinding, rendered. destruct (editor s) eqn:He; [done|]. by rewrite He.
Qed.

(** The blur listener of binding [k], seen from the slots and from what
    the editor shows. *)
Lemma onEditorBlur_slots k s :
  slots (onEditorBlur k s) = alter cleared k (slots s) /\
  flags (onEditorBlur k s) =
    alter (fun v => if decide (cleared <$> slots s !! k = slots s !! k)
                    then v else false) k (flags s) /\
  rendered (onEditorBlur k s) =
    (fun c => applied c (from_option id None (slots s !! k))) <$> rendered s.
Proof.
  assert (Hsame : forall p, slots s !! k = Some p -> cleared p = p ->
            onEditorBlur k s = s ->
            slots (onEditorBlur k s) = alter cleared k (slots s) /\
            flags (onEditorBlur k s) =
              alter (fun v => if decide (cleared <$> slots s !! k = slots s !! k)
                              then v else false) k (flags s) /\
            rendered (onEditorBlur k s) =
              (fun c => applied c (from_option id None (slots s !! k))) <$> rendered s).
  { intros p Hp Hc ->. rewrite Hp. cbn.
    split; [by rewrite alter_same by (intros; congruence)|].
    split; [by rewrite alter_same by (intros; by rewrite Hc, decide_True)|].
    unfold rendered. destruct (editor s); [|done]. cbn. f_equal.
    destruct p as [x|]; [|done]. cbn in *. by destruct (truthy x). }
  destruct (editor s) as [ed|] eqn:He.
  2:{ assert (E : onEditorBlur k s = s) by (unfold onEditorBlur; by rewrite He).
      rewrite E. unfold slots, flags, rendered, bindingsOf. by rewrite He. }
  assert (Hsl : slots s !! k = remoteUpdatePending <$> bindings ed !! k).
  { unfold slots, bindingsOf. by rewrite He, list_lookup_fmap. }
  assert (Hfl : flags s !! k = isUpdating <$> bindings ed !! k).
  { unfold flags, bindingsOf. by rewrite He, list_lookup_fmap. }
  destruct (bindings ed !! k) as [b|] eqn:Hb.
  2:{ assert (E : onEditorBlur k s = s) by (unfold onEditorBlur; by rewrite He, Hb).
      rewrite E. cbn in Hsl, Hfl. rewrite Hsl. cbn.
      rewrite !alter_same by (intros x Hx; congruence).
      split; [done|]. split; [done|]. unfold rendered. by rewrite He. }
  cbn in Hsl, Hfl.
  destruct (remoteUpdatePending b) as [pending|] eqn:Hp.
  2:{ apply (Hsame None); try done. unfold onEditorBlur. by rewrite He, Hb, Hp. }
  destruct (truthy pending) eqn:Ht.
  2:{ apply (Hsame (Some pending)); try done.
      - cbn. by rewrite Ht.
      - unfold onEditorBlur. by rewrite He, Hb, Hp, Ht. }
  clear Hsame.
  assert (E : onEditorBlur k s =
              setBinding k clearPending
                (setContent pending optionsObject
                   (setBinding k (set_isUpdating true) s)))
    by (unfold onEditorBlur; by rewrite He, Hb, Hp, Ht).
  rewrite E. clear E. rewrite Hsl. cbn. rewrite Ht.
  set (s1 := setBinding k (set_isUpdating true) s).
  set (s2 := setContent pending optionsObject s1).
  destruct (slots_setContent pending optionsObject s1) as [E1 E2]. fold s2 in E1, E2.
  assert (F1 : slots s1 = slots s).
  { unfold slots, s1. rewrite bindingsOf_setBinding.
    rewrite (list_fmap_alter _ _ id); [by rewrite list_alter_id|].
    by apply Forall_true. }
  split; [|split].
  - unfold slots at 1. rewrite bindingsOf_setBinding.
    rewrite (list_fmap_alter _ _ (fun _ => None)) by (by apply Forall_true).
    fold (slots s2). rewrite E1, F1.
    rewrite (alter_at _ _ _ _ Hsl), (alter_at _ _ _ _ Hsl). cbn. by rewrite Ht.
  - unfold flags at 1. rewrite bindingsOf_setBinding.
    rewrite (list_fmap_alter _ _ (fun _ => false)) by (by apply Forall_true).
    fold (flags s2). rewrite E2. unfold flags, s1. rewrite bindingsOf_setBinding.
    rewrite (list_fmap_alter _ _ (fun _ => true)) by (by apply Forall_true).
    fold (flags s). rewrite list_alter_alter_eq. done.
  - rewrite rendered_setBinding. unfold s2. rewrite rendered_setContent.
    unfold s1. rewrite rendered_setBinding. unfold rendered. rewrite He. done.
Qed.

Lemma editorFrame_setContent c e s : editorFrame (setContent c e s) = editorFrame s.
Proof.
  unfold editorFrame. destruct (editor s) as [ed|] eqn:He.
  - destruct (editor_setContent c e s ed He) as (bs&->&Hl). cbn. by rewrite Hl.
  - unfold setContent. rewrite He. cbn. by rewrite He.
Qed.

Lemma editorFrame_setBinding k f s : editorFrame (setBinding k f s) = editorFrame s.
Proof.
  unfold editorFrame, setBinding. destruct (editor s) as [ed|] eqn:He; rewrite ?He; [|done].
  cbn. by rewrite length_alter.
Qed.

Lemma editorFrame_onEditorBlur k s : editorFrame (onEditorBlur k s) = editorFrame s.
Proof.
  unfold onEditorBlur. repeat case_match; try done.
  by rewrite editorFrame_setBinding, editorFrame_setContent, editorFrame_setBinding.
Qed.

Lemma editorFrame_blurListeners ks : forall s,
  editorFrame (blurListeners ks s) = editorFrame s.
Proof.
  induction ks as [|k ks IH]; intros s; [done|].
  change (blurListeners (k :: ks) s) with (blurListeners ks (onEditorBlur k s)).
  by rewrite IH, editorFrame_onEditorBlur.
Qed.

Lemma cleared_cleared p : cleared (cleared p) = cleared p.
Proof.
  destruct p as [x|]; [|done]. cbn. destruct (truthy x) eqn:E; [done|]. cbn. by rewrite E.
Qed.

(** A blur listener whose slot is empty does nothing. *)
Lemma onEditorBlur_empty k s :
  (forall p, slots s !! k = Some p -> cleared p = p) -> onEditorBlur k s = s.
Proof.
  intros Hk. unfold onEditorBlur.
  destruct (editor s) as [ed|] eqn:He; [|done].
  destruct (bindings ed !! k) as [b|] eqn:Hb; [|done].
  destruct (remoteUpdatePending b) as [x|] eqn:Hp; [|done].
  destruct (truthy x) eqn:Ht; [|done].
  specialize (Hk (Some x)). unfold slots, bindingsOf in Hk.
  rewrite He, list_lookup_fmap, Hb in Hk. cbn in Hk. rewrite Hp, Ht in Hk.
  by specialize (Hk eq_refl).
Qed.

Lemma blurListeners_empty ks : forall s,
  Forall (fun p => cleared p = p) (slots s) -> blurListeners ks s = s.
Proof.
  induction ks as [|k ks IH]; intros s Hs; [done|].
  change (blurListeners (k :: ks) s) with (blurListeners ks (onEditorBlur k s)).
  rewrite onEditorBlur_empty; [by apply IH|].
  intros p Hp. by apply (Forall_lookup_1 _ _ _ _ Hs Hp).
Qed.

(** The slots after the blur listeners of the bindings [ks]. *)
Lemma blurListeners_slots ks : forall s j,
  slots (blurListeners ks s) !! j =
    if decide (j ∈ ks) then cleared <$> slots s !! j else slots s !! j.
Proof.
  induction ks as [|k ks IH]; intros s j.
  - rewrite decide_False; [done|]. apply not_elem_of_nil.
  - change (blurListeners (k :: ks) s) with (blurListeners ks (onEditorBlur k s)).
    rewrite IH. destruct (onEditorBlur_slots k s) as (E&_). rewrite E.
    destruct (decide (j = k)) as [->|Hne].
    + rewrite list_lookup_alter_eq, (decide_True (P := k ∈ k :: ks)) by left.
      case_decide; destruct (slots s !! k); cbn; by rewrite ?cleared_cleared.
    + rewrite list_lookup_alter_ne by done.
      destruct (decide (j ∈ ks)) as [Hin|Hout].
      * by rewrite decide_True by (by right).
      * rewrite decide_False; [done|]. by intros [?|?]%elem_of_cons.
Qed.

(** What the editor shows after the blur listeners of [m] bindings from
    the [i]-th on. *)
Lemma blurListeners_rendered m : forall i s,
  rendered (blurListeners (seq i m) s) =
    lastPending (take m (drop i (slots s))) <$> rendered s.
Proof.
  induction m as [|m IH]; intros i s.
  - cbn. rewrite take_0. by destruct (rendered s).
  - cbn [seq].
    change (blurListeners (i :: seq (S i) m) s)
      with (blurListeners (seq (S i) m) (onEditorBlur i s)).
    rewrite IH. destruct (onEditorBlur_slots i s) as (E1&_&E3). rewrite E1, E3.
    rewrite drop_alter. rewrite decide_False by lia.
    destruct (rendered s) as [c|]; [|done]. cbn. f_equal.
    destruct (slots s !! i) as [p|] eqn:Ei.
    + by rewrite (drop_S _ _ _ Ei).
    + apply lookup_ge_None in Ei.
      by rewrite (drop_ge (slots s) i), (drop_ge (slots s) (S i)), take_nil by lia.
Qed.

Lemma editorBlur_unfold s ed :
  editor s = Some ed ->
  editorBlur s =
    blurListeners (seq 0 (length (slots s)))
      (set_editor (Some (set_hasFocus false ed)) s).
Proof.
  intros He. unfold editorBlur, slots, bindingsOf. by rewrite He, length_fmap.
Qed.

(** After a blur the editor shows the content of the last slot that
    held one, and every slot is empty. *)
Lemma editorBlur_rendered s :
  rendered (editorBlur s) = lastPending (slots s) <$> rendered s.
Proof.
  destruct (editor s) as [ed|] eqn:He.
  - rewrite (editorBlur_unfold s ed He), blurListeners_rendered.
    change (slots (set_editor (Some (set_hasFocus false ed)) s))
      with (remoteUpdatePending <$> bindings ed).
    assert (Es : slots s = remoteUpdatePending <$> bindings ed)
      by (unfold slots, bindingsOf; by rewrite He).
    rewrite Es, drop_0, firstn_all. unfold rendered. cbn. by rewrite He.
  - unfold editorBlur, rendered. rewrite He. cbn. by rewrite He.
Qed.

Lemma editorBlur_slots s : slots (editorBlur s) = cleared <$> slots s.
Proof.
  destruct (editor s) as [ed|] eqn:He.
  - rewrite (editorBlur_unfold s ed He). apply list_eq. intros j.
    rewrite blurListeners_slots, list_lookup_fmap.
    change (slots (set_editor (Some (set_hasFocus false ed)) s))
      with (remoteUpdatePending <$> bindings ed).
    assert (Es : slots s = remoteUpdatePending <$> bindings ed)
      by (unfold slots, bindingsOf; by rewrite He).
    rewrite Es. case_decide as Hj; [done|].
    rewrite elem_of_seq in Hj.
    rewrite lookup_ge_None_2; [done|]. lia.
  - unfold editorBlur, slots, bindingsOf. rewrite He. cbn. by rewrite He.
Qed.

Lemma editorBlur_frame s :
  editorFrame (editorBlur s) =
    (fun ed => (false, _setPendingRemoteUpdate ed, _syncIsUpdating ed,
                length (bindings ed))) <$> editor s.
Proof.
  unfold editorBlur. destruct (editor s) as [ed|] eqn:He.
  - by rewrite editorFrame_blurListeners.
  - unfold editorFrame. by rewrite He.
Qed.

Lemma editorBlur_idempotent s : editorBlur (editorBlur s) = editorBlur s.
Proof.
  destruct (editor (editorBlur s)) as [ed'|] eqn:He'.
  2:{ unfold editorBlur at 1. by rewrite He'. }
  unfold editorBlur at 1. rewrite He'.
  assert (Hf : hasFocus ed' = false).
  { pose proof (editorBlur_frame s) as Hfr. unfold editorFrame in Hfr.
    rewrite He' in Hfr. destruct (editor s); by simplify_eq/=. }
  assert (E : set_editor (Some (set_hasFocus false ed')) (editorBlur s) = editorBlur s).
  { destruct ed'. cbn in Hf. subst. unfold set_hasFocus.
    cbn [getHTML hasFocus bindings _setPendingRemoteUpdate _syncIsUpdating].
    rewrite <- He'. by destruct (editorBlur s). }
  rewrite E. apply blurListeners_empty.
  rewrite editorBlur_slots. apply Forall_fmap, Forall_true. intros p. apply cleared_cleared.
Qed.

Lemma editorOnly_mergedContent s s' : editorOnly s s' -> mergedContent s' = mergedContent s.
Proof. intros ->. done. Qed.

Lemma mergedContent_editorBlur s : mergedContent (editorBlur s) = mergedContent s.
Proof. apply editorOnly_mergedContent, editorOnly_editorBlur. Qed.

Lemma pendingSlot_slots s :
  pendingSlot s =
    match editor s with
    | Some ed =>
      match _setPendingRemoteUpdate ed with
      | Some k => from_option id None (slots s !! k)
      | None => None
      end
    | None => None
    end.
Proof.
  unfold pendingSlot, slots, bindingsOf. destruct (editor s) as [ed|]; [|done].
  destruct (_setPendingRemoteUpdate ed) as [k|]; [|done].
  rewrite list_lookup_fmap. by destruct (bindings ed !! k).
Qed.

Lemma lastPending_snoc l p c : lastPending (l ++ [p]) c = applied (lastPending l c) p.
Proof. unfold lastPending. by rewrite foldl_app. Qed.

(** What the ['yjs-update'] listener does once the update is merged:
    nothing unless the merged ['content'] is non-empty and differs from
    what the editor shows. *)
Lemma onYjsUpdate_cases u s s1 ed :
  applyUpdate (ydoc s) u OriginRemote s = Some s1 ->
  editor s = Some ed ->
  editor s1 = Some ed /\
  onYjsUpdate (Some u) s =
    match mergedContent s1 with
    | Some c =>
      if truthy c && negb (bool_decide (c = getHTML ed)) then
        if hasFocus ed then
          match _setPendingRemoteUpdate ed with
          | Some k => set_editor (Some (setPendingRemoteUpdate k c ed)) s1
          | None => s1
          end
        else setContent c optionsObject s1
      else s1
    | None => s1
    end.
Proof.
  intros Ha He.
  assert (He1 : editor s1 = Some ed).
  { apply applyUpdate_shape in Ha as (?&?&?&?&?&?&?&?&->). done. }
  split; [done|]. unfold onYjsUpdate. rewrite Ha. unfold mergedContent.
  destruct (yMetadata_get "content" s1) as [[c|]|]; [|done|done].
  rewrite He1. destruct (truthy c); [|done]. cbn.
  case_decide as Hc.
  - by rewrite bool_decide_eq_true_2.
  - by rewrite bool_decide_eq_false_2.
Qed.

Lemma slots_setPendingRemoteUpdate k c ed s :
  slots (set_editor (Some (setPendingRemoteUpdate k c ed)) s) =
    alter (fun _ => Some c) k (remoteUpdatePending <$> bindings ed).
Proof.
  unfold slots, bindingsOf. cbn.
  by rewrite (list_fmap_alter _ _ (fun _ => Some c)) by (by apply Forall_true).
Qed.

(** A ['yjs-update'] received with the editor focused changes one slot
    of the editor at most. *)
Lemma focused_update_effect s i pageId isEncrypted u ed k c :
  sources s !! i =
    Some {| es_stream := PageStream pageId isEncrypted; readyState := OPEN |} ->
  editor s = Some ed ->
  hasFocus ed = true ->
  _setPendingRemoteUpdate ed = Some k ->
  mergedContent <$> applyUpdate (ydoc s) u OriginRemote s = Some (Some c) ->
  let s1 := step s (SourceMessage i (MYjsUpdate (Some u))) in
  mergedContent s1 = Some c /\
  editor s1 =
    Some (if truthy c && negb (bool_decide (c = getHTML ed))
          then setPendingRemoteUpdate k c ed else ed).
Proof.
  intros Hi He Hf Hk Ham s1.
  destruct (applyUpdate (ydoc s) u OriginRemote s) as [s0|] eqn:Ha; [|done].
  assert (Hm : mergedContent s0 = Some c) by (by injection Ham).
  clear Ham.
  destruct (onYjsUpdate_cases u s s0 ed Ha He) as [He0 E].
  rewrite Hm, Hf, Hk in E.
  assert (Es : s1 = onYjsUpdate (Some u) s).
  { unfold s1. cbn [step]. by rewrite (sourceMessage_page _ _ _ _ _ Hi). }
  rewrite E in Es. clearbody s1. subst s1.
  by destruct (truthy c && negb (bool_decide (c = getHTML ed))).
Qed.

Lemma pendingSlot_editorBlur s : pendingSlot (editorBlur s) = cleared (pendingSlot s).
Proof.
  rewrite !pendingSlot_slots, editorBlur_slots.
  pose proof (editorBlur_frame s) as Hfr. unfold editorFrame in Hfr.
  destruct (editor s) as [ed|] eqn:He.
  - destruct (editor (editorBlur s)) as [ed'|]; [|done]. cbn in Hfr.
    injection Hfr as _ -> _ _.
    destruct (_setPendingRemoteUpdate ed) as [k|]; [|done].
    rewrite list_lookup_fmap. by destruct (slots s !! k).
  - by destruct (editor (editorBlur s)).
Qed.

Lemma slots_of_editor s ed :
  editor s = Some ed -> slots s = remoteUpdatePending <$> bindings ed.
Proof. intros He. unfold slots, bindingsOf. by rewrite He. Qed.

(** C10: what the slot holds after a ['yjs-update'] received with the
    editor focused.  The slot behind [_setPendingRemoteUpdate] takes the
    merged ['content'] only when that is non-empty and differs from what
    the editor shows (the later of two such contents is what it holds);
    otherwise it keeps what it held, so that it need not hold the content
    of the most recent update.  The slots of the other bindings and what
    the editor shows are unchanged.  The blur that follows shows the
    content of the last binding whose slot holds one, empties every
    slot, and a second blur changes nothing. *)
Theorem pending_slot_after_focused_update s i pageId isEncrypted u ed k c :
  sources s !! i =
    Some {| es_stream := PageStream pageId isEncrypted; readyState := OPEN |} ->
  editor s = Some ed ->
  hasFocus ed = true ->
  _setPendingRemoteUpdate ed = Some k ->
  k < length (bindings ed) ->
  mergedContent <$> applyUpdate (ydoc s) u OriginRemote s = Some (Some c) ->
  let s1 := step s (SourceMessage i (MYjsUpdate (Some u))) in
  let s2 := step s1 EditorBlur in
  pendingSlot s1 =
    (if truthy c && negb (bool_decide (c = getHTML ed)) then Some c
     else pendingSlot s) /\
  (forall j, j <> k -> slots s1 !! j = slots s !! j) /\
  rendered s1 = rendered s /\
  mergedContent s1 = Some c /\
  rendered s2 = lastPending (slots s1) <$> rendered s1 /\
  slots s2 = cleared <$> slots s1 /\
  step s2 EditorBlur = s2.
Proof.
  intros Hi He Hf Hk Hlt Ham s1 s2.
  destruct (focused_update_effect s i pageId isEncrypted u ed k c Hi He Hf Hk Ham)
    as [Hm He1].
  fold s1 in Hm, He1.
  assert (Hblur : rendered s2 = lastPending (slots s1) <$> rendered s1 /\
                  slots s2 = cleared <$> slots s1 /\ step s2 EditorBlur = s2).
  { unfold s2. cbn [step]. split; [apply editorBlur_rendered|].
    split; [apply editorBlur_slots|apply editorBlur_idempotent]. }
  clearbody s2 s1.
  assert (Hfirst : pendingSlot s1 =
                     (if truthy c && negb (bool_decide (c = getHTML ed)) then Some c
                      else pendingSlot s) /\
                   (forall j, j <> k -> slots s1 !! j = slots s !! j) /\
                   rendered s1 = rendered s).
  { rewrite pendingSlot_slots, He1, (slots_of_editor s1 _ He1), (slots_of_editor s _ He).
    unfold rendered. rewrite He1, He.
    destruct (truthy c && negb (bool_decide (c = getHTML ed))) eqn:Eg.
    - change (_setPendingRemoteUpdate (setPendingRemoteUpdate k c ed))
        with (_setPendingRemoteUpdate ed).
      change (bindings (setPendingRemoteUpdate k c ed))
        with (alter (storePending c) k (bindings ed)).
      rewrite Hk, (list_fmap_alter _ _ (fun _ => Some c)) by (by apply Forall_true).
      split.
      { rewrite list_lookup_alter_eq, list_lookup_fmap.
        by destruct (lookup_lt_is_Some_2 _ _ Hlt) as [b ->]. }
      split; [intros j Hj; by rewrite list_lookup_alter_ne|done].
    - rewrite pendingSlot_slots, He, Hk, (slots_of_editor s _ He). done. }
  destruct Hfirst as (A1&A2&A3). destruct Hblur as (B1&B2&B3).
  repeat split; assumption.
Qed.

(** ** Rendering deferred while the editor has focus *)

(** On the guarded path the deferral works: with the editor focused and
    the slot of its newest binding behind [_setPendingRemoteUpdate], a
    ['yjs-update'] whose merge leaves a non-empty ['content'] different
    from what the editor shows does not change what the editor shows and
    stores that content; the blur that follows shows it and empties the
    slot. *)
Lemma focused_update_deferred_until_blur s i pageId isEncrypted u ed bs b c :
  sources s !! i =
    Some {| es_stream := PageStream pageId isEncrypted; readyState := OPEN |} ->
  editor s = Some ed ->
  hasFocus ed = true ->
  bindings ed = bs ++ [b] ->
  _setPendingRemoteUpdate ed = Some (length bs) ->
  mergedContent <$> applyUpdate (ydoc s) u OriginRemote s = Some (Some c) ->
  truthy c = true ->
  c <> getHTML ed ->
  deferred_until_blur s i u.
Proof.
  intros Hi He Hf Hb Hk Ham Ht Hne. unfold deferred_until_blur.
  destruct (focused_update_effect s i pageId isEncrypted u ed (length bs) c
              Hi He Hf Hk Ham) as [Hm He1].
  rewrite Ht, bool_decide_eq_false_2 in He1 by done. cbn [andb negb] in He1.
  set (s1 := step s (SourceMessage i (MYjsUpdate (Some u)))) in *.
  cbn [step]. clearbody s1.
  assert (Hsl : slots s1 = (remoteUpdatePending <$> bs) ++ [Some c]).
  { rewrite (slots_of_editor s1 _ He1).
    change (bindings (setPendingRemoteUpdate (length bs) c ed))
      with (alter (storePending c) (length bs) (bindings ed)).
    rewrite Hb, alter_app_r_alt, Nat.sub_diag by lia. by rewrite fmap_app. }
  assert (Hps : pendingSlot s1 = Some c).
  { rewrite pendingSlot_slots, He1.
    change (_setPendingRemoteUpdate (setPendingRemoteUpdate (length bs) c ed))
      with (_setPendingRemoteUpdate ed).
    rewrite Hk, Hsl, list_lookup_middle; [done|by rewrite length_fmap]. }
  split; [unfold rendered; by rewrite He1, He|].
  split; [by rewrite Hps, Hm|].
  split.
  - rewrite editorBlur_rendered, mergedContent_editorBlur, Hm, Hsl.
    unfold rendered. rewrite He1. cbn [fmap option_fmap option_map].
    rewrite lastPending_snoc. cbn. by rewrite Ht.
  - rewrite pendingSlot_editorBlur, Hps. cbn. by rewrite Ht.
Qed.

(** C2: the blur renders what the slot holds, whatever the merged state
    reads.  With the editor focused and a content [p] pending in the
    slot of its newest binding, a ['yjs-update'] whose merged ['content']
    is what the editor shows (or is empty) is merged but neither stored
    nor does it empty the slot; the blur that follows makes the editor
    show [p], which is not the content of the merged state. *)
Theorem stale_content_rendered_on_blur s i pageId isEncrypted u ed bs b p c :
  sources s !! i =
    Some {| es_stream := PageStream pageId isEncrypted; readyState := OPEN |} ->
  editor s = Some ed ->
  hasFocus ed = true ->
  bindings ed = bs ++ [b] ->
  _setPendingRemoteUpdate ed = Some (length bs) ->
  remoteUpdatePending b = Some p ->
  truthy p = true ->
  mergedContent <$> applyUpdate (ydoc s) u OriginRemote s = Some (Some c) ->
  c = getHTML ed \/ truthy c = false ->
  p <> c ->
  let s1 := step s (SourceMessage i (MYjsUpdate (Some u))) in
  let s2 := step s1 EditorBlur in
  (rendered s1 = rendered s /\ pendingSlot s1 = Some p /\ mergedContent s1 = Some c) /\
  (rendered s2 = Some p /\ mergedContent s2 = Some c /\ pendingSlot s2 = None) /\
  ~ deferred_until_blur s i u.
Proof.
  intros Hi He Hf Hb Hk Hp Ht Ham Hguard Hne s1 s2.
  destruct (focused_update_effect s i pageId isEncrypted u ed (length bs) c
              Hi He Hf Hk Ham) as [Hm He1].
  assert (Eg : truthy c && negb (bool_decide (c = getHTML ed)) = false).
  { destruct Hguard as [->| ->]; [|done].
    by rewrite bool_decide_eq_true_2, andb_false_r. }
  rewrite Eg in He1.
  assert (Hd : deferred_until_blur s i u <->
               (rendered s1 = rendered s /\ pendingSlot s1 = mergedContent s1 /\
                rendered s2 = mergedContent s2 /\ pendingSlot s2 = None)) by done.
  assert (Es2 : s2 = editorBlur s1) by done.
  fold s1 in Hm, He1. clearbody s2 s1. subst s2.
  assert (Hsl : slots s1 = (remoteUpdatePending <$> bs) ++ [Some p]).
  { rewrite (slots_of_editor s1 _ He1), Hb, fmap_app. cbn. by rewrite Hp. }
  assert (Hps : pendingSlot s1 = Some p).
  { rewrite pendingSlot_slots, He1, Hk, Hsl, list_lookup_middle; [done|].
    by rewrite length_fmap. }
  assert (Hr2 : rendered (editorBlur s1) = Some p).
  { rewrite editorBlur_rendered, Hsl. unfold rendered.
    rewrite He1. cbn [fmap option_fmap option_map].
    rewrite lastPending_snoc. cbn. by rewrite Ht. }
  assert (Hm2 : mergedContent (editorBlur s1) = Some c).
  { by rewrite mergedContent_editorBlur. }
  split; [|split].
  - split; [unfold rendered; by rewrite He1, He|done].
  - split; [done|]. split; [done|]. rewrite pendingSlot_editorBlur, Hps. cbn.
    by rewrite Ht.
  - rewrite Hd. intros (_&_&Hbad&_). rewrite Hr2, Hm2 in Hbad. congruence.
Qed.
(** ** No sync on an encrypted page *)

Lemma filter_alter_keep {A} (f : A -> bool) (g : A -> A) i (l : list A) :
  (forall x, f (g x) = f x) ->
  (forall x, l !! i = Some x -> f x = true -> g x = x) ->
  List.filter f (alter g i l) = List.filter f l.
Proof.
  intros Hf. revert i. induction l as [|a l IH]; intros i Hg; [done|].
  destruct i as [|i].
  - change (alter g 0 (a :: l)) with (g a :: l). cbn [List.filter].
    rewrite Hf. destruct (f a) eqn:Ea; [|done].
    by rewrite (Hg a eq_refl Ea).
  - change (alter g (S i) (a :: l)) with (a :: alter g i l). cbn [List.filter].
    rewrite (IH i); [done|]. intros x Hx. by apply (Hg x).
Qed.

Lemma isPageOf_closedES p es : isPageOf p (closedES es) = isPageOf p es.
Proof. done. Qed.

Lemma closedES_closed es : readyState es = CLOSED -> closedES es = es.
Proof. destruct es as [st rs]. simpl. by intros ->. Qed.

Lemma closedFor_lookup p l i es :
  closedFor p l -> l !! i = Some es -> isPageOf p es = true -> readyState es = CLOSED.
Proof. intros Hl Hi. by apply (Forall_lookup_1 _ _ _ _ Hl Hi). Qed.

Lemma closedFor_alter p i l : closedFor p l -> closedFor p (alter closedES i l).
Proof.
  intros Hl. apply Forall_lookup_2. intros j es Hj.
  destruct (decide (i = j)) as [->|Hne].
  - rewrite list_lookup_alter_eq in Hj.
    destruct (l !! j); simplify_eq/=. done.
  - rewrite list_lookup_alter_ne in Hj by done. by eapply closedFor_lookup.
Qed.

Lemma pageSources_alter p i l :
  closedFor p l ->
  List.filter (isPageOf p) (alter closedES i l) = List.filter (isPageOf p) l.
Proof.
  intros Hl. apply filter_alter_keep; [done|].
  intros es Hi Hp. apply closedES_closed. by eapply closedFor_lookup.
Qed.

Lemma untargeted_targets p s s' :
  targets s' = targets s ->
  untargeted p s -> untargeted p s' /\ pageSources p s' = pageSources p s.
Proof.
  unfold targets, untargeted, pageSources. intros [= E1 E2 E3 E4].
  by rewrite E1, E2, E3, E4.
Qed.

Ltac targets_frame :=
  intros; repeat case_match; simplify_eq; use_shapes; unfold targets; cbn; try done.

Lemma targets_onInit payload s : targets (onInit payload s) = targets s.
Proof. unfold onInit, setupEditorBinding. targets_frame. Qed.


Lemma targets_debounced s : targets (debounced s) = targets s.
Proof. unfold debounced. targets_frame. Qed.


Lemma untargeted_close p i s :
  untargeted p s ->
  untargeted p (close i s) /\ pageSources p (close i s) = pageSources p s.
Proof.
  intros (H1&H2&H3&H4). unfold untargeted, pageSources, close. cbn.
  split; [|by apply pageSources_alter].
  repeat split; try done. by apply closedFor_alter.
Qed.

Lemma stopPageSync_targets s :
  currentPageId (stopPageSync s) = None /\
  currentPageSync (stopPageSync s) = None /\
  timers (stopPageSync s) = timers s /\
  sources (stopPageSync s) =
    match currentPageSync s with
    | Some ps => alter closedES (ps_eventSource ps) (sources s)
    | None => sources s
    end.
Proof.
  unfold stopPageSync, close, destroy.
  destruct (currentPageSync s) as [ps|] eqn:Eps; cbn; destruct (ydoc s); cbn; done.
Qed.

Lemma untargeted_stopPageSync p s :
  untargeted p s ->
  untargeted p (stopPageSync s) /\ pageSources p (stopPageSync s) = pageSources p s.
Proof.
  intros (H1&H2&H3&H4).
  destruct (stopPageSync_targets s) as (E1&E2&E3&E4).
  unfold untargeted, pageSources. rewrite E1, E2, E3, E4.
  destruct (currentPageSync s) as [ps|].
  - split; [|by apply pageSources_alter].
    repeat split; try done. by apply closedFor_alter.
  - done.
Qed.

Lemma untargeted_startPageSync p pageId isEncrypted s :
  CallStartPageSync pageId isEncrypted <> CallStartPageSync p false ->
  untargeted p s ->
  untargeted p (startPageSync pageId isEncrypted s) /\
  pageSources p (startPageSync pageId isEncrypted s) = pageSources p s.
Proof.
  intros Hne Hu. destruct isEncrypted.
  { revert Hu. by apply untargeted_targets. }
  assert (Hp : pageId <> p) by congruence.
  destruct (untargeted_stopPageSync p s Hu) as ((H1&H2&H3&H4)&H5).
  destruct (startPageSync_fields pageId s) as (F1&F2&_&_&_&F6&_).
  destruct (startPageSync_frame pageId s) as (_&K2&_).
  destruct (stopPageSync_frame s) as (_&G2&_).
  unfold untargeted, pageSources. rewrite F1, F2, F6, K2, <- G2.
  assert (Hnew : isPageOf p {| es_stream := PageStream pageId false;
                               readyState := CONNECTING |} = false).
  { unfold isPageOf. cbn. by apply bool_decide_eq_false_2. }
  split.
  - split; [congruence|]. split; [by intros ps [= <-]|]. split; [done|].
    apply Forall_app_2; [done|]. apply Forall_singleton. by rewrite Hnew.
  - rewrite List.filter_app. cbn [List.filter]. rewrite Hnew, app_nil_r. done.
Qed.
Lemma stopCollectionSync_targets s :
  currentPageId (stopCollectionSync s) = currentPageId s /\
  currentPageSync (stopCollectionSync s) = currentPageSync s /\
  timers (stopCollectionSync s) = timers s /\
  sources (stopCollectionSync s) =
    match currentCollectionSync s with
    | Some cs => alter closedES (cs_eventSource cs) (sources s)
    | None => sources s
    end.
Proof.
  unfold stopCollectionSync, close.
  destruct (currentCollectionSync s) eqn:Ecs; cbn; done.
Qed.

Lemma untargeted_stopCollectionSync p s :
  untargeted p s ->
  untargeted p (stopCollectionSync s) /\
  pageSources p (stopCollectionSync s) = pageSources p s.
Proof.
  intros (H1&H2&H3&H4).
  destruct (stopCollectionSync_targets s) as (E1&E2&E3&E4).
  unfold untargeted, pageSources. rewrite E1, E2, E3, E4.
  destruct (currentCollectionSync s) as [cs|].
  - split; [|by apply pageSources_alter].
    repeat split; try done. by apply closedFor_alter.
  - done.
Qed.

Lemma untargeted_startCollectionSync p collectionId s :
  untargeted p s ->
  untargeted p (startCollectionSync collectionId s) /\
  pageSources p (startCollectionSync collectionId s) = pageSources p s.
Proof.
  intros Hu.
  destruct (untargeted_stopCollectionSync p s Hu) as ((H1&H2&H3&H4)&H5).
  destruct (startCollectionSync_fields collectionId s) as (_&F2&_&F4&_).
  unfold untargeted, pageSources.
  assert (K : currentPageId (startCollectionSync collectionId s) =
              currentPageId (stopCollectionSync s) /\
              timers (startCollectionSync collectionId s) =
              timers (stopCollectionSync s)).
  { unfold startCollectionSync, newEventSource. by cbn. }
  destruct K as [K1 K2]. rewrite F2, F4, K1, K2.
  split.
  - repeat split; try done. apply Forall_app_2; [done|]. by apply Forall_singleton.
  - rewrite List.filter_app. cbn [List.filter isPageOf es_stream].
    by rewrite app_nil_r.
Qed.

Lemma untargeted_handleOnline p s :
  untargeted p s ->
  untargeted p (handleOnline s) /\ pageSources p (handleOnline s) = pageSources p s.
Proof.
  intros Hu. unfold handleOnline.
  set (s1 := match currentPageId s, currentPageSync s with
             | Some pageId, None =>
               if truthy pageId then startPageSync pageId false s else s
             | _, _ => s
             end).
  assert (Hu1 : untargeted p s1 /\ pageSources p s1 = pageSources p s).
  { unfold s1. destruct (currentPageId s) as [q|] eqn:Eq; [|done].
    destruct (currentPageSync s); [done|]. destruct (truthy q); [|done].
    apply untargeted_startPageSync; [|done].
    destruct Hu as (H1&_). congruence. }
  clearbody s1. destruct Hu1 as [Hu1 <-].
  set (s2 := match currentCollectionId s1, currentCollectionSync s1 with
             | Some collectionId, None =>
               if truthy collectionId then startCollectionSync collectionId s1 else s1
             | _, _ => s1
             end).
  assert (Hu2 : untargeted p s2 /\ pageSources p s2 = pageSources p s1).
  { unfold s2. repeat case_match; try done. by apply untargeted_startCollectionSync. }
  clearbody s2. destruct Hu2 as [Hu2 <-].
  revert Hu2. by apply untargeted_targets.
Qed.

Lemma untargeted_handleVisibilityChange p hidden s :
  untargeted p s ->
  untargeted p (handleVisibilityChange hidden s) /\
  pageSources p (handleVisibilityChange hidden s) = pageSources p s.
Proof.
  intros Hu. unfold handleVisibilityChange. destruct hidden; [done|].
  set (s1 := match currentPageSync s with
             | Some ps =>
               if isOpen (ps_eventSource ps) s then s
               else startPageSync (ps_pageId ps) false s
             | None => s
             end).
  assert (Hu1 : untargeted p s1 /\ pageSources p s1 = pageSources p s).
  { unfold s1. destruct (currentPageSync s) as [ps|] eqn:Eps; [|done].
    destruct (isOpen _ s); [done|].
    apply untargeted_startPageSync; [|done].
    destruct Hu as (_&H2&_). specialize (H2 ps Eps). congruence. }
  clearbody s1. destruct Hu1 as [Hu1 <-].
  repeat case_match; try done. by apply untargeted_startCollectionSync.
Qed.

Lemma untargeted_sourceOpen p i s :
  untargeted p s ->
  untargeted p (sourceOpen i s) /\ pageSources p (sourceOpen i s) = pageSources p s.
Proof.
  intros Hu. unfold sourceOpen.
  destruct (sources s !! i) as [[st rs]|] eqn:Ei; [|done].
  destruct rs; try done.
  destruct Hu as (H1&H2&H3&H4).
  assert (Hp : forall rs, isPageOf p {| es_stream := st; readyState := rs |} = false).
  { intros rs.
    destruct (isPageOf p {| es_stream := st; readyState := rs |}) eqn:E; [|done].
    by specialize (closedFor_lookup p _ i _ H4 Ei E). }
  assert (Ealt : <[i := {| es_stream := st; readyState := OPEN |}]> (sources s) =
                 alter (fun es => {| es_stream := es_stream es; readyState := OPEN |})
                   i (sources s)).
  { apply list_eq. intros j. destruct (decide (i = j)) as [->|Hne].
    - rewrite list_lookup_alter_eq, Ei.
      by rewrite list_lookup_insert_eq by (by eapply lookup_lt_Some).
    - by rewrite list_lookup_alter_ne, list_lookup_insert_ne. }
  unfold untargeted, pageSources. cbn. rewrite Ealt. split.
  - repeat split; try done. apply Forall_lookup_2. intros j es Hj.
    destruct (decide (i = j)) as [->|Hne].
    + rewrite list_lookup_alter_eq, Ei in Hj. cbn in Hj. injection Hj as <-.
      intros Hpo. by rewrite Hp in Hpo.
    + rewrite list_lookup_alter_ne in Hj by done. by eapply closedFor_lookup.
  - apply filter_alter_keep; [done|].
    intros es Hes Hpo. rewrite Ei in Hes. simplify_eq. by rewrite Hp in Hpo.
Qed.

Lemma reconnectFree_insert p id t m :
  (forall enc, action t <> Reconnect p enc) ->
  reconnectFree p m -> reconnectFree p (<[id := t]> m).
Proof. intros Ht Hm. by apply map_Forall_insert_2. Qed.

Lemma reconnectFree_delete p id m :
  reconnectFree p m -> reconnectFree p (delete id m).
Proof. intros Hm. by apply map_Forall_delete. Qed.

Lemma untargeted_sourceError p i s :
  untargeted p s ->
  untargeted p (sourceError i s) /\ pageSources p (sourceError i s) = pageSources p s.
Proof.
  intros Hu. unfold sourceError.
  destruct (sources s !! i) as [[st rs]|] eqn:Ei; [|done].
  assert (Hq : rs <> CLOSED -> forall q enc, st = PageStream q enc -> q <> p).
  { intros Hrs q enc -> ->. destruct Hu as (_&_&_&H4).
    apply Hrs. apply (closedFor_lookup p _ i _ H4 Ei).
    unfold isPageOf. cbn. by apply bool_decide_eq_true_2. }
  destruct (untargeted_close p i s Hu) as [(H1&H2&H3&H4) H5].
  assert (Hpage : forall q enc, q <> p ->
            untargeted p (onPageError i q enc s) /\
            pageSources p (onPageError i q enc s) = pageSources p s).
  { intros q enc Hne. unfold onPageError, setTimeout. cbn.
    split; [|exact H5].
    repeat split; try done. apply reconnectFree_insert; [|done].
    cbn. congruence. }
  destruct rs; try done; destruct st; try (by apply untargeted_close);
    apply Hpage; by eapply Hq.
Qed.

Lemma onEditorUpdate_timers p k b s :
  reconnectFree p (timers s) -> reconnectFree p (timers (onEditorUpdate k b s).2).
Proof.
  intros Hm. unfold onEditorUpdate. destruct (isUpdating b); [done|].
  cbn. apply reconnectFree_insert; [done|].
  destruct (updateTimeout b); [by apply reconnectFree_delete|done].
Qed.

Lemma updateListeners_timers p bs : forall k s,
  reconnectFree p (timers s) -> reconnectFree p (timers (updateListeners k bs s).2).
Proof.
  induction bs as [|b bs IH]; intros k s Hm; [done|].
  rewrite updateListeners_cons. cbn [snd]. by apply IH, onEditorUpdate_timers.
Qed.

Lemma untargeted_editorInput p content s :
  untargeted p s ->
  untargeted p (editorInput content s) /\
  pageSources p (editorInput content s) = pageSources p s.
Proof.
  intros (H1&H2&H3&H4). unfold editorInput.
  destruct (editor s) as [ed|]; [|done].
  pose proof (updateListeners_timers p (bindings (set_getHTML content ed)) 0 s H3) as Ht.
  destruct (updateListeners 0 (bindings (set_getHTML content ed)) s) as [bs s'] eqn:E.
  apply updateListeners_shape in E. cbn [snd] in Ht.
  rewrite E. rewrite E in Ht. unfold untargeted, pageSources. cbn. cbn in Ht. done.
Qed.

Lemma untargeted_editorOnly p s s' :
  editorOnly s s' -> reconnectFree p (timers s') ->
  untargeted p s -> untargeted p s' /\ pageSources p s' = pageSources p s.
Proof.
  intros E Ht (H1&H2&H3&H4). unfold untargeted, pageSources.
  rewrite E in Ht |- *. cbn in Ht |- *. done.
Qed.

Lemma setContent_timers p c e s :
  reconnectFree p (timers s) -> reconnectFree p (timers (setContent c e s)).
Proof.
  intros Hm. unfold setContent. destruct (editor s) as [ed|]; [|done].
  destruct e; [|done].
  pose proof (updateListeners_timers p (bindings (set_getHTML c ed)) 0 s Hm) as Ht.
  destruct (updateListeners 0 (bindings (set_getHTML c ed)) s) as [bs s'] eqn:E.
  done.
Qed.

Lemma setBinding_timers k f s : timers (setBinding k f s) = timers s.
Proof. unfold setBinding. by destruct (editor s). Qed.

Lemma onEditorBlur_timers p k s :
  reconnectFree p (timers s) -> reconnectFree p (timers (onEditorBlur k s)).
Proof.
  intros Hm. unfold onEditorBlur. repeat case_match; try done.
  rewrite setBinding_timers. apply setContent_timers. by rewrite setBinding_timers.
Qed.

Lemma blurListeners_timers p ks : forall s,
  reconnectFree p (timers s) -> reconnectFree p (timers (blurListeners ks s)).
Proof.
  induction ks as [|k ks IH]; intros s Hm; [done|].
  change (blurListeners (k :: ks) s) with (blurListeners ks (onEditorBlur k s)).
  by apply IH, onEditorBlur_timers.
Qed.

Lemma untargeted_editorBlur p s :
  untargeted p s ->
  untargeted p (editorBlur s) /\ pageSources p (editorBlur s) = pageSources p s.
Proof.
  intros Hu. apply untargeted_editorOnly; [apply editorOnly_editorBlur| |done].
  destruct Hu as (_&_&H3&_). unfold editorBlur. destruct (editor s); [|done].
  by apply blurListeners_timers.
Qed.

Lemma untargeted_onYjsUpdate p payload s :
  untargeted p s ->
  untargeted p (onYjsUpdate payload s) /\
  pageSources p (onYjsUpdate payload s) = pageSources p s.
Proof.
  intros Hu. unfold onYjsUpdate. destruct payload as [u|]; [|done].
  destruct (applyUpdate (ydoc s) u OriginRemote s) as [s1|] eqn:Ea; [|done].
  assert (Hu1 : untargeted p s1 /\ pageSources p s1 = pageSources p s).
  { use_shapes. revert Hu. by apply untargeted_targets. }
  destruct Hu1 as [Hu1 <-]. clear Ea.
  repeat case_match; try done.
  apply untargeted_editorOnly; [apply editorOnly_setContent| |done].
  apply setContent_timers, Hu1.
Qed.

Lemma untargeted_sourceMessage p i m s :
  untargeted p s ->
  untargeted p (sourceMessage i m s) /\
  pageSources p (sourceMessage i m s) = pageSources p s.
Proof.
  intros Hu. unfold sourceMessage. repeat case_match; try done;
    auto using untargeted_onYjsUpdate;
    revert Hu; apply untargeted_targets; auto using targets_onInit.
  - unfold onUserJoined. targets_frame.
  - unfold onMetadataChange. targets_frame.
  - unfold onPageListChange. targets_frame.
  - unfold onPageListChange. targets_frame.
Qed.

Lemma untargeted_timerFire p id s :
  untargeted p s ->
  untargeted p (timerFire id s) /\ pageSources p (timerFire id s) = pageSources p s.
Proof.
  intros Hu. unfold timerFire.
  destruct (timers s !! id) as [t|] eqn:Et; [|done].
  case_decide; [|done].
  assert (Hu' : untargeted p (set_timers (delete id (timers s)) s) /\
                pageSources p (set_timers (delete id (timers s)) s) = pageSources p s).
  { destruct Hu as (H1&H2&H3&H4). split; [|done].
    repeat split; try done. by apply reconnectFree_delete. }
  destruct Hu' as [Hu' <-].
  destruct (action t) as [q enc|k] eqn:Ea.
  - unfold reconnect. case_decide; [|done].
    apply untargeted_startPageSync; [|done].
    destruct Hu as (_&_&H3&_). specialize (H3 id t Et enc). cbn in H3.
    rewrite Ea in H3. congruence.
  - revert Hu'. apply untargeted_targets, targets_debounced.
Qed.

Lemma targets_editorFocus s : targets (editorFocus s) = targets s.
Proof. unfold editorFocus. targets_frame. Qed.


Lemma untargeted_step p s e :
  e <> CallStartPageSync p false ->
  untargeted p s ->
  untargeted p (step s e) /\ pageSources p (step s e) = pageSources p s.
Proof.
  intros Hne Hu. destruct e; cbn [step];
    auto using untargeted_startPageSync, untargeted_stopPageSync,
      untargeted_startCollectionSync, untargeted_stopCollectionSync,
      untargeted_handleOnline, untargeted_handleVisibilityChange,
      untargeted_sourceOpen, untargeted_sourceError, untargeted_timerFire,
      untargeted_editorInput, untargeted_sourceMessage, untargeted_editorBlur.
  all: revert Hu; apply untargeted_targets; auto using targets_editorFocus.
Qed.

Lemma untargeted_run p tr : forall s,
  Forall (fun e => e <> CallStartPageSync p false) tr ->
  untargeted p s ->
  untargeted p (run s tr) /\ pageSources p (run s tr) = pageSources p s.
Proof.
  induction tr as [|e tr IH]; intros s Htr Hu; [done|].
  apply Forall_cons in Htr as [He Htr].
  destruct (untargeted_step p s e He Hu) as [Hu1 <-].
  by apply IH.
Qed.

(** The case in which an encrypted page stays without a sync:
    [startPageSync] with [isEncrypted] constructs no source and no
    document and changes none of the module's variables; it only shows
    the notice.  If nothing in the state refers to a sync of the page,
    then after the call, whatever the host does next short of calling
    [startPageSync] for that page with [isEncrypted] false, online and
    visibility signals and timers included, no source is constructed for
    the page and every source of it stays closed. *)
Lemma encrypted_page_never_synced p s tr :
  untargeted p s ->
  Forall (fun e => e <> CallStartPageSync p false) tr ->
  startPageSync p true s = showInfo NoticeEncrypted s /\
  (sources (startPageSync p true s) = sources s /\
   docs (startPageSync p true s) = docs s /\
   control (startPageSync p true s) = control s) /\
  pageSources p (run (startPageSync p true s) tr) = pageSources p s /\
  Forall (fun es => readyState es = CLOSED)
    (pageSources p (run (startPageSync p true s) tr)).
Proof.
  intros Hu Htr. split; [done|]. split; [done|].
  assert (Hu0 : untargeted p (startPageSync p true s) /\
                pageSources p (startPageSync p true s) = pageSources p s).
  { revert Hu. by apply untargeted_targets. }
  destruct Hu0 as [Hu0 E0].
  destruct (untargeted_run p tr _ Htr Hu0) as [(_&_&_&Hc) E1].
  split; [by rewrite E1|].
  unfold pageSources. apply Forall_forall. intros es Hes.
  apply list_elem_of_In, List.filter_In in Hes as [Hin Hp].
  unfold closedFor in Hc. rewrite Forall_forall in Hc.
  apply Hc; [|done]. by apply list_elem_of_In.
Qed.
(** ** Debounced local edits *)

























Lemma stopCollectionSync_frame s :
  editor (stopCollectionSync s) = editor s /\
  timers (stopCollectionSync s) = timers s /\
  nextTimer (stopCollectionSync s) = nextTimer s.
Proof. unfold stopCollectionSync, close. by destruct (currentCollectionSync s). Qed.

Lemma startCollectionSync_frame collectionId s :
  editor (startCollectionSync collectionId s) = editor s /\
  timers (startCollectionSync collectionId s) = timers s /\
  nextTimer (startCollectionSync collectionId s) = nextTimer s.
Proof.
  destruct (stopCollectionSync_frame s) as (K1&K2&K3).
  unfold startCollectionSync, newEventSource. cbn. by rewrite K1, K2, K3.
Qed.














Lemma emitUpdate_none obs u s :
  sent (emitUpdate obs u OriginNone s) = sent s ++ ((fun pageId => (pageId, u)) <$> obs).
Proof.
  unfold emitUpdate. revert s. induction obs as [|p obs IH]; intros s; cbn.
  - by rewrite app_nil_r.
  - rewrite IH. cbn. by rewrite <- app_assoc.
Qed.

Lemma debounced_sent s : sent (debounced s) = sent s ++ debouncedDelta s.
Proof.
  unfold debounced, debouncedDelta, yMetadata_get, yMetadata_set.
  destruct (editor s) as [ed|]; [|by rewrite app_nil_r].
  destruct (yMetadata s) as [r|]; cbn; [|by rewrite app_nil_r].
  destruct (docs s !! r) as [d|]; cbn; [|by rewrite app_nil_r].
  case_decide; [by rewrite app_nil_r|].
  destruct (Y_mapSet (doc_content d) "content" (getHTML ed)) as [c u]. cbn.
  by rewrite emitUpdate_none.
Qed.

Lemma timerFire_debounce id t k s :
  timers s !! id = Some t -> action t = Debounce k ->
  timerFire id s = if decide (due t <= clock s) then debounced (clearTimeout id s) else s.
Proof. intros Ht Ha. unfold timerFire. by rewrite Ht, Ha. Qed.


(** *** The timers an edit sets *)




(** *** Recorded timeouts are ids that were handed out *)

















(** *** What a due debounce timer writes and sends *)




(** ** What is sent to the server *)

(** The observer submits exactly the updates whose origin is not
    ['remote']. *)
Lemma onDocUpdate_sent pageId u o s :
  sent (onDocUpdate pageId u o s) =
    sent s ++ (if decide (o = OriginRemote) then [] else [(pageId, u)]).
Proof. destruct o; cbn; [by rewrite app_nil_r|done]. Qed.



(** The ['init'] listener applies the snapshot without an origin: what
    the document emits for it goes to the server. *)
Lemma onInit_sent r d u c e s :
  ydoc s = Some r -> docs s !! r = Some d ->
  Y_applyUpdate (doc_content d) u = Some (c, Some e) ->
  (sent s ++ ((fun pageId => (pageId, e)) <$> doc_observers d))
    `prefix_of` sent (onInit (Some u) s).
Proof.
  intros Hr Hd Ha. unfold onInit, applyUpdate. rewrite Hr, Hd, Ha.
  set (s1 := emitUpdate _ _ _ _).
  assert (E : sent s1 = sent s ++ ((fun pageId => (pageId, e)) <$> doc_observers d)).
  { unfold s1. by rewrite emitUpdate_none. }
  clearbody s1. rewrite <- E. unfold setupEditorBinding, yMetadata_set.
  destruct (editor s1) as [ed|]; [|done]. destruct (ydoc s1); [|done].
  destruct (yMetadata s1) as [r'|]; [|done].
  destruct (docs s1 !! r') as [d'|]; [|done].
  destruct (Y_mapSet (doc_content d') "content" (getHTML ed)) as [c' u'].
  cbn. rewrite emitUpdate_none. cbn. by apply prefix_app_r.
Qed.

(** * Further properties *)

(** ** The CSRF token *)

Lemma string_prefix_app p v : String.prefix p (p +:+ v) = true.
Proof. induction p as [|a p IH]; simpl; [by destruct v|]. by destruct (Ascii.ascii_dec a a). Qed.

Lemma string_prefix_split p v : String.prefix p v = true -> exists rest, v = p +:+ rest.
Proof.
  revert v. induction p as [|a p IH]; intros v Hp; [by exists v|].
  destruct v as [|b v]; [done|]. simpl in Hp.
  destruct (Ascii.ascii_dec a b) as [->|]; [|done].
  destruct (IH v Hp) as [rest ->]. by exists rest.
Qed.

Lemma string_prefix_first c p a v :
  String.prefix (String c p) (String a v) = true -> String.prefix (String c "") (String a v) = true.
Proof. simpl. destruct (Ascii.ascii_dec c a); [by destruct v|done]. Qed.

Lemma splitFrom_skip sep x rest :
  splitFrom sep (String.length x) (x +:+ rest) = splitFrom sep 0 rest.
Proof. induction x as [|a x IH]; simpl; [by destruct rest|done]. Qed.

Lemma splitFrom_piece c sep row rest :
  contains (String c "") row = false ->
  splitFrom (String c sep) 0 (row +:+ String c sep +:+ rest) =
    row :: splitFrom (String c sep) 0 rest.
Proof.
  induction row as [|a row IH]; intros Hc.
  - change ("" +:+ String c sep +:+ rest) with (String c (sep +:+ rest)).
    cbn [splitFrom]. change (String c (sep +:+ rest)) with (String c sep +:+ rest).
    rewrite string_prefix_app.
    change (String.length (String c sep) - 1) with (String.length sep - 0).
    by rewrite Nat.sub_0_r, splitFrom_skip.
  - cbn [contains] in Hc. apply orb_false_iff in Hc as [Ha Hc].
    change (String a row +:+ String c sep +:+ rest)
      with (String a (row +:+ String c sep +:+ rest)).
    cbn [splitFrom].
    destruct (String.prefix (String c sep) (String a (row +:+ String c sep +:+ rest))) eqn:Ep.
    + apply string_prefix_first in Ep. simpl in Ep, Ha.
      destruct (Ascii.ascii_dec c a); [|done]. by destruct row.
    + by rewrite IH.
Qed.

Lemma splitFrom_last c sep row :
  contains (String c "") row = false -> splitFrom (String c sep) 0 row = [row].
Proof.
  induction row as [|a row IH]; intros Hc; [done|].
  cbn [contains] in Hc. apply orb_false_iff in Hc as [Ha Hc]. cbn [splitFrom].
  destruct (String.prefix (String c sep) (String a row)) eqn:Ep.
  - apply string_prefix_first in Ep. congruence.
  - by rewrite IH.
Qed.

Lemma splitFrom_concat c sep row rows :
  Forall (fun r => contains (String c "") r = false) (row :: rows) ->
  splitFrom (String c sep) 0 (String.concat (String c sep) (row :: rows)) = row :: rows.
Proof.
  revert row. induction rows as [|r rows IH]; intros row Hrows.
  - apply splitFrom_last. by inversion Hrows.
  - change (String.concat (String c sep) (row :: r :: rows))
      with (row +:+ String c sep +:+ String.concat (String c sep) (r :: rows)).
    inversion Hrows as [|? ? Hrow Hrest]; subst.
    rewrite splitFrom_piece by done. by rewrite IH.
Qed.

Lemma splitFrom_nonempty sep v : exists piece pieces, splitFrom sep 0 v = piece :: pieces.
Proof.
  induction v as [|a v (piece&pieces&IH)]; [by eexists _, _|]. cbn [splitFrom].
  destruct (String.prefix sep (String a v)); [by eexists _, _|].
  rewrite IH. by eexists _, _.
Qed.

Lemma splitFrom_head sep v : head (splitFrom sep 0 v) = Some (before sep v).
Proof.
  induction v as [|a v IH]; [done|]. cbn [splitFrom before].
  destruct (String.prefix sep (String a v)); [done|].
  destruct (splitFrom_nonempty sep v) as (piece&pieces&E).
  rewrite E in IH |- *. cbn in IH |- *. congruence.
Qed.

Lemma contains_before c v : contains (String c "") (before (String c "") v) = false.
Proof.
  induction v as [|a v IH]; [done|]. cbn [before].
  destruct (String.prefix (String c "") (String a v)) eqn:Ep; [done|].
  cbn [contains]. rewrite IH, orb_false_r.
  simpl in Ep |- *. destruct (Ascii.ascii_dec c a); [by destruct v|].
  done.
Qed.

Lemma before_none c v : contains (String c "") v = false -> before (String c "") v = v.
Proof.
  induction v as [|a v IH]; intros Hc; [done|].
  cbn [contains] in Hc. apply orb_false_iff in Hc as [Ha Hc].
  cbn [before]. rewrite Ha. by rewrite IH.
Qed.

(** The token of a row [nteok_csrf=...]. *)
Lemma token_of_row rest :
  splitOn "=" ("nteok_csrf=" +:+ rest) !! 1 = Some (before "=" rest).
Proof.
  unfold splitOn.
  change ("nteok_csrf=" +:+ rest) with ("nteok_csrf" +:+ "=" +:+ rest).
  rewrite splitFrom_piece by done.
  pose proof (splitFrom_head "=" rest) as Hh.
  destruct (splitFrom_nonempty "=" rest) as (piece&pieces&E).
  rewrite E in Hh |- *. exact Hh.
Qed.

(** X1: [getCsrfToken] returns a string for every value of
    [document.cookie], never [undefined], and the string holds no [=]:
    a token is cut at its first [=]. *)
Theorem getCsrfToken_defined cookie :
  exists token, getCsrfToken cookie = Some token /\ contains "=" token = false.
Proof.
  unfold getCsrfToken.
  destruct (List.find _ _) as [row|] eqn:Ef; [|by exists ""].
  apply List.find_some in Ef as [_ Hp].
  apply string_prefix_split in Hp as [rest ->].
  replace (truthy ("nteok_csrf=" +:+ rest)) with true by done.
  rewrite token_of_row. eexists; split; [done|]. apply contains_before.
Qed.

Lemma contains_cons c a v :
  contains (String c "") (String a v) = false -> c <> a /\ contains (String c "") v = false.
Proof.
  cbn [contains]. intros Hc. apply orb_false_iff in Hc as [Ha Hc]. split; [|done].
  intros <-. simpl in Ha. destruct (Ascii.ascii_dec c c); [|done]. by destruct v.
Qed.

Lemma string_prefix_name c p name value :
  contains (String c "") p = false ->
  contains (String c "") name = false ->
  String.prefix (p +:+ String c "") (name +:+ String c value) = true ->
  name = p.
Proof.
  revert name. induction p as [|b p IH]; intros name Hp Hn Hpre.
  - destruct name as [|a name]; [done|].
    apply contains_cons in Hn as [Hn _]. simpl in Hpre.
    by destruct (Ascii.ascii_dec c a).
  - apply contains_cons in Hp as [Hb Hp].
    destruct name as [|a name]; simpl in Hpre.
    + by destruct (Ascii.ascii_dec b c).
    + apply contains_cons in Hn as [_ Hn].
      destruct (Ascii.ascii_dec b a) as [->|]; [|done].
      f_equal. by apply IH.
Qed.

Lemma row_is_csrf name value :
  contains "=" name = false ->
  String.prefix "nteok_csrf=" (name +:+ "=" +:+ value) = String.eqb name "nteok_csrf".
Proof.
  intros Hn.
  destruct (String.eqb name "nteok_csrf") eqn:E.
  - apply String.eqb_eq in E as ->. apply (string_prefix_app "nteok_csrf=").
  - apply String.eqb_neq in E.
    destruct (String.prefix "nteok_csrf=" (name +:+ "=" +:+ value)) eqn:Ep; [|done].
    exfalso. apply E.
    by refine (string_prefix_name _ "nteok_csrf" name value _ Hn Ep).
Qed.

Lemma find_csrf_row jar :
  Forall (fun nv => contains "=" nv.1 = false) jar ->
  List.find (String.prefix "nteok_csrf=") ((fun nv => nv.1 +:+ "=" +:+ nv.2) <$> jar) =
    (fun nv => nv.1 +:+ "=" +:+ nv.2) <$>
      List.find (fun nv => String.eqb nv.1 "nteok_csrf") jar.
Proof.
  induction 1 as [|[name value] jar Hn _ IH]; [done|].
  cbn [fmap list_fmap List.find fst snd] in *.
  rewrite row_is_csrf by done.
  destruct (String.eqb name "nteok_csrf"); [done|]. exact IH.
Qed.

Lemma contains_app c u v :
  contains (String c "") (u +:+ v) = contains (String c "") u || contains (String c "") v.
Proof.
  induction u as [|a u IH]; [by destruct v|].
  change (String a u +:+ v) with (String a (u +:+ v)). cbn [contains].
  rewrite IH, orb_assoc. f_equal. simpl. by destruct (Ascii.ascii_dec c a); destruct u, v.
Qed.

Lemma wellFormedJar_Forall jar :
  wellFormedJar jar = true ->
  Forall (fun nv => contains ";" nv.1 = false /\ contains "=" nv.1 = false /\
                    contains ";" nv.2 = false) jar.
Proof.
  unfold wellFormedJar. rewrite List.forallb_forall, Forall_forall.
  intros Hj nv Hin. apply list_elem_of_In, Hj in Hin.
  apply andb_prop in Hin as [Hin H3]. apply andb_prop in Hin as [H1 H2].
  by rewrite negb_true_iff in H1, H2, H3.
Qed.

(** The token read from the cookie string of a jar. *)
Lemma getCsrfToken_jar jar :
  wellFormedJar jar = true ->
  getCsrfToken (cookieString jar) =
    Some match cookieValue "nteok_csrf" jar with
         | Some value => before "=" value
         | None => ""
         end.
Proof.
  intros Hjar. apply wellFormedJar_Forall in Hjar.
  unfold getCsrfToken, cookieString, cookieValue.
  destruct jar as [|nv jar]; [done|].
  unfold splitOn at 1. rewrite fmap_cons, splitFrom_concat.
  2:{ assert (Hrow : forall nv : string * string,
                contains ";" nv.1 = false /\ contains "=" nv.1 = false /\
                contains ";" nv.2 = false ->
                contains ";" (nv.1 +:+ "=" +:+ nv.2) = false).
      { intros [name value] (H1&_&H2). cbn [fst snd] in *.
        by rewrite !contains_app, H1, H2. }
      inversion Hjar; subst. constructor; [by apply Hrow|].
      apply Forall_fmap. eapply Forall_impl; [done|]. intros; by apply Hrow. }
  rewrite <- (fmap_cons (fun nv => nv.1 +:+ "=" +:+ nv.2)), find_csrf_row.
  2:{ eapply Forall_impl; [exact Hjar|]. by intros ? (_&?&_). }
  destruct (List.find _ (nv :: jar)) as [[name value]|] eqn:Ef; [|done].
  apply List.find_some in Ef as [_ Ename]. apply String.eqb_eq in Ename.
  cbn in Ename. subst name. cbn [fmap option_fmap option_map fst snd].
  replace (truthy ("nteok_csrf" +:+ "=" +:+ value)) with true by done.
  exact (token_of_row value).
Qed.

(** X2: on the cookie string of a well-formed jar, [getCsrfToken]
    returns the value of the first cookie called [nteok_csrf] up to its
    first [=], hence all of a value that holds no [=], and the empty
    string when the jar holds no such cookie. *)
Theorem getCsrfToken_reads_jar jar :
  wellFormedJar jar = true ->
  getCsrfToken (cookieString jar) =
    Some match cookieValue "nteok_csrf" jar with
         | Some value => before "=" value
         | None => ""
         end /\
  forall token, cookieValue "nteok_csrf" jar = Some token ->
    contains "=" token = false ->
    getCsrfToken (cookieString jar) = Some token.
Proof.
  intros Hjar. pose proof (getCsrfToken_jar jar Hjar) as E.
  split; [exact E|].
  intros token Hv Ht. rewrite E, Hv. f_equal. by apply before_none.
Qed.

(** ** The token on the server *)

(** X3: [verifyCsrfToken] returns true exactly when the header and the
    cookie carry the same non-empty token; and it throws, instead of
    returning false, exactly when both are non-empty and differ in
    length. *)
Theorem verifyCsrfToken_outcomes h c :
  (verifyCsrfToken h c = Returns true <->
   exists t, h = Some t /\ c = Some t /\ t <> "") /\
  (verifyCsrfToken h c = Throws <->
   exists t u, h = Some t /\ c = Some u /\ t <> "" /\ u <> "" /\
     String.length t <> String.length u).
Proof.
  unfold verifyCsrfToken.
  destruct h as [t|]; [|split; split; [done|by intros (?&?&_)|done|by intros (?&?&?&_)]].
  destruct c as [u|]; [|split; split; [done|by intros (?&_&?&_)|done|by intros (?&?&_&?&_)]].
  destruct (truthy t) eqn:Et; cbn [negb orb].
  2:{ assert (t = "") as -> by (by destruct t).
      split; split; [done| |done|]; intros Hx; exfalso.
      - destruct Hx as (x&E1&_&Hx). congruence.
      - destruct Hx as (x&y&E1&_&Hx&_). congruence. }
  destruct (truthy u) eqn:Eu; cbn [negb orb].
  2:{ assert (u = "") as -> by (by destruct u).
      split; split; [done| |done|]; intros Hx; exfalso.
      - destruct Hx as (x&E1&E2&Hx). congruence.
      - destruct Hx as (x&y&_&E2&_&Hy&_). congruence. }
  assert (Ht : t <> "") by (by destruct t).
  assert (Hu : u <> "") by (by destruct u).
  destruct (Nat.eqb (String.length t) (String.length u)) eqn:El.
  - apply Nat.eqb_eq in El. split; split.
    + intros [= Heq]. apply String.eqb_eq in Heq as <-. by exists t.
    + intros (x&[= <-]&[= <-]&_). by rewrite String.eqb_refl.
    + done.
    + intros (x&y&[= <-]&[= <-]&_&_&Hne). done.
  - apply Nat.eqb_neq in El. split; split.
    + done.
    + intros (x&[= <-]&[= E]&_). by rewrite E in El.
    + intros _. by exists t, u.
    + done.
Qed.

Lemma isHex_no_equals v : isHex v = true -> contains "=" v = false.
Proof.
  induction v as [|a v IH]; [done|]. cbn [isHex contains].
  intros [Ha Hv]%andb_prop. rewrite IH, orb_false_r by done.
  destruct (String.prefix "=" (String a v)) eqn:Ep; [|done].
  apply string_prefix_split in Ep as [rest E]. injection E as -> _. by vm_compute in Ha.
Qed.

(** X4: the token the client sends passes the server's check.  With a
    cookie jar that holds a token as [generateCsrfToken] makes them, the
    header [sendYjsUpdate] fills from [getCsrfToken] and the cookie the
    server reads carry the same token, and [verifyCsrfToken] returns
    true. *)
Theorem client_token_verifies jar token :
  wellFormedJar jar = true ->
  cookieValue "nteok_csrf" jar = Some token ->
  isToken token = true ->
  getCsrfToken (cookieString jar) = Some token /\
  verifyCsrfToken (getCsrfToken (cookieString jar)) (cookieValue "nteok_csrf" jar) =
    Returns true.
Proof.
  intros Hjar Hv [Ht Hh]%andb_prop.
  assert (E : getCsrfToken (cookieString jar) = Some token).
  { rewrite (getCsrfToken_jar jar Hjar), Hv. f_equal.
    by apply before_none, isHex_no_equals. }
  split; [done|]. rewrite E, Hv. unfold verifyCsrfToken.
  by rewrite Ht, Nat.eqb_refl, String.eqb_refl.
Qed.

(** ** Syncs, streams and ids *)

Lemma wiring_control s s' : control s' = control s -> wiring s' = wiring s.
Proof. unfold control, wiring. intros [= -> -> -> _ _ _ -> -> _ _]. done. Qed.

Lemma wiring_inv s a b c d e :
  wiring s = (a, b, c, d, e) ->
  currentPageSync s = a /\ currentCollectionSync s = b /\
  es_stream <$> sources s = c /\ currentPageId s = d /\ currentCollectionId s = e.
Proof. unfold wiring. by intros [= -> -> -> -> ->]. Qed.

Lemma streams_alter i (l : list EventSource) :
  es_stream <$> alter closedES i l = es_stream <$> l.
Proof.
  apply list_eq. intros j. rewrite !list_lookup_fmap.
  destruct (decide (i = j)) as [->|Hne].
  - rewrite list_lookup_alter_eq. by destruct (l !! j).
  - by rewrite list_lookup_alter_ne.
Qed.

Lemma wiring_close i s : wiring (close i s) = wiring s.
Proof.
  unfold wiring, close. cbn.
  change (fun es => {| es_stream := es_stream es; readyState := CLOSED |}) with closedES.
  by rewrite streams_alter.
Qed.

Lemma wiring_sourceOpen i s : wiring (sourceOpen i s) = wiring s.
Proof.
  unfold sourceOpen. destruct (sources s !! i) as [[st rs]|] eqn:Ei; [|done].
  destruct rs; try done. unfold wiring. cbn.
  rewrite list_fmap_insert. by rewrite list_insert_id by (by rewrite list_lookup_fmap, Ei).
Qed.

Lemma wiring_stopPageSync s :
  wiring (stopPageSync s) =
    (None, currentCollectionSync s, es_stream <$> sources s, None, currentCollectionId s).
Proof.
  unfold wiring, stopPageSync, close, destroy.
  change (fun es => {| es_stream := es_stream es; readyState := CLOSED |}) with closedES.
  destruct (currentPageSync s) eqn:Eps; cbn; destruct (ydoc s); cbn;
    by rewrite ?streams_alter, ?Eps.
Qed.

Lemma wiring_startPageSync pageId s :
  wiring (startPageSync pageId false s) =
    (Some {| ps_eventSource := length (sources s); ps_pageId := pageId |},
     currentCollectionSync s, (es_stream <$> sources s) ++ [PageStream pageId false],
     Some pageId, currentCollectionId s).
Proof.
  pose proof (wiring_stopPageSync s) as E.
  destruct (stopPageSync_frame s) as (_&_&_&_&_&G&_).
  pose proof (startPageSync_fields pageId s) as F. cbv zeta in F.
  destruct F as (F1&F2&_&_&_&F6&_&F8&F9).
  apply wiring_inv in E as (_&E2&E3&_&E5). unfold wiring.
  rewrite F1, F2, F6, F8, F9, G, fmap_app. cbn [fmap list_fmap es_stream].
  by rewrite E2, E3, E5.
Qed.

Lemma wiring_stopCollectionSync s :
  wiring (stopCollectionSync s) =
    (currentPageSync s, None, es_stream <$> sources s, currentPageId s, None).
Proof.
  unfold wiring, stopCollectionSync, close.
  change (fun es => {| es_stream := es_stream es; readyState := CLOSED |}) with closedES.
  destruct (currentCollectionSync s) eqn:Ecs; cbn; by rewrite ?streams_alter, ?Ecs.
Qed.

Lemma length_stopCollectionSync s :
  length (sources (stopCollectionSync s)) = length (sources s).
Proof.
  unfold stopCollectionSync, close.
  destruct (currentCollectionSync s); cbn; by rewrite ?length_alter.
Qed.

Lemma wiring_startCollectionSync collectionId s :
  wiring (startCollectionSync collectionId s) =
    (currentPageSync s,
     Some {| cs_eventSource := length (sources s); cs_collectionId := collectionId |},
     (es_stream <$> sources s) ++ [CollectionStream collectionId],
     currentPageId s, Some collectionId).
Proof.
  pose proof (wiring_stopCollectionSync s) as E.
  pose proof (length_stopCollectionSync s) as G.
  apply wiring_inv in E as (E1&_&E3&E4&_).
  unfold wiring. unfold startCollectionSync, newEventSource at 1. cbn.
  rewrite G, fmap_app. cbn [fmap list_fmap es_stream].
  by rewrite E1, E3, E4.
Qed.

Lemma wiring_sourceError i s : wiring (sourceError i s) = wiring s.
Proof.
  unfold sourceError. destruct (sources s !! i) as [[st rs]|]; [|done].
  destruct rs, st; try done; unfold onPageError, onCollectionError; cbn;
    apply (wiring_close i s).
Qed.

Lemma wiring_sourceMessage i m s : wiring (sourceMessage i m s) = wiring s.
Proof.
  unfold sourceMessage. repeat case_match; try done; apply wiring_control;
    auto using control_onInit, control_onYjsUpdate, control_onUserJoined,
      control_onMetadataChange, control_onPageListChange.
Qed.

(** What a timer that fires does to the wiring: nothing, or the restart
    of a page sync. *)
Lemma wiring_timerFire id s :
  wiring (timerFire id s) = wiring s \/
  exists pageId, wiring (timerFire id s) = wiring (startPageSync pageId false s).
Proof.
  unfold timerFire. destruct (timers s !! id) as [t|]; [|by left].
  case_decide; [|by left]. destruct (action t) as [pageId enc|k].
  - unfold reconnect. case_decide; [|by left]. destruct enc; [by left|].
    right. exists pageId. by rewrite !wiring_startPageSync.
  - left. by rewrite (wiring_control _ _ (control_debounced _)).
Qed.

Lemma wired_wiring s s' : wiring s' = wiring s -> wired s -> wired s'.
Proof. unfold wiring, wired. intros [= -> -> -> -> ->]. done. Qed.

Lemma paired_wiring s s' : wiring s' = wiring s -> paired s -> paired s'.
Proof. unfold wiring, paired. intros [= -> -> _ -> ->]. done. Qed.

Lemma wired_startPageSync pageId isEncrypted s :
  wired s -> wired (startPageSync pageId isEncrypted s).
Proof.
  destruct isEncrypted; [done|]. intros [Hp Hc].
  pose proof (wiring_startPageSync pageId s) as E.
  apply wiring_inv in E as (E1&E2&E3&E4&E5). unfold wired. rewrite E1, E2, E3, E4, E5.
  split.
  - intros ps [= <-]. cbn. split; [done|].
    by rewrite lookup_app_r, length_fmap, Nat.sub_diag by (by rewrite length_fmap).
  - intros cs Hcs. destruct (Hc cs Hcs) as [H1 H2]. split; [done|].
    by apply lookup_app_l_Some.
Qed.

Lemma wired_stopPageSync s : wired s -> wired (stopPageSync s).
Proof.
  intros [Hp Hc]. pose proof (wiring_stopPageSync s) as E.
  apply wiring_inv in E as (E1&E2&E3&E4&E5). unfold wired. rewrite E1, E2, E3, E4, E5.
  split; [done|]. exact Hc.
Qed.

Lemma wired_startCollectionSync collectionId s :
  wired s -> wired (startCollectionSync collectionId s).
Proof.
  intros [Hp Hc].
  pose proof (wiring_startCollectionSync collectionId s) as E.
  apply wiring_inv in E as (E1&E2&E3&E4&E5). unfold wired. rewrite E1, E2, E3, E4, E5.
  split.
  - intros ps Hps. destruct (Hp ps Hps) as [H1 H2]. split; [done|].
    by apply lookup_app_l_Some.
  - intros cs [= <-]. cbn. split; [done|].
    by rewrite lookup_app_r, length_fmap, Nat.sub_diag by (by rewrite length_fmap).
Qed.

Lemma wired_stopCollectionSync s : wired s -> wired (stopCollectionSync s).
Proof.
  intros [Hp Hc]. pose proof (wiring_stopCollectionSync s) as E.
  apply wiring_inv in E as (E1&E2&E3&E4&E5). unfold wired. rewrite E1, E2, E3, E4, E5.
  split; [exact Hp|done].
Qed.

Lemma wired_handleOnline s : wired s -> wired (handleOnline s).
Proof.
  intros Hw. unfold handleOnline.
  set (s1 := match currentPageId s, currentPageSync s with
             | Some pageId, None =>
               if truthy pageId then startPageSync pageId false s else s
             | _, _ => s
             end).
  assert (Hw1 : wired s1).
  { unfold s1. repeat case_match; try done. by apply wired_startPageSync. }
  clearbody s1. eapply (wired_wiring _ (showInfo NoticeOnline _)); [done|].
  repeat case_match; try done. by apply wired_startCollectionSync.
Qed.

Lemma wired_handleVisibilityChange hidden s :
  wired s -> wired (handleVisibilityChange hidden s).
Proof.
  intros Hw. unfold handleVisibilityChange. destruct hidden; [done|].
  set (s1 := match currentPageSync s with
             | Some ps =>
               if isOpen (ps_eventSource ps) s then s
               else startPageSync (ps_pageId ps) false s
             | None => s
             end).
  assert (Hw1 : wired s1).
  { unfold s1. repeat case_match; try done. by apply wired_startPageSync. }
  clearbody s1. repeat case_match; try done. by apply wired_startCollectionSync.
Qed.

Lemma wired_timerFire id s : wired s -> wired (timerFire id s).
Proof.
  intros Hw. destruct (wiring_timerFire id s) as [E|[pageId E]].
  - revert Hw. by apply wired_wiring.
  - eapply wired_wiring; [exact E|]. by apply wired_startPageSync.
Qed.

Lemma wired_step s e : wired s -> wired (step s e).
Proof.
  intros Hw. destruct e; cbn [step].
  - by apply wired_startPageSync.
  - by apply wired_stopPageSync.
  - by apply wired_startCollectionSync.
  - by apply wired_stopCollectionSync.
  - by apply wired_handleOnline.
  - revert Hw. by apply wired_wiring.
  - by apply wired_handleVisibilityChange.
  - revert Hw. apply wired_wiring, wiring_sourceOpen.
  - revert Hw. apply wired_wiring, wiring_sourceMessage.
  - revert Hw. apply wired_wiring, wiring_sourceError.
  - by apply wired_timerFire.
  - revert Hw. by apply wired_wiring.
  - revert Hw. apply wired_wiring, wiring_control, control_editorInput.
  - revert Hw. apply wired_wiring, wiring_control, control_editorFocus.
  - revert Hw. apply wired_wiring, wiring_control, control_editorBlur.
Qed.

Lemma wired_run tr : forall s, wired s -> wired (run s tr).
Proof.
  induction tr as [|e tr IH]; intros s Hw; cbn; [done|]. by apply IH, wired_step.
Qed.

Lemma wired_boot appState entries coverEl : wired (boot appState entries coverEl).
Proof. split; intros ? Hs; by cbn in Hs. Qed.

Lemma paired_startPageSync pageId isEncrypted s :
  paired s -> paired (startPageSync pageId isEncrypted s).
Proof.
  destruct isEncrypted; [done|]. intros [Hp Hc].
  pose proof (wiring_startPageSync pageId s) as E.
  apply wiring_inv in E as (E1&E2&E3&E4&E5). unfold paired. rewrite E1, E2, E4, E5. done.
Qed.

Lemma paired_stopPageSync s : paired s -> paired (stopPageSync s).
Proof.
  intros [Hp Hc]. pose proof (wiring_stopPageSync s) as E.
  apply wiring_inv in E as (E1&E2&E3&E4&E5). unfold paired. rewrite E1, E2, E4, E5. done.
Qed.

Lemma paired_startCollectionSync collectionId s :
  paired s -> paired (startCollectionSync collectionId s).
Proof.
  intros [Hp Hc].
  pose proof (wiring_startCollectionSync collectionId s) as E.
  apply wiring_inv in E as (E1&E2&E3&E4&E5). unfold paired. rewrite E1, E2, E4, E5. done.
Qed.

Lemma paired_stopCollectionSync s : paired s -> paired (stopCollectionSync s).
Proof.
  intros [Hp Hc]. pose proof (wiring_stopCollectionSync s) as E.
  apply wiring_inv in E as (E1&E2&E3&E4&E5). unfold paired. rewrite E1, E2, E4, E5. done.
Qed.

(** While ids and syncs are paired, the online handler finds nothing to
    start. *)
Lemma handleOnline_paired s : paired s -> handleOnline s = showInfo NoticeOnline s.
Proof.
  intros [Hp Hc]. unfold handleOnline.
  destruct (currentPageSync s) as [ps|] eqn:Eps.
  - destruct (currentPageId s); destruct (currentCollectionSync s) eqn:Ecs;
      destruct (currentCollectionId s) eqn:Eci; try done.
    all: by specialize (Hc eq_refl).
  - rewrite (Hp eq_refl).
    destruct (currentCollectionSync s) eqn:Ecs;
      destruct (currentCollectionId s) eqn:Eci; try done.
    all: by specialize (Hc eq_refl).
Qed.

Lemma paired_handleVisibilityChange hidden s :
  paired s -> paired (handleVisibilityChange hidden s).
Proof.
  intros Hw. unfold handleVisibilityChange. destruct hidden; [done|].
  set (s1 := match currentPageSync s with
             | Some ps =>
               if isOpen (ps_eventSource ps) s then s
               else startPageSync (ps_pageId ps) false s
             | None => s
             end).
  assert (Hw1 : paired s1).
  { unfold s1. repeat case_match; try done. by apply paired_startPageSync. }
  clearbody s1. repeat case_match; try done. by apply paired_startCollectionSync.
Qed.

Lemma paired_timerFire id s : paired s -> paired (timerFire id s).
Proof.
  intros Hw. destruct (wiring_timerFire id s) as [E|[pageId E]].
  - revert Hw. by apply paired_wiring.
  - eapply paired_wiring; [exact E|]. by apply paired_startPageSync.
Qed.

Lemma paired_step s e : paired s -> paired (step s e).
Proof.
  intros Hw. destruct e; cbn [step].
  - by apply paired_startPageSync.
  - by apply paired_stopPageSync.
  - by apply paired_startCollectionSync.
  - by apply paired_stopCollectionSync.
  - rewrite handleOnline_paired by done. revert Hw. by apply paired_wiring.
  - revert Hw. by apply paired_wiring.
  - by apply paired_handleVisibilityChange.
  - revert Hw. apply paired_wiring, wiring_sourceOpen.
  - revert Hw. apply paired_wiring, wiring_sourceMessage.
  - revert Hw. apply paired_wiring, wiring_sourceError.
  - by apply paired_timerFire.
  - revert Hw. by apply paired_wiring.
  - revert Hw. apply paired_wiring, wiring_control, control_editorInput.
  - revert Hw. apply paired_wiring, wiring_control, control_editorFocus.
  - revert Hw. apply paired_wiring, wiring_control, control_editorBlur.
Qed.

Lemma paired_run tr : forall s, paired s -> paired (run s tr).
Proof.
  induction tr as [|e tr IH]; intros s Hw; cbn; [done|]. by apply IH, paired_step.
Qed.

(** X5: when [initSyncManager] was handed no current page and no
    current collection, then in every state the module reaches the
    ['online'] handler starts nothing: a sync that is current keeps its
    stream, open or failed, and the handler only shows the notice. *)
Theorem online_only_notifies appState entries coverEl tr :
  app_currentPageId appState = None ->
  app_currentCollectionId appState = None ->
  let s := run (boot appState entries coverEl) tr in
  step s WindowOnline = showInfo NoticeOnline s.
Proof.
  intros Hp Hc s. apply handleOnline_paired, paired_run.
  split; intros _; by cbn.
Qed.

(** ** Streams of one kind that stay closed *)

Lemma closedKind_alter b i l : closedKind b l -> closedKind b (alter closedES i l).
Proof.
  intros Hl. apply Forall_lookup_2. intros j es Hj.
  destruct (decide (i = j)) as [->|Hne].
  - rewrite list_lookup_alter_eq in Hj. destruct (l !! j); simplify_eq/=. done.
  - rewrite list_lookup_alter_ne in Hj by done.
    by apply (Forall_lookup_1 _ _ _ _ Hl Hj).
Qed.

Lemma closedKind_snoc b l es :
  closedKind b l -> isPageStream es <> b -> closedKind b (l ++ [es]).
Proof. intros Hl Hes. apply Forall_app. split; [done|]. by apply Forall_singleton. Qed.

Lemma closedKind_close b i s : closedKind b (sources s) -> closedKind b (sources (close i s)).
Proof. apply closedKind_alter. Qed.

Lemma closedKind_sourceOpen b i s :
  closedKind b (sources s) -> closedKind b (sources (sourceOpen i s)).
Proof.
  intros Hl. unfold sourceOpen.
  destruct (sources s !! i) as [[st rs]|] eqn:Ei; [|done]. destruct rs; try done.
  cbn. apply Forall_insert; [done|]. intros Hb.
  by specialize (Forall_lookup_1 _ _ _ _ Hl Ei Hb).
Qed.

Lemma sources_stopPageSync s :
  sources (stopPageSync s) =
    match currentPageSync s with
    | Some ps => alter closedES (ps_eventSource ps) (sources s)
    | None => sources s
    end.
Proof. by destruct (stopPageSync_targets s) as (_&_&_&E). Qed.

Lemma sources_stopCollectionSync s :
  sources (stopCollectionSync s) =
    match currentCollectionSync s with
    | Some cs => alter closedES (cs_eventSource cs) (sources s)
    | None => sources s
    end.
Proof. by destruct (stopCollectionSync_fields s) as (_&_&_&_&_&_&_&E). Qed.

Lemma sources_startPageSync pageId s :
  sources (startPageSync pageId false s) =
    sources (stopPageSync s) ++
      [{| es_stream := PageStream pageId false; readyState := CONNECTING |}].
Proof. pose proof (startPageSync_fields pageId s) as F. cbv zeta in F. apply F. Qed.

Lemma sources_startCollectionSync collectionId s :
  sources (startCollectionSync collectionId s) =
    sources (stopCollectionSync s) ++
      [{| es_stream := CollectionStream collectionId; readyState := CONNECTING |}].
Proof.
  pose proof (startCollectionSync_fields collectionId s) as F. cbv zeta in F. apply F.
Qed.

Lemma closedKind_stopPageSync b s :
  closedKind b (sources s) -> closedKind b (sources (stopPageSync s)).
Proof.
  intros Hl. rewrite sources_stopPageSync.
  destruct (currentPageSync s); [by apply closedKind_alter|done].
Qed.

Lemma closedKind_stopCollectionSync b s :
  closedKind b (sources s) -> closedKind b (sources (stopCollectionSync s)).
Proof.
  intros Hl. rewrite sources_stopCollectionSync.
  destruct (currentCollectionSync s); [by apply closedKind_alter|done].
Qed.

Lemma closedKind_startPageSync pageId isEncrypted s :
  closedKind false (sources s) ->
  closedKind false (sources (startPageSync pageId isEncrypted s)).
Proof.
  intros Hl. destruct isEncrypted; [done|]. rewrite sources_startPageSync.
  apply closedKind_snoc; [by apply closedKind_stopPageSync|done].
Qed.

Lemma closedKind_startCollectionSync collectionId s :
  closedKind true (sources s) ->
  closedKind true (sources (startCollectionSync collectionId s)).
Proof.
  intros Hl. rewrite sources_startCollectionSync.
  apply closedKind_snoc; [by apply closedKind_stopCollectionSync|done].
Qed.

Lemma closedKind_activePage s : closedKind true (sources s) -> activePage s = [].
Proof.
  intros Hl. apply filter_nil_lookup. intros i es Hi.
  destruct (isPageStream es) eqn:Hb; [|by rewrite andb_false_r].
  unfold isActive. by rewrite (Forall_lookup_1 _ _ _ _ Hl Hi Hb).
Qed.

Lemma closedKind_activeCollection s :
  closedKind false (sources s) -> activeCollection s = [].
Proof.
  intros Hl. apply filter_nil_lookup. intros i es Hi.
  destruct (isPageStream es) eqn:Hb; [by rewrite andb_false_r|].
  unfold isActive. by rewrite (Forall_lookup_1 _ _ _ _ Hl Hi Hb).
Qed.

(** ** A failed collection stream is not reconnected *)

Lemma ci_control s s' : control s' = control s -> collectionIdle s -> collectionIdle s'.
Proof.
  unfold control, collectionIdle. intros [= _ -> -> _ _ _ _ -> _ _]. done.
Qed.

Lemma ci_startPageSync pageId isEncrypted s :
  collectionIdle s -> collectionIdle (startPageSync pageId isEncrypted s).
Proof.
  intros [Hl Hc]. split; [by apply closedKind_startPageSync|].
  destruct isEncrypted; [done|].
  pose proof (wiring_startPageSync pageId s) as E.
  apply wiring_inv in E as (_&E2&_&_&E5). by rewrite E2, E5.
Qed.

Lemma ci_stopPageSync s : collectionIdle s -> collectionIdle (stopPageSync s).
Proof.
  intros [Hl Hc]. split; [by apply closedKind_stopPageSync|].
  pose proof (wiring_stopPageSync s) as E.
  apply wiring_inv in E as (_&E2&_&_&E5). by rewrite E2, E5.
Qed.

Lemma ci_stopCollectionSync s : collectionIdle s -> collectionIdle (stopCollectionSync s).
Proof.
  intros [Hl Hc]. split; [by apply closedKind_stopCollectionSync|].
  pose proof (wiring_stopCollectionSync s) as E.
  apply wiring_inv in E as (_&E2&_&_&E5). by rewrite E5.
Qed.

Lemma ci_close i s : collectionIdle s -> collectionIdle (close i s).
Proof. intros [Hl Hc]. split; [by apply closedKind_close|done]. Qed.

Lemma ci_handleOnline s : collectionIdle s -> collectionIdle (handleOnline s).
Proof.
  intros Hi. unfold handleOnline.
  set (s1 := match currentPageId s, currentPageSync s with
             | Some pageId, None =>
               if truthy pageId then startPageSync pageId false s else s
             | _, _ => s
             end).
  assert (Hi1 : collectionIdle s1).
  { unfold s1. repeat case_match; try done. by apply ci_startPageSync. }
  clearbody s1. eapply (ci_control _ (showInfo NoticeOnline _)); [done|].
  pose proof Hi1 as [Hl Hc].
  destruct (currentCollectionSync s1) eqn:Ecs.
  - by destruct (currentCollectionId s1).
  - by rewrite (Hc eq_refl).
Qed.

Lemma ci_sourceError i s : collectionIdle s -> collectionIdle (sourceError i s).
Proof.
  intros Hi. unfold sourceError.
  destruct (sources s !! i) as [[st rs]|]; [|done].
  destruct rs, st; try done; unfold onPageError, onCollectionError;
    try (by apply ci_close).
  all: eapply ci_control; [|by apply (ci_close i)]; done.
Qed.

Lemma ci_timerFire id s : collectionIdle s -> collectionIdle (timerFire id s).
Proof.
  intros Hi. unfold timerFire. destruct (timers s !! id) as [t|]; [|done].
  case_decide; [|done].
  assert (Hi' : collectionIdle (set_timers (delete id (timers s)) s)).
  { revert Hi. by apply ci_control. }
  destruct (action t).
  - unfold reconnect. case_decide; [|done]. by apply ci_startPageSync.
  - revert Hi'. apply ci_control, control_debounced.
Qed.

Lemma ci_sourceMessage i m s : collectionIdle s -> collectionIdle (sourceMessage i m s).
Proof.
  intros Hi. unfold sourceMessage.
  repeat case_match; try done; revert Hi; apply ci_control;
    auto using control_onInit, control_onYjsUpdate, control_onUserJoined,
      control_onMetadataChange, control_onPageListChange.
Qed.

Lemma ci_step s e :
  startsCollection e = false -> collectionIdle s -> collectionIdle (step s e).
Proof.
  intros He Hi. destruct e; cbn [step].
  - by apply ci_startPageSync.
  - by apply ci_stopPageSync.
  - done.
  - by apply ci_stopCollectionSync.
  - by apply ci_handleOnline.
  - revert Hi. by apply ci_control.
  - by destruct hidden.
  - destruct Hi as [Hl Hc]. split; [by apply closedKind_sourceOpen|].
    pose proof (wiring_sourceOpen i s) as E. unfold wiring in E.
    injection E as _ E2 _ _ E5. by rewrite E2, E5.
  - by apply ci_sourceMessage.
  - by apply ci_sourceError.
  - by apply ci_timerFire.
  - revert Hi. by apply ci_control.
  - revert Hi. apply ci_control, control_editorInput.
  - revert Hi. apply ci_control, control_editorFocus.
  - revert Hi. apply ci_control, control_editorBlur.
Qed.

Lemma ci_run tr : forall s,
  forallb (fun e => negb (startsCollection e)) tr = true ->
  collectionIdle s -> collectionIdle (run s tr).
Proof.
  induction tr as [|e tr IH]; intros s Htr Hi; [done|].
  change (run s (e :: tr)) with (run (step s e) tr).
  cbn in Htr. apply andb_prop in Htr as [He Htr].
  apply IH; [done|]. apply ci_step; [|done]. by apply negb_true_iff.
Qed.

(** X6: when the transport of the collection stream fails, the stream
    is closed and no timer is set; from then on no collection stream
    holds a transport, whatever happens (online events, timers and
    messages included), until the host calls [startCollectionSync] or
    the tab becomes visible. *)
Theorem collection_error_not_retried appState entries coverEl tr i collectionId rs tr' :
  let s := run (boot appState entries coverEl) tr in
  sources s !! i =
    Some {| es_stream := CollectionStream collectionId; readyState := rs |} ->
  rs <> CLOSED ->
  forallb (fun e => negb (startsCollection e)) tr' = true ->
  let s1 := step s (SourceError i) in
  timers s1 = timers s /\
  readyState <$> sources s1 !! i = Some CLOSED /\
  activeCollection s1 = [] /\
  activeCollection (run s1 tr') = [].
Proof.
  intros s Hi Hrs Htr s1.
  assert (Ht : tracked s) by apply tracked_run, tracked_boot.
  assert (E1 : s1 = close i s).
  { unfold s1. cbn. unfold sourceError. rewrite Hi. by destruct rs. }
  assert (Hidle : collectionIdle s1).
  { rewrite E1. destruct Ht as (Hs&_).
    destruct (Hs i _ Hi) as [Hc|Hc]; [done|]. unfold current in Hc. cbn in Hc.
    split.
    - apply Forall_lookup_2. intros j es Hj Hk. unfold close in Hj. cbn in Hj.
      destruct (decide (i = j)) as [->|Hne].
      + rewrite list_lookup_alter_eq, Hi in Hj. by simplify_eq/=.
      + rewrite list_lookup_alter_ne in Hj by done.
        destruct (Hs j es Hj) as [Hz|Hz]; [done|]. unfold current in Hz.
        unfold isPageStream in Hk. destruct (es_stream es); [done|].
        rewrite Hc in Hz. by simplify_eq.
    - unfold close. cbn. by rewrite Hc. }
  split; [by rewrite E1|]. split.
  { rewrite E1. unfold close. cbn. by rewrite list_lookup_alter_eq, Hi. }
  split; [apply closedKind_activeCollection, Hidle|].
  by apply closedKind_activeCollection, ci_run.
Qed.

(** ** After [stopPageSync] *)

Lemma stopPageSync_idempotent s : stopPageSync (stopPageSync s) = stopPageSync s.
Proof.
  unfold stopPageSync, close, destroy.
  destruct (currentPageSync s) eqn:Eps; cbn; destruct (ydoc s) eqn:Ey; cbn;
    rewrite ?Eps, ?Ey; cbn; rewrite ?Eps, ?Ey; done.
Qed.

Lemma pageStopped_stopPageSync s : tracked s -> pageStopped (stopPageSync s).
Proof.
  intros Ht. pose proof Ht as (_&Ha&_).
  destruct (stopPageSync_fields s Ha) as (E1&E2&_&E4&E5&_).
  repeat split; try done.
  apply Forall_lookup_2. intros i es Hi Hp.
  unfold isPageStream in Hp. destruct (es_stream es) eqn:Es; [|done].
  by eapply stopPageSync_closes.
Qed.

Lemma pageView_inv s a b c d e f :
  pageView s = (a, b, c, d, e, f) ->
  currentPageSync s = a /\ currentPageId s = b /\ ydoc s = c /\ yMetadata s = d /\
  sent s = e /\ docs s = f.
Proof. unfold pageView. by intros [= -> -> -> -> -> ->]. Qed.

(** While the page sync is stopped, the handlers that may run leave the
    page side alone and open no page stream. *)
Lemma stopped_view s s' :
  pageView s' = pageView s -> closedKind true (sources s') ->
  pageStopped s -> pageStopped s'.
Proof.
  unfold pageView, pageStopped. intros [= -> -> -> -> _ _] Hl. tauto.
Qed.

Lemma view_collection_ops s :
  pageView (stopCollectionSync s) = pageView s /\
  forall collectionId, pageView (startCollectionSync collectionId s) = pageView s.
Proof.
  assert (E : pageView (stopCollectionSync s) = pageView s).
  { unfold stopCollectionSync, close. by destruct (currentCollectionSync s). }
  split; [done|]. intros collectionId. rewrite <- E.
  unfold startCollectionSync, newEventSource. by cbn.
Qed.

Lemma view_sourceMessage i m s :
  ydoc s = None ->
  pageView (sourceMessage i m s) = pageView s /\
  sources (sourceMessage i m s) = sources s.
Proof.
  intros Hy. unfold sourceMessage.
  destruct (isOpen i s); [|done].
  destruct (es_stream <$> sources s !! i) as [[pageId enc|collectionId]|]; [| |done].
  - destruct m as [p|p|p| | | |]; try done.
    + unfold onInit. destruct p; [|done]. by rewrite Hy.
    + unfold onYjsUpdate. destruct p; [|done]. by rewrite Hy.
    + unfold onUserJoined. by destruct p as [[??]|].
  - destruct m as [p|p|p| |p|p|p]; try done.
    + unfold onMetadataChange, updatePageInSidebar, showCover, hideCover.
      destruct p; [|done]. by repeat case_match.
    + unfold onPageListChange. by case_match.
    + unfold onPageListChange. by case_match.
Qed.

Lemma view_timerFire id s :
  currentPageId s = None -> yMetadata s = None ->
  pageView (timerFire id s) = pageView s /\ sources (timerFire id s) = sources s.
Proof.
  intros Hp Hm. unfold timerFire. destruct (timers s !! id) as [t|]; [|done].
  case_decide; [|done]. destruct (action t).
  - unfold reconnect. cbn. rewrite Hp. by rewrite decide_False.
  - unfold debounced, yMetadata_get. cbn. rewrite Hm. by destruct (editor s).
Qed.

Lemma view_editor content s :
  (pageView (editorInput content s) = pageView s /\
   sources (editorInput content s) = sources s) /\
  (pageView (editorFocus s) = pageView s /\ sources (editorFocus s) = sources s) /\
  (pageView (editorBlur s) = pageView s /\ sources (editorBlur s) = sources s).
Proof.
  split; [|split].
  - unfold editorInput. destruct (editor s) as [ed|]; [|done].
    destruct (updateListeners 0 (bindings (set_getHTML content ed)) s) as [bs s'] eqn:E.
    apply updateListeners_shape in E. by rewrite E.
  - unfold editorFocus. by destruct (editor s).
  - pose proof (editorOnly_editorBlur s) as E. by rewrite E.
Qed.

Lemma stopped_step s e :
  startsPage e = false -> pageStopped s ->
  pageStopped (step s e) /\ pageView (step s e) = pageView s.
Proof.
  intros He Hs. pose proof Hs as (H1&H2&H3&H4&H5).
  assert (Hgo : forall s', pageView s' = pageView s -> closedKind true (sources s') ->
            pageStopped s' /\ pageView s' = pageView s).
  { intros s' Hv Hl. split; [by eapply stopped_view|done]. }
  destruct e; cbn [step].
  - destruct isEncrypted; [|done]. by apply Hgo.
  - apply Hgo; [|by apply closedKind_stopPageSync].
    unfold stopPageSync. rewrite H1. cbn. rewrite H3. unfold pageView. cbn.
    by rewrite H1, H2, H3.
  - apply Hgo; [apply view_collection_ops|by apply closedKind_startCollectionSync].
  - apply Hgo; [apply view_collection_ops|by apply closedKind_stopCollectionSync].
  - unfold handleOnline. rewrite H1, H2.
    destruct (currentCollectionId s) as [c|]; [|by apply Hgo].
    destruct (currentCollectionSync s); [by apply Hgo|].
    destruct (truthy c); [|by apply Hgo].
    apply Hgo; [apply (view_collection_ops s)|by apply closedKind_startCollectionSync].
  - by apply Hgo.
  - unfold handleVisibilityChange. destruct hidden; [by apply Hgo|]. rewrite H1.
    destruct (currentCollectionSync s) as [cs|]; [|by apply Hgo].
    destruct (isOpen (cs_eventSource cs) s); [by apply Hgo|].
    apply Hgo; [apply view_collection_ops|by apply closedKind_startCollectionSync].
  - apply Hgo; [|by apply closedKind_sourceOpen].
    unfold sourceOpen. by repeat case_match.
  - destruct (view_sourceMessage i m s H3) as [E1 E2]. apply Hgo; [done|by rewrite E2].
  - apply Hgo.
    + unfold sourceError, onPageError, onCollectionError. by repeat case_match.
    + unfold sourceError. destruct (sources s !! i) as [[st rs]|]; [|done].
      destruct rs, st; try done; by apply (closedKind_close true i s).
  - destruct (view_timerFire id s H2 H4) as [E1 E2]. apply Hgo; [done|by rewrite E2].
  - by apply Hgo.
  - destruct (view_editor content s) as ([E1 E2]&_). apply Hgo; [done|by rewrite E2].
  - destruct (view_editor "" s) as (_&[E1 E2]&_). apply Hgo; [done|by rewrite E2].
  - destruct (view_editor "" s) as (_&_&[E1 E2]). apply Hgo; [done|by rewrite E2].
Qed.

Lemma stopped_run tr : forall s,
  forallb (fun e => negb (startsPage e)) tr = true ->
  pageStopped s ->
  pageStopped (run s tr) /\ pageView (run s tr) = pageView s.
Proof.
  induction tr as [|e tr IH]; intros s Htr Hs; [done|].
  change (run s (e :: tr)) with (run (step s e) tr).
  cbn in Htr. apply andb_prop in Htr as [He Htr]. apply negb_true_iff in He.
  destruct (stopped_step s e He Hs) as [Hs1 E1].
  destruct (IH _ Htr Hs1) as [Hs2 E2]. split; [done|]. by rewrite E2.
Qed.

(** X7: [stopPageSync] is final.  A second call changes nothing, and
    from the state it leaves, whatever happens short of a call of
    [startPageSync] that is not for an encrypted page (pending debounce
    and reconnect timers, edits, late messages, online and visibility
    events included), nothing is sent to the server, no document is
    written or created, and no page stream holds a transport. *)
Theorem nothing_sent_after_stop appState entries coverEl tr tr' :
  let s := stopPageSync (run (boot appState entries coverEl) tr) in
  forallb (fun e => negb (startsPage e)) tr' = true ->
  stopPageSync s = s /\
  sent (run s tr') = sent s /\
  docs (run s tr') = docs s /\
  activePage (run s tr') = [] /\
  currentPageId (run s tr') = None.
Proof.
  intros s Htr. split; [apply stopPageSync_idempotent|].
  assert (Hs : pageStopped s) by apply pageStopped_stopPageSync, tracked_run, tracked_boot.
  destruct (stopped_run tr' s Htr Hs) as [(H1&H2&H3&H4&H5) E].
  apply pageView_inv in E as (_&_&_&_&E1&E2).
  repeat split; try done. by apply closedKind_activePage.
Qed.

(** ** Page sync and collection sync side by side *)

Lemma filter_single {A} (f : A -> bool) i (l : list A) :
  (forall j x, l !! j = Some x -> f x = true -> j = i) ->
  List.filter f l =
    match l !! i with
    | Some x => if f x then [x] else []
    | None => []
    end.
Proof.
  revert i. induction l as [|a l IH]; intros i Hl; [done|]. cbn [List.filter].
  destruct (f a) eqn:Ea.
  - pose proof (Hl 0 a eq_refl Ea) as <-. cbn. rewrite Ea. f_equal.
    apply filter_nil_lookup. intros j x Hj. destruct (f x) eqn:Ex; [|done].
    by specialize (Hl (S j) x Hj Ex).
  - destruct i as [|i]; cbn.
    + rewrite Ea. apply filter_nil_lookup. intros j x Hj.
      destruct (f x) eqn:Ex; [|done]. by specialize (Hl (S j) x Hj Ex).
    + apply IH. intros j x Hj Hx. by specialize (Hl (S j) x Hj Hx) as [= ->].
Qed.

Lemma filter_alter_out {A} (f : A -> bool) (g : A -> A) i (l : list A) :
  (forall x, l !! i = Some x -> f x = false /\ f (g x) = false) ->
  List.filter f (alter g i l) = List.filter f l.
Proof.
  revert i. induction l as [|a l IH]; intros i Hg; [done|].
  destruct i as [|i].
  - change (alter g 0 (a :: l)) with (g a :: l). cbn [List.filter].
    destruct (Hg a eq_refl) as [-> ->]. done.
  - change (alter g (S i) (a :: l)) with (a :: alter g i l). cbn [List.filter].
    rewrite (IH i); [done|]. intros x Hx. by apply (Hg x).
Qed.

Lemma stream_lookup (l : list EventSource) i st :
  (es_stream <$> l) !! i = Some st -> exists rs, l !! i = Some {| es_stream := st; readyState := rs |}.
Proof.
  rewrite list_lookup_fmap. destruct (l !! i) as [[st' rs]|]; [|done].
  intros [= <-]. by exists rs.
Qed.

Lemma activeCollection_alter_page i (l : list EventSource) pageId :
  (es_stream <$> l) !! i = Some (PageStream pageId false) ->
  List.filter (fun es => isActive es && negb (isPageStream es)) (alter closedES i l) =
  List.filter (fun es => isActive es && negb (isPageStream es)) l.
Proof.
  intros [rs Hi]%stream_lookup. apply filter_alter_out.
  intros x Hx. rewrite Hi in Hx. injection Hx as <-.
  unfold isPageStream. cbn. by rewrite !andb_false_r.
Qed.

Lemma activePage_alter_collection i (l : list EventSource) collectionId :
  (es_stream <$> l) !! i = Some (CollectionStream collectionId) ->
  List.filter (fun es => isActive es && isPageStream es) (alter closedES i l) =
  List.filter (fun es => isActive es && isPageStream es) l.
Proof.
  intros [rs Hi]%stream_lookup. apply filter_alter_out.
  intros x Hx. rewrite Hi in Hx. injection Hx as <-.
  unfold isPageStream. cbn. by rewrite !andb_false_r.
Qed.

Lemma activeCollection_stopPageSync s :
  wired s -> activeCollection (stopPageSync s) = activeCollection s.
Proof.
  intros [Hp _]. unfold activeCollection. rewrite sources_stopPageSync.
  destruct (currentPageSync s) as [ps|] eqn:Eps; [|done].
  destruct (Hp ps eq_refl) as [_ Hi]. by eapply activeCollection_alter_page.
Qed.

Lemma activeCollection_startPageSync pageId isEncrypted s :
  wired s -> activeCollection (startPageSync pageId isEncrypted s) = activeCollection s.
Proof.
  intros Hw. destruct isEncrypted; [done|].
  unfold activeCollection at 1. rewrite sources_startPageSync, List.filter_app.
  cbn [List.filter]. unfold isPageStream at 2. cbn. rewrite app_nil_r.
  by apply activeCollection_stopPageSync.
Qed.

Lemma activePage_stopCollectionSync s :
  wired s -> activePage (stopCollectionSync s) = activePage s.
Proof.
  intros [_ Hc]. unfold activePage. rewrite sources_stopCollectionSync.
  destruct (currentCollectionSync s) as [cs|] eqn:Ecs; [|done].
  destruct (Hc cs eq_refl) as [_ Hi]. by eapply activePage_alter_collection.
Qed.

Lemma activePage_startCollectionSync collectionId s :
  wired s -> activePage (startCollectionSync collectionId s) = activePage s.
Proof.
  intros Hw.
  unfold activePage at 1. rewrite sources_startCollectionSync, List.filter_app.
  cbn [List.filter]. unfold isPageStream at 2. cbn. rewrite app_nil_r.
  by apply activePage_stopCollectionSync.
Qed.

Lemma view_page_ops s :
  (currentCollectionSync (stopPageSync s) = currentCollectionSync s /\
   currentCollectionId (stopPageSync s) = currentCollectionId s) /\
  forall pageId isEncrypted,
    currentCollectionSync (startPageSync pageId isEncrypted s) = currentCollectionSync s /\
    currentCollectionId (startPageSync pageId isEncrypted s) = currentCollectionId s.
Proof.
  split.
  - pose proof (wiring_stopPageSync s) as E. by apply wiring_inv in E as (_&?&_&_&?).
  - intros pageId [|]; [done|].
    pose proof (wiring_startPageSync pageId s) as E.
    by apply wiring_inv in E as (_&?&_&_&?).
Qed.

(** X8: in every state the module reaches, starting or stopping the
    page sync leaves the collection stream and the collection id as they
    are, and starting or stopping the collection sync leaves the page
    stream, the page id, the document and what was sent as they are. *)
Theorem page_and_collection_independent
    appState entries coverEl tr pageId isEncrypted collectionId :
  let s := run (boot appState entries coverEl) tr in
  (activeCollection (startPageSync pageId isEncrypted s) = activeCollection s /\
   currentCollectionSync (startPageSync pageId isEncrypted s) = currentCollectionSync s /\
   currentCollectionId (startPageSync pageId isEncrypted s) = currentCollectionId s /\
   activeCollection (stopPageSync s) = activeCollection s /\
   currentCollectionSync (stopPageSync s) = currentCollectionSync s /\
   currentCollectionId (stopPageSync s) = currentCollectionId s) /\
  (activePage (startCollectionSync collectionId s) = activePage s /\
   pageView (startCollectionSync collectionId s) = pageView s /\
   editor (startCollectionSync collectionId s) = editor s /\
   activePage (stopCollectionSync s) = activePage s /\
   pageView (stopCollectionSync s) = pageView s /\
   editor (stopCollectionSync s) = editor s).
Proof.
  intros s.
  assert (Hw : wired s) by apply wired_run, wired_boot.
  destruct (view_page_ops s) as ([V1 V2]&V3).
  destruct (V3 pageId isEncrypted) as [V4 V5].
  destruct (view_collection_ops s) as [V6 V7].
  destruct (stopCollectionSync_frame s) as (V8&_).
  destruct (startCollectionSync_frame collectionId s) as (V9&_).
  split.
  - repeat split; try done.
    + by apply activeCollection_startPageSync.
    + by apply activeCollection_stopPageSync.
  - repeat split; try done.
    + by apply activePage_startCollectionSync.
    + by apply activePage_stopCollectionSync.
Qed.

(** ** The tab becomes visible *)

Lemma activePage_startPageSync pageId s :
  tracked s ->
  activePage (startPageSync pageId false s) =
    [{| es_stream := PageStream pageId false; readyState := CONNECTING |}].
Proof.
  intros Ht. unfold activePage. rewrite sources_startPageSync, List.filter_app.
  fold (activePage (stopPageSync s)). by rewrite activePage_stopPageSync.
Qed.

Lemma activeCollection_startCollectionSync collectionId s :
  tracked s ->
  activeCollection (startCollectionSync collectionId s) =
    [{| es_stream := CollectionStream collectionId; readyState := CONNECTING |}].
Proof.
  intros Ht. unfold activeCollection.
  rewrite sources_startCollectionSync, List.filter_app.
  fold (activeCollection (stopCollectionSync s)).
  by rewrite activeCollection_stopCollectionSync.
Qed.

(** The stream a current page sync holds, when it still holds a
    transport. *)
Lemma activePage_current s :
  tracked s -> wired s ->
  activePage s =
    match currentPageSync s with
    | Some ps =>
      match sources s !! ps_eventSource ps with
      | Some es => if isActive es then [es] else []
      | None => []
      end
    | None => []
    end.
Proof.
  intros (Hs&_) [Hp _]. unfold activePage.
  destruct (currentPageSync s) as [ps|] eqn:Eps.
  - rewrite (filter_single _ (ps_eventSource ps)).
    + destruct (Hp ps eq_refl) as [_ [rs Hi]%stream_lookup]. rewrite Hi.
      unfold isPageStream. cbn. by rewrite andb_true_r.
    + intros j x Hj [Ha Hx]%andb_prop.
      destruct (Hs j x Hj) as [Hc|Hc]; [unfold isActive in Ha; by rewrite Hc in Ha|].
      unfold current, isPageStream in *. destruct (es_stream x); [|done].
      rewrite Eps in Hc. by simplify_eq/=.
  - apply filter_nil_lookup. intros j x Hj.
    destruct (isActive x && isPageStream x) eqn:E; [|done].
    apply andb_prop in E as [Ha Hx].
    destruct (Hs j x Hj) as [Hc|Hc]; [unfold isActive in Ha; by rewrite Hc in Ha|].
    unfold current, isPageStream in *. destruct (es_stream x); [|done].
    by rewrite Eps in Hc.
Qed.

Lemma activeCollection_current s :
  tracked s -> wired s ->
  activeCollection s =
    match currentCollectionSync s with
    | Some cs =>
      match sources s !! cs_eventSource cs with
      | Some es => if isActive es then [es] else []
      | None => []
      end
    | None => []
    end.
Proof.
  intros (Hs&_) [_ Hp]. unfold activeCollection.
  destruct (currentCollectionSync s) as [cs|] eqn:Ecs.
  - rewrite (filter_single _ (cs_eventSource cs)).
    + destruct (Hp cs eq_refl) as [_ [rs Hi]%stream_lookup]. rewrite Hi.
      unfold isPageStream. cbn. by rewrite andb_true_r.
    + intros j x Hj [Ha Hx]%andb_prop.
      destruct (Hs j x Hj) as [Hc|Hc]; [unfold isActive in Ha; by rewrite Hc in Ha|].
      unfold current, isPageStream in *. destruct (es_stream x); [done|].
      rewrite Ecs in Hc. by simplify_eq/=.
  - apply filter_nil_lookup. intros j x Hj.
    destruct (isActive x && negb (isPageStream x)) eqn:E; [|done].
    apply andb_prop in E as [Ha Hx].
    destruct (Hs j x Hj) as [Hc|Hc]; [unfold isActive in Ha; by rewrite Hc in Ha|].
    unfold current, isPageStream in *. destruct (es_stream x); [done|].
    by rewrite Ecs in Hc.
Qed.

(** An open stream that is current is the only active one. *)
Lemma activePage_open s ps :
  tracked s -> wired s ->
  currentPageSync s = Some ps -> isOpen (ps_eventSource ps) s = true ->
  activePage s = [{| es_stream := PageStream (ps_pageId ps) false; readyState := OPEN |}].
Proof.
  intros Ht Hw Hps Ho. rewrite (activePage_current s Ht Hw), Hps.
  destruct Hw as [Hp _]. destruct (Hp ps Hps) as [_ [rs Hi]%stream_lookup].
  unfold isOpen in Ho. rewrite Hi in Ho |- *. by destruct rs.
Qed.

Lemma activeCollection_open s cs :
  tracked s -> wired s ->
  currentCollectionSync s = Some cs -> isOpen (cs_eventSource cs) s = true ->
  activeCollection s =
    [{| es_stream := CollectionStream (cs_collectionId cs); readyState := OPEN |}].
Proof.
  intros Ht Hw Hcs Ho. rewrite (activeCollection_current s Ht Hw), Hcs.
  destruct Hw as [_ Hc]. destruct (Hc cs Hcs) as [_ [rs Hi]%stream_lookup].
  unfold isOpen in Ho. rewrite Hi in Ho |- *. by destruct rs.
Qed.

(** Restarting the page sync does not touch the collection stream. *)
Lemma isOpen_startPageSync pageId s cs :
  wired s -> currentCollectionSync s = Some cs ->
  isOpen (cs_eventSource cs) (startPageSync pageId false s) = isOpen (cs_eventSource cs) s.
Proof.
  intros [Hp Hc] Hcs. destruct (Hc cs Hcs) as [_ Hj].
  pose proof Hj as [rs Hj']%stream_lookup.
  unfold isOpen. rewrite sources_startPageSync, sources_stopPageSync.
  destruct (currentPageSync s) as [ps|] eqn:Eps.
  - destruct (Hp ps eq_refl) as [_ Hi].
    assert (Hne : ps_eventSource ps <> cs_eventSource cs).
    { intros E. rewrite E in Hi. congruence. }
    rewrite lookup_app_l by (rewrite length_alter; by eapply lookup_lt_Some).
    by rewrite list_lookup_alter_ne.
  - by rewrite lookup_app_l by (by eapply lookup_lt_Some).
Qed.

(** X9: when the tab becomes visible, in every state the module
    reaches, each sync that is current ends up with exactly one stream
    that holds a transport, for the same page or collection: the stream
    it had if that was open, and otherwise (still connecting, or failed)
    a new one.  A page sync whose stream was open is left as it is; one
    that is restarted gets a new, empty document. *)
Theorem visible_restores appState entries coverEl tr :
  let s := run (boot appState entries coverEl) tr in
  let s' := step s (VisibilityChange false) in
  activePage s' =
    match currentPageSync s with
    | Some ps =>
      [{| es_stream := PageStream (ps_pageId ps) false;
          readyState := if isOpen (ps_eventSource ps) s then OPEN else CONNECTING |}]
    | None => []
    end /\
  activeCollection s' =
    match currentCollectionSync s with
    | Some cs =>
      [{| es_stream := CollectionStream (cs_collectionId cs);
          readyState := if isOpen (cs_eventSource cs) s then OPEN else CONNECTING |}]
    | None => []
    end /\
  currentPageId s' = currentPageId s /\
  currentCollectionId s' = currentCollectionId s /\
  match currentPageSync s with
  | Some ps =>
    if isOpen (ps_eventSource ps) s then pageView s' = pageView s
    else ydoc s' = Some (length (docs s)) /\
         docs s' !! length (docs s) = Some (freshDoc (ps_pageId ps)) /\
         sent s' = sent s
  | None => pageView s' = pageView s
  end.
Proof.
  intros s s'.
  assert (Ht : tracked s) by apply tracked_run, tracked_boot.
  assert (Hw : wired s) by apply wired_run, wired_boot.
  unfold s'. cbn [step]. unfold handleVisibilityChange.
  set (s1 := match currentPageSync s with
             | Some ps =>
               if isOpen (ps_eventSource ps) s then s
               else startPageSync (ps_pageId ps) false s
             | None => s
             end).
  (* the page step *)
  assert (Ht1 : tracked s1).
  { unfold s1. repeat case_match; try done. by apply tracked_startPageSync. }
  assert (Hw1 : wired s1).
  { unfold s1. repeat case_match; try done. by apply wired_startPageSync. }
  assert (Hcs1 : currentCollectionSync s1 = currentCollectionSync s /\
                 currentCollectionId s1 = currentCollectionId s).
  { unfold s1. repeat case_match; try done. apply view_page_ops. }
  destruct Hcs1 as [Hcs1 Hci1].
  assert (Hopen1 : forall cs, currentCollectionSync s = Some cs ->
            isOpen (cs_eventSource cs) s1 = isOpen (cs_eventSource cs) s).
  { intros cs Hcs. unfold s1. repeat case_match; try done.
    by apply isOpen_startPageSync. }
  assert (Hac1 : activeCollection s1 = activeCollection s).
  { unfold s1. repeat case_match; try done. by apply activeCollection_startPageSync. }
  assert (Hap1 : activePage s1 =
            match currentPageSync s with
            | Some ps =>
              [{| es_stream := PageStream (ps_pageId ps) false;
                  readyState := if isOpen (ps_eventSource ps) s then OPEN else CONNECTING |}]
            | None => []
            end).
  { unfold s1. destruct (currentPageSync s) as [ps|] eqn:Eps.
    - destruct (isOpen (ps_eventSource ps) s) eqn:Eo.
      + by apply activePage_open.
      + by apply activePage_startPageSync.
    - by rewrite (activePage_current s Ht Hw), Eps. }
  assert (Hid1 : currentPageId s1 = currentPageId s).
  { unfold s1. destruct (currentPageSync s) as [ps|] eqn:Eps; [|done].
    destruct (isOpen (ps_eventSource ps) s); [done|].
    destruct Hw as [Hp _]. destruct (Hp ps Eps) as [-> _].
    pose proof (wiring_startPageSync (ps_pageId ps) s) as E.
    by apply wiring_inv in E as (_&_&_&?&_). }
  assert (Hv1 : match currentPageSync s with
                | Some ps =>
                  if isOpen (ps_eventSource ps) s then pageView s1 = pageView s
                  else ydoc s1 = Some (length (docs s)) /\
                       docs s1 !! length (docs s) = Some (freshDoc (ps_pageId ps)) /\
                       sent s1 = sent s
                | None => pageView s1 = pageView s
                end).
  { unfold s1. destruct (currentPageSync s) as [ps|] eqn:Eps; [|done].
    destruct (isOpen (ps_eventSource ps) s); [done|].
    pose proof (startPageSync_fields (ps_pageId ps) s) as F. cbv zeta in F.
    destruct F as (_&_&F3&_&_&_&F7&_).
    destruct (stopPageSync_frame s) as (_&_&_&_&G5&_&G7).
    destruct (startPageSync_frame (ps_pageId ps) s) as (_&_&_&_&K5).
    rewrite F3, F7, G7, K5. split; [done|]. split; [|done].
    by rewrite lookup_app_r, G7, Nat.sub_diag by (by rewrite G7). }
  clearbody s1.
  (* the collection step *)
  rewrite Hcs1.
  destruct (currentCollectionSync s) as [cs|] eqn:Ecs.
  2:{ rewrite Hac1, (activeCollection_current s Ht Hw), Ecs. done. }
  rewrite (Hopen1 cs eq_refl).
  destruct (isOpen (cs_eventSource cs) s) eqn:Eo.
  { rewrite Hac1. split; [done|]. split; [by apply activeCollection_open|]. done. }
  destruct (view_collection_ops s1) as [_ V].
  specialize (V (cs_collectionId cs)).
  pose proof (wiring_startCollectionSync (cs_collectionId cs) s1) as E.
  apply wiring_inv in E as (_&_&_&E4&E5).
  destruct Hw as [_ Hc]. destruct (Hc cs Ecs) as [Hci _].
  split; [by rewrite activePage_startCollectionSync|].
  split; [by apply activeCollection_startCollectionSync|].
  split; [by rewrite E4|]. split; [by rewrite E5, Hci|].
  apply pageView_inv in V as (V1&V2&V3&V4&V5&V6).
  unfold pageView. rewrite V1, V2, V3, V4, V5, V6. exact Hv1.
Qed.

(** ** An encrypted page and the reconnection signals *)

(** After a restart of the sync of page [p], followed or not by a start
    of the collection sync: the one stream that holds a transport is a
    new stream of [p], and [ydoc] is a new document. *)
Lemma page_restarted s s2 p :
  tracked s -> wired s ->
  s2 = startPageSync p false s \/
  (exists c, s2 = startCollectionSync c (startPageSync p false s)) ->
  activePage s2 = [{| es_stream := PageStream p false; readyState := CONNECTING |}] /\
  ydoc s2 = Some (length (docs s)) /\
  docs s2 !! length (docs s) = Some (freshDoc p).
Proof.
  intros Ht Hw Hs2.
  pose proof (activePage_startPageSync p s Ht) as Ha.
  pose proof (wired_startPageSync p false s Hw) as Hw1.
  pose proof (startPageSync_fresh p s) as Hf. cbv zeta in Hf.
  destruct Hf as ((F1&_&_&F4)&_).
  destruct Hs2 as [->|[c ->]]; [done|].
  rewrite (activePage_startCollectionSync c _ Hw1).
  destruct (view_collection_ops (startPageSync p false s)) as [_ Hv].
  specialize (Hv c). apply pageView_inv in Hv as (_&_&Hy&_&_&Hd).
  by rewrite Hy, Hd.
Qed.

(** C3: [startPageSync] with [isEncrypted] only shows the notice, but
    the page is not kept from being synced.  The call returns before the
    sync that is running is stopped, and the ['online'] and visibility
    handlers restart a sync with [isEncrypted] false: when the page is
    the one [state.currentPageId] names and no sync is current, the next
    ['online'] event opens a stream and creates a document for it; when
    a sync of the page is current, it stays as it is, and the tab
    becoming visible while its stream is not open opens a new stream and
    creates a new document for the page. *)
Theorem encrypted_page_synced_on_signal appState entries coverEl tr p :
  let s0 := run (boot appState entries coverEl) tr in
  let s := startPageSync p true s0 in
  let fresh := {| es_stream := PageStream p false; readyState := CONNECTING |} in
  s = showInfo NoticeEncrypted s0 /\
  (currentPageId s0 = Some p -> truthy p = true -> currentPageSync s0 = None ->
     activePage (step s WindowOnline) = [fresh] /\
     ydoc (step s WindowOnline) = Some (length (docs s0)) /\
     docs (step s WindowOnline) !! length (docs s0) = Some (freshDoc p)) /\
  (forall ps, currentPageSync s0 = Some ps -> ps_pageId ps = p ->
     activePage s = activePage s0 /\
     currentPageSync s = Some ps /\
     (isOpen (ps_eventSource ps) s0 = false ->
        activePage (step s (VisibilityChange false)) = [fresh] /\
        ydoc (step s (VisibilityChange false)) = Some (length (docs s0)) /\
        docs (step s (VisibilityChange false)) !! length (docs s0) =
          Some (freshDoc p))).
Proof.
  intros s0 s fresh.
  assert (Ht0 : tracked s0) by apply tracked_run, tracked_boot.
  assert (Hw0 : wired s0) by apply wired_run, wired_boot.
  assert (Es : s = showInfo NoticeEncrypted s0) by done.
  assert (Ht : tracked s) by (rewrite Es; revert Ht0; by apply tracked_control).
  assert (Hw : wired s) by (rewrite Es; revert Hw0; by apply wired_wiring).
  assert (Hd : docs s = docs s0) by by rewrite Es.
  assert (Hfields : currentPageId s = currentPageId s0 /\
                    currentPageSync s = currentPageSync s0 /\
                    sources s = sources s0) by by rewrite Es.
  destruct Hfields as (Hid&Hps&Hsrc).
  clearbody s s0. split; [done|]. rewrite <- Hd. split.
  - intros Hp Htp Hnone. cbn [step]. unfold handleOnline.
    rewrite Hid, Hps, Hp, Hnone, Htp.
    set (s1 := startPageSync p false s).
    assert (Hshow : forall x, activePage (showInfo NoticeOnline x) = activePage x /\
                              ydoc (showInfo NoticeOnline x) = ydoc x /\
                              docs (showInfo NoticeOnline x) = docs x) by done.
    destruct (currentCollectionId s1) as [c|]; [destruct (currentCollectionSync s1)|];
      [|destruct (truthy c)|];
      match goal with
      | |- context [showInfo NoticeOnline ?x] =>
        destruct (Hshow x) as (-> & -> & ->)
      end;
      apply (page_restarted s _ p Ht Hw); unfold s1; eauto.
  - intros ps Hcur Hpage. rewrite Hps. split; [by rewrite Es|]. split; [done|].
    intros Hopen. cbn [step]. unfold handleVisibilityChange.
    rewrite Hps, Hcur, Hpage.
    assert (Ho : isOpen (ps_eventSource ps) s = false).
    { unfold isOpen in *. by rewrite Hsrc. }
    rewrite Ho. set (s1 := startPageSync p false s).
    destruct (currentCollectionSync s1) as [cs|];
      [destruct (isOpen (cs_eventSource cs) s1)|];
      apply (page_restarted s _ p Ht Hw); unfold s1; eauto.
Qed.

(** ** A remote update while the editor is not focused *)





(** ** What the ['init'] event sends and installs *)

Lemma reachable_page_stream s i pageId rs :
  tracked s ->
  sources s !! i = Some {| es_stream := PageStream pageId false; readyState := rs |} ->
  rs <> CLOSED ->
  currentPageSync s = Some {| ps_eventSource := i; ps_pageId := pageId |} /\
  exists r d,
    ydoc s = Some r /\ yMetadata s = Some r /\ docs s !! r = Some d /\
    doc_observers d = [pageId].
Proof.
  intros (Hs&(_&Hm&Hlen&_)&Hd) Hi Hrs.
  destruct (Hs i _ Hi) as [Hc|Hc]; [done|]. unfold current in Hc. cbn in Hc.
  split; [done|].
  destruct (Hd _ Hc) as (_&r&Hr&Ho). cbn in Ho.
  destruct (lookup_lt_is_Some_2 (docs s) r (Hlen r Hr)) as [d Hdoc].
  exists r, d. rewrite Hm. repeat split; try done.
  rewrite list_lookup_fmap, Hdoc in Ho. by injection Ho.
Qed.

Lemma setupEditorBinding_sends s r d ed :
  editor s = Some ed -> ydoc s = Some r -> yMetadata s = Some r ->
  docs s !! r = Some d ->
  sent (setupEditorBinding s) =
    sent s ++ ((fun pageId =>
                  (pageId, (Y_mapSet (doc_content d) "content" (getHTML ed)).2)) <$>
               doc_observers d) /\
  editor (setupEditorBinding s) =
    Some {| getHTML := getHTML ed; hasFocus := hasFocus ed;
            bindings := bindings ed ++
              [{| remoteUpdatePending := None; updateTimeout := None;
                  isUpdating := false |}];
            _setPendingRemoteUpdate := Some (length (bindings ed));
            _syncIsUpdating := Some false |}.
Proof.
  intros He Hy Hm Hd. unfold setupEditorBinding, yMetadata_set.
  rewrite He, Hy, Hm, Hd.
  destruct (Y_mapSet (doc_content d) "content" (getHTML ed)) as [c u]. cbn.
  by rewrite emitUpdate_none.
Qed.

(** X12: in every state the module reaches, the ['init'] event on the
    open page stream sends, for a snapshot whose merge succeeds, what the
    document emits for the snapshot, if anything, and then, when there is
    an editor, one update that writes the editor's content under
    ['content']; it sends nothing when the merge throws. *)
Theorem init_sends appState entries coverEl tr i pageId u :
  let s := run (boot appState entries coverEl) tr in
  sources s !! i =
    Some {| es_stream := PageStream pageId false; readyState := OPEN |} ->
  exists r d,
    ydoc s = Some r /\ docs s !! r = Some d /\
    sent (step s (SourceMessage i (MInit (Some u)))) =
      sent s ++
      match Y_applyUpdate (doc_content d) u with
      | None => []
      | Some (c, e) =>
        match e with
        | Some x => [(pageId, x)]
        | None => []
        end ++
        match editor s with
        | Some ed => [(pageId, (Y_mapSet c "content" (getHTML ed)).2)]
        | None => []
        end
      end.
Proof.
  intros s Hi.
  assert (Ht : tracked s) by apply tracked_run, tracked_boot.
  destruct (reachable_page_stream s i pageId OPEN Ht Hi) as (_&r&d&Hr&Hm&Hd&Ho); [done|].
  exists r, d. split; [done|]. split; [done|].
  cbn [step]. rewrite (sourceMessage_page _ _ _ _ _ Hi).
  unfold onInit, applyUpdate. rewrite Hr, Hd.
  destruct (Y_applyUpdate (doc_content d) u) as [[c e]|]; [|by rewrite app_nil_r].
  set (s0 := set_docs (<[r:=set_content c d]> (docs s)) s).
  set (s1 := match e with
             | Some u0 => emitUpdate (doc_observers d) u0 OriginNone s0
             | None => s0
             end).
  assert (E1 : sent s1 = sent s ++ match e with
                                   | Some x => [(pageId, x)]
                                   | None => []
                                   end).
  { unfold s1. destruct e; [|by rewrite app_nil_r].
    by rewrite emitUpdate_none, Ho. }
  assert (E2 : editor s1 = editor s /\ ydoc s1 = Some r /\ yMetadata s1 = Some r /\
               docs s1 !! r = Some (set_content c d)).
  { assert (Hl : docs s0 !! r = Some (set_content c d)).
    { unfold s0. cbn. apply list_lookup_insert_eq. by eapply lookup_lt_Some. }
    unfold s1. destruct e; [|done]. by rewrite emitUpdate_sent. }
  destruct E2 as (E2&E3&E4&E5). clearbody s1.
  destruct (editor s) as [ed|] eqn:Eed.
  - destruct (setupEditorBinding_sends s1 r _ ed E2 E3 E4 E5) as [-> _].
    cbn [doc_observers set_content doc_content]. rewrite Ho, E1. cbn.
    by rewrite <- app_assoc.
  - unfold setupEditorBinding. rewrite E2, E1. by rewrite app_nil_r.
Qed.

(** ** The listeners of the editor *)


Lemma bindings_step s e ed :
  editor s = Some ed ->
  exists ed', editor (step s e) = Some ed' /\
    length (bindings ed) <= length (bindings ed').
Proof.
  intros He.
  assert (Hsame : forall s', editor s' = editor s ->
            exists ed', editor s' = Some ed' /\
              length (bindings ed) <= length (bindings ed')).
  { intros s' ->. by exists ed. }
  destruct e; cbn [step].
  - destruct isEncrypted; [by apply Hsame|]. apply Hsame, startPageSync_frame.
  - apply Hsame, stopPageSync_frame.
  - apply Hsame, startCollectionSync_frame.
  - apply Hsame, stopCollectionSync_frame.
  - apply Hsame. unfold handleOnline. cbn.
    repeat case_match; rewrite ?(proj1 (startCollectionSync_frame _ _));
      rewrite ?(proj1 (startPageSync_frame _ _)); done.
  - by apply Hsame.
  - apply Hsame. unfold handleVisibilityChange.
    repeat case_match; rewrite ?(proj1 (startCollectionSync_frame _ _));
      rewrite ?(proj1 (startPageSync_frame _ _)); done.
  - apply Hsame. unfold sourceOpen. by repeat case_match.
  - unfold sourceMessage.
    destruct (isOpen i s); [|by apply Hsame].
    destruct (es_stream <$> sources s !! i) as [[pageId enc|collectionId]|];
      [| |by apply Hsame].
    + destruct m as [p|p|p| | | |]; try (by apply Hsame).
      * unfold onInit. destruct p as [u|]; [|by apply Hsame].
        destruct (applyUpdate (ydoc s) u OriginNone s) as [s1|] eqn:Ha;
          [|by apply Hsame].
        assert (He1 : editor s1 = Some ed).
        { apply applyUpdate_shape in Ha as (?&?&?&?&?&?&?&?&->). done. }
        unfold setupEditorBinding. rewrite He1.
        destruct (ydoc s1); [|by exists ed]. destruct (yMetadata s1); [|by exists ed].
        destruct (yMetadata_set "content" (getHTML ed) s1); [|by exists ed].
        eexists. split; [done|]. cbn. rewrite length_app. lia.
      * unfold onYjsUpdate. destruct p as [u|]; [|by apply Hsame].
        destruct (applyUpdate (ydoc s) u OriginRemote s) as [s1|] eqn:Ha;
          [|by apply Hsame].
        assert (He1 : editor s1 = Some ed).
        { apply applyUpdate_shape in Ha as (?&?&?&?&?&?&?&?&->). done. }
        rewrite He1.
        repeat case_match; try (by exists ed);
          try (eexists; (split; [done|]); cbn; rewrite ?length_alter; done).
        match goal with
        | |- context [setContent ?c ?e ?x] =>
          destruct (editor_setContent c e x ed He1) as (bs&->&Hl)
        end.
        eexists. split; [done|]. cbn. lia.
      * apply Hsame. unfold onUserJoined. by destruct p as [[??]|].
    + apply Hsame. destruct m as [p|p|p| |p|p|p]; try done.
      * unfold onMetadataChange, updatePageInSidebar, showCover, hideCover.
        destruct p; [|done]. by repeat case_match.
      * unfold onPageListChange. by case_match.
      * unfold onPageListChange. by case_match.
  - apply Hsame. unfold sourceError, onPageError, onCollectionError.
    by repeat case_match.
  - apply Hsame. unfold timerFire. destruct (timers s !! id) as [t|]; [|done].
    case_decide; [|done]. destruct (action t).
    + unfold reconnect. case_decide; [|done]. destruct isEncrypted; [done|].
      by rewrite (proj1 (startPageSync_frame _ _)).
    + by rewrite editor_debounced.
  - by apply Hsame.
  - unfold editorInput. rewrite He.
    destruct (updateListeners 0 (bindings (set_getHTML content ed)) s) as [bs s1] eqn:E.
    eexists. split; [done|]. cbn.
    pose proof (updateListeners_length (bindings ed) 0 s) as Hl.
    change (bindings (set_getHTML content ed)) with (bindings ed) in E.
    rewrite E in Hl. cbn in Hl. lia.
  - unfold editorFocus. rewrite He. by eexists.
  - pose proof (editorBlur_frame s) as Hfr. unfold editorFrame in Hfr.
    rewrite He in Hfr. destruct (editor (editorBlur s)) as [ed'|]; [|done].
    exists ed'. split; [done|]. cbn in Hfr. injection Hfr as _ _ _ Hl. lia.
Qed.

Lemma bindings_run tr : forall s ed,
  editor s = Some ed ->
  exists ed', editor (run s tr) = Some ed' /\
    length (bindings ed) <= length (bindings ed').
Proof.
  induction tr as [|e tr IH]; intros s ed He; [by exists ed|].
  change (run s (e :: tr)) with (run (step s e) tr).
  destruct (bindings_step s e ed He) as (ed1&He1&Hl1).
  destruct (IH _ _ He1) as (ed2&He2&Hl2). exists ed2. split; [done|]. lia.
Qed.

(** X13: the listeners [setupEditorBinding] registers on the editor are
    never removed.  In every state the module reaches, an ['init'] event
    on the open page stream whose snapshot merges registers one more
    pair of listeners behind those already there and points
    [_setPendingRemoteUpdate] to the new one; and whatever happens
    afterwards, stops and restarts included, the editor keeps at least
    as many listeners as it has. *)
Theorem listeners_accumulate appState entries coverEl tr :
  let s := run (boot appState entries coverEl) tr in
  (forall i pageId u ed r d,
     sources s !! i =
       Some {| es_stream := PageStream pageId false; readyState := OPEN |} ->
     editor s = Some ed ->
     ydoc s = Some r -> docs s !! r = Some d ->
     Y_applyUpdate (doc_content d) u <> None ->
     editor (step s (SourceMessage i (MInit (Some u)))) =
       Some {| getHTML := getHTML ed; hasFocus := hasFocus ed;
               bindings := bindings ed ++
                 [{| remoteUpdatePending := None; updateTimeout := None;
                     isUpdating := false |}];
               _setPendingRemoteUpdate := Some (length (bindings ed));
               _syncIsUpdating := Some false |}) /\
  (forall tr' ed,
     editor s = Some ed ->
     exists ed', editor (run s tr') = Some ed' /\
       length (bindings ed) <= length (bindings ed')).
Proof.
  intros s. split; [|intros tr' ed; apply bindings_run].
  intros i pageId u ed r d Hi He Hr Hd Hu.
  assert (Ht : tracked s) by apply tracked_run, tracked_boot.
  destruct (reachable_page_stream s i pageId OPEN Ht Hi)
    as (_&r'&d'&Hr'&Hm&Hd'&Ho); [done|].
  assert (r' = r) by congruence. subst r'.
  cbn [step]. rewrite (sourceMessage_page _ _ _ _ _ Hi).
  unfold onInit, applyUpdate. rewrite Hr, Hd.
  destruct (Y_applyUpdate (doc_content d) u) as [[c e]|]; [|done].
  set (s0 := set_docs (<[r:=set_content c d]> (docs s)) s).
  set (s1 := match e with
             | Some u0 => emitUpdate (doc_observers d) u0 OriginNone s0
             | None => s0
             end).
  assert (E2 : editor s1 = Some ed /\ ydoc s1 = Some r /\ yMetadata s1 = Some r /\
               docs s1 !! r = Some (set_content c d)).
  { assert (Hl : docs s0 !! r = Some (set_content c d)).
    { unfold s0. cbn. apply list_lookup_insert_eq. by eapply lookup_lt_Some. }
    unfold s1. destruct e; [|done]. by rewrite emitUpdate_sent. }
  destruct E2 as (E2&E3&E4&E5). clearbody s1.
  by destruct (setupEditorBinding_sends s1 r _ ed E2 E3 E4 E5) as [_ ->].
Qed.

(** ** Several debounce timers for one edit *)

Lemma emitUpdate_none_eq obs u s :
  emitUpdate obs u OriginNone s =
    set_sent (sent s ++ ((fun pageId => (pageId, u)) <$> obs)) s.
Proof. by rewrite emitUpdate_sent, emitUpdate_none. Qed.

Lemma debounced_set_timers m s :
  debounced (set_timers m s) = set_timers m (debounced s).
Proof.
  unfold debounced, yMetadata_get, yMetadata_set. cbn.
  destruct (editor s) as [ed|]; [|done].
  destruct (yMetadata s) as [r|]; [|done]. cbn.
  destruct (docs s !! r) as [d|]; [|done]. cbn.
  case_decide; [done|].
  destruct (Y_mapSet (doc_content d) "content" (getHTML ed)) as [c u].
  by rewrite !emitUpdate_none_eq.
Qed.

Lemma timers_debounced s : timers (debounced s) = timers s.
Proof. unfold debounced. repeat case_match; simplify_eq; use_shapes; done. Qed.

Lemma debouncedDelta_debounced s :
  readsBack -> debouncedDelta (debounced s) = [].
Proof.
  intros Hlaw. unfold debounced, debouncedDelta at 1, yMetadata_get, yMetadata_set.
  destruct (editor s) as [ed|] eqn:Eed; [|by rewrite Eed].
  destruct (yMetadata s) as [r|] eqn:Er; [|by rewrite Eed, Er]. cbn.
  destruct (docs s !! r) as [d|] eqn:Ed; [|by rewrite Eed, Er, Ed]. cbn.
  case_decide as Heq; [by rewrite Eed, Er, Ed, decide_True|].
  destruct (Y_mapSet (doc_content d) "content" (getHTML ed)) as [c u] eqn:Eset.
  rewrite emitUpdate_none_eq. cbn. rewrite Eed, Er.
  rewrite list_lookup_insert_eq by (by eapply lookup_lt_Some). cbn.
  rewrite decide_True; [done|].
  specialize (Hlaw (doc_content d) "content" (getHTML ed)). by rewrite Eset in Hlaw.
Qed.

Lemma onlyDebounce_lookup m id t :
  onlyDebounce m = true -> m !! id = Some t -> exists k, action t = Debounce k.
Proof.
  unfold onlyDebounce. rewrite List.forallb_forall. intros Hm Hid.
  specialize (Hm (id, t)). cbn in Hm.
  destruct (action t); [|by eexists].
  discriminate Hm. by apply list_elem_of_In, elem_of_map_to_list.
Qed.

Lemma onlyDebounce_delete m id : onlyDebounce m = true -> onlyDebounce (delete id m) = true.
Proof.
  unfold onlyDebounce. rewrite !List.forallb_forall. intros Hm [id' t] Hin.
  apply Hm. apply list_elem_of_In, elem_of_map_to_list in Hin.
  apply list_elem_of_In, elem_of_map_to_list.
  by apply lookup_delete_Some in Hin as [_ ?].
Qed.

(** A debounce-only state fires into [debounced] or does nothing. *)
Lemma timerFire_onlyDebounce id s :
  onlyDebounce (timers s) = true ->
  timerFire id s = s \/ timerFire id s = debounced (clearTimeout id s).
Proof.
  intros Hm. unfold timerFire. destruct (timers s !! id) as [t|] eqn:Et; [|by left].
  destruct (onlyDebounce_lookup _ _ _ Hm Et) as [k ->].
  case_decide; [by right|by left].
Qed.

Lemma fires_settled ids : forall s,
  readsBack -> onlyDebounce (timers s) = true -> debouncedDelta s = [] ->
  sent (run s (TimerFire <$> ids)) = sent s.
Proof.
  induction ids as [|id ids IH]; intros s Hlaw Hm Hd; [done|].
  change (run s (TimerFire <$> id :: ids))
    with (run (timerFire id s) (TimerFire <$> ids)).
  destruct (timerFire_onlyDebounce id s Hm) as [->| ->]; [by apply IH|].
  rewrite IH; try done.
  - rewrite debounced_sent. unfold clearTimeout at 2.
    change (debouncedDelta (set_timers ?m s)) with (debouncedDelta s).
    by rewrite Hd, app_nil_r.
  - rewrite timers_debounced. by apply onlyDebounce_delete.
  - by apply debouncedDelta_debounced.
Qed.

Lemma fires_once ids : forall s,
  readsBack -> onlyDebounce (timers s) = true ->
  sent (run s (TimerFire <$> ids)) = sent s \/
  sent (run s (TimerFire <$> ids)) = sent s ++ debouncedDelta s.
Proof.
  induction ids as [|id ids IH]; intros s Hlaw Hm; [by left|].
  change (run s (TimerFire <$> id :: ids))
    with (run (timerFire id s) (TimerFire <$> ids)).
  destruct (timerFire_onlyDebounce id s Hm) as [->| ->]; [by apply IH|].
  right. rewrite fires_settled; try done.
  - by rewrite debounced_sent.
  - rewrite timers_debounced. by apply onlyDebounce_delete.
  - by apply debouncedDelta_debounced.
Qed.

Lemma debouncedDelta_length s : tracked s -> length (debouncedDelta s) <= 1.
Proof.
  intros (_&(_&Hm&Hlen&Hsome)&Hd). unfold debouncedDelta.
  destruct (editor s) as [ed|]; [|cbn; lia].
  destruct (yMetadata s) as [r|] eqn:Er; [|cbn; lia].
  destruct (docs s !! r) as [d|] eqn:Ed; [|cbn; lia].
  case_decide; [cbn; lia|]. rewrite length_fmap.
  symmetry in Hm. destruct (Hsome r Hm) as [ps Hps].
  destruct (Hd ps Hps) as (_&r'&Hr'&Ho). rewrite Hm in Hr'. injection Hr' as <-.
  rewrite list_lookup_fmap, Ed in Ho. injection Ho as ->. cbn. lia.
Qed.

(** X14: with an engine whose maps read back what was written, in every
    state the module reaches in which only debounce timers are pending,
    however many of them fire and in whatever order, at most one update
    is sent: the one the first timer that is due submits, and none when
    the editor shows the stored content. *)
Theorem debounce_timers_send_once appState entries coverEl tr ids :
  readsBack ->
  let s := run (boot appState entries coverEl) tr in
  onlyDebounce (timers s) = true ->
  exists l,
    sent (run s (TimerFire <$> ids)) = sent s ++ l /\
    length l <= 1 /\
    (l = [] \/ l = debouncedDelta s) /\
    (rendered s = mergedContent s -> l = []).
Proof.
  intros Hlaw s Hm.
  assert (Ht : tracked s) by apply tracked_run, tracked_boot.
  assert (Hz : rendered s = mergedContent s -> debouncedDelta s = []).
  { unfold rendered, mergedContent, yMetadata_get, debouncedDelta.
    destruct (editor s) as [ed|]; [|done].
    destruct (yMetadata s) as [r|]; [|done].
    destruct (docs s !! r) as [d|]; [|done]. cbn.
    intros ->. by rewrite decide_True. }
  destruct (fires_once ids s Hlaw Hm) as [E|E].
  - exists []. rewrite app_nil_r. repeat split; try done; [cbn; lia|by left].
  - exists (debouncedDelta s). repeat split; try done.
    + by apply debouncedDelta_length.
    + by right.
Qed.

(** ** The stored content and the editor *)

Lemma reachable_document s :
  tracked s -> is_Some (currentPageSync s) ->
  exists r d, ydoc s = Some r /\ yMetadata s = Some r /\ docs s !! r = Some d.
Proof.
  intros (_&(_&Hm&Hlen&_)&Hd) [ps Hps].
  destruct (Hd ps Hps) as (_&r&Hr&_).
  destruct (lookup_lt_is_Some_2 (docs s) r (Hlen r Hr)) as [d Hdoc].
  exists r, d. by rewrite Hm.
Qed.

Lemma mergedContent_debounced s r d ed :
  readsBack ->
  editor s = Some ed -> yMetadata s = Some r -> docs s !! r = Some d ->
  mergedContent (debounced s) = Some (getHTML ed).
Proof.
  intros Hlaw He Hm Hd.
  unfold debounced, mergedContent at 1, yMetadata_get, yMetadata_set.
  rewrite He, Hm, Hd.
  case_decide as Heq; [by rewrite Hm, Hd|].
  destruct (Y_mapSet (doc_content d) "content" (getHTML ed)) as [c u] eqn:Eset.
  rewrite emitUpdate_none_eq. cbn. rewrite Hm.
  rewrite list_lookup_insert_eq by (by eapply lookup_lt_Some). cbn.
  specialize (Hlaw (doc_content d) "content" (getHTML ed)). by rewrite Eset in Hlaw.
Qed.

(** X20: with an engine whose maps read back what was written, in every
    state the module reaches with a page sync and an editor, a debounce
    timer that fires when due leaves the editor's content stored under
    ['content'], and the editor as it was. *)
Theorem debounce_stores_editor_content appState entries coverEl tr id t k ed :
  readsBack ->
  let s := run (boot appState entries coverEl) tr in
  timers s !! id = Some t -> action t = Debounce k -> due t <= clock s ->
  editor s = Some ed -> is_Some (currentPageSync s) ->
  mergedContent (step s (TimerFire id)) = Some (getHTML ed) /\
  editor (step s (TimerFire id)) = Some ed.
Proof.
  intros Hlaw s Ht Ha Hdue He Hps.
  assert (Htr : tracked s) by apply tracked_run, tracked_boot.
  destruct (reachable_document s Htr Hps) as (r&d&_&Hm&Hd).
  cbn [step]. rewrite (timerFire_debounce id t k s Ht Ha), decide_True by done.
  split.
  - by apply (mergedContent_debounced _ r d).
  - by rewrite editor_debounced.
Qed.

Lemma setupEditorBinding_content s r d ed :
  readsBack ->
  editor s = Some ed -> ydoc s = Some r -> yMetadata s = Some r ->
  docs s !! r = Some d ->
  mergedContent (setupEditorBinding s) = Some (getHTML ed).
Proof.
  intros Hlaw He Hy Hm Hd. unfold setupEditorBinding, yMetadata_set.
  rewrite He, Hy, Hm, Hd.
  destruct (Y_mapSet (doc_content d) "content" (getHTML ed)) as [c u] eqn:Eset.
  rewrite emitUpdate_none_eq. unfold mergedContent, yMetadata_get. cbn. rewrite Hm.
  rewrite list_lookup_insert_eq by (by eapply lookup_lt_Some). cbn.
  specialize (Hlaw (doc_content d) "content" (getHTML ed)). by rewrite Eset in Hlaw.
Qed.

(** X21: the ['init'] event never shows the snapshot.  With an engine
    whose maps read back what was written, in every state the module
    reaches with an editor, after an ['init'] event on the open page
    stream whose snapshot merges the editor shows what it showed, and
    the ['content'] of the document is the editor's content, whatever
    ['content'] the snapshot carried. *)
Theorem init_keeps_editor_content appState entries coverEl tr i pageId u ed :
  readsBack ->
  let s := run (boot appState entries coverEl) tr in
  sources s !! i =
    Some {| es_stream := PageStream pageId false; readyState := OPEN |} ->
  editor s = Some ed ->
  (forall r d, ydoc s = Some r -> docs s !! r = Some d ->
     Y_applyUpdate (doc_content d) u <> None) ->
  let s' := step s (SourceMessage i (MInit (Some u))) in
  rendered s' = Some (getHTML ed) /\ mergedContent s' = Some (getHTML ed).
Proof.
  intros Hlaw s Hi He Hu s'.
  assert (Ht : tracked s) by apply tracked_run, tracked_boot.
  destruct (reachable_page_stream s i pageId OPEN Ht Hi)
    as (_&r&d&Hr&Hm&Hd&Ho); [done|].
  specialize (Hu r d Hr Hd).
  unfold s'. cbn [step]. rewrite (sourceMessage_page _ _ _ _ _ Hi).
  unfold onInit, applyUpdate. rewrite Hr, Hd.
  destruct (Y_applyUpdate (doc_content d) u) as [[c e]|]; [|done].
  set (s0 := set_docs (<[r:=set_content c d]> (docs s)) s).
  set (s1 := match e with
             | Some u0 => emitUpdate (doc_observers d) u0 OriginNone s0
             | None => s0
             end).
  assert (E2 : editor s1 = Some ed /\ ydoc s1 = Some r /\ yMetadata s1 = Some r /\
               docs s1 !! r = Some (set_content c d)).
  { assert (Hl : docs s0 !! r = Some (set_content c d)).
    { unfold s0. cbn. apply list_lookup_insert_eq. by eapply lookup_lt_Some. }
    unfold s1. destruct e; [|done]. by rewrite emitUpdate_sent. }
  destruct E2 as (E2&E3&E4&E5). clearbody s1.
  split.
  - unfold rendered.
    by destruct (setupEditorBinding_sends s1 r _ ed E2 E3 E4 E5) as [_ ->].
  - by apply (setupEditorBinding_content s1 r (set_content c d)).
Qed.

(** ** A failed page stream and the tab becoming visible *)

Lemma clock_collection_ops s :
  clock (stopCollectionSync s) = clock s /\
  forall collectionId, clock (startCollectionSync collectionId s) = clock s.
Proof.
  assert (E : clock (stopCollectionSync s) = clock s).
  { unfold stopCollectionSync, close. by destruct (currentCollectionSync s). }
  split; [done|]. intros collectionId. rewrite <- E.
  unfold startCollectionSync, newEventSource. by cbn.
Qed.

(** Restarting the collection sync does not touch the page stream. *)
Lemma lookup_startCollectionSync collectionId s ps :
  wired s -> currentPageSync s = Some ps ->
  sources (startCollectionSync collectionId s) !! ps_eventSource ps =
    sources s !! ps_eventSource ps.
Proof.
  intros [Hp Hc] Hps. destruct (Hp ps Hps) as [_ Hi].
  pose proof Hi as [rs Hi']%stream_lookup.
  rewrite sources_startCollectionSync, sources_stopCollectionSync.
  destruct (currentCollectionSync s) as [cs|] eqn:Ecs.
  - destruct (Hc cs eq_refl) as [_ Hj].
    assert (Hne : cs_eventSource cs <> ps_eventSource ps).
    { intros E. rewrite E in Hj. congruence. }
    rewrite lookup_app_l by (rewrite length_alter; by eapply lookup_lt_Some).
    by rewrite list_lookup_alter_ne.
  - by rewrite lookup_app_l by (by eapply lookup_lt_Some).
Qed.

(** What the visibility handler does to a page sync whose stream is not
    open. *)
Lemma visible_restarts_page s ps :
  tracked s -> wired s ->
  currentPageSync s = Some ps -> isOpen (ps_eventSource ps) s = false ->
  let s' := handleVisibilityChange false s in
  tracked s' /\
  currentPageSync s' =
    Some {| ps_eventSource := length (sources s); ps_pageId := ps_pageId ps |} /\
  currentPageId s' = Some (ps_pageId ps) /\
  sources s' !! length (sources s) =
    Some {| es_stream := PageStream (ps_pageId ps) false; readyState := CONNECTING |} /\
  activePage s' =
    [{| es_stream := PageStream (ps_pageId ps) false; readyState := CONNECTING |}] /\
  timers s' = timers s /\ clock s' = clock s /\
  length (docs s') = S (length (docs s)).
Proof.
  intros Ht Hw Hps Ho s'.
  assert (Ht' : tracked s') by by apply tracked_handleVisibilityChange.
  split; [done|]. clear Ht'.
  unfold s', handleVisibilityChange. rewrite Hps, Ho.
  assert (HtA : tracked (startPageSync (ps_pageId ps) false s))
    by by apply tracked_startPageSync.
  assert (HwA : wired (startPageSync (ps_pageId ps) false s))
    by by apply wired_startPageSync.
  pose proof (wiring_startPageSync (ps_pageId ps) s) as E.
  apply wiring_inv in E as (E1&_&_&E4&_).
  destruct (startPageSync_frame (ps_pageId ps) s) as (_&K2&_&K4&_).
  destruct (stopPageSync_frame s) as (_&_&_&_&_&G6&G7).
  assert (Hsrc : sources (startPageSync (ps_pageId ps) false s) !! length (sources s) =
            Some {| es_stream := PageStream (ps_pageId ps) false;
                    readyState := CONNECTING |}).
  { rewrite sources_startPageSync.
    rewrite lookup_app_r by (rewrite G6; lia). by rewrite G6, Nat.sub_diag. }
  assert (Hdocs : length (docs (startPageSync (ps_pageId ps) false s)) =
                  S (length (docs s))).
  { pose proof (startPageSync_fields (ps_pageId ps) s) as F. cbv zeta in F.
    destruct F as (_&_&_&_&_&_&F7&_).
    rewrite F7, length_app, G7. cbn. lia. }
  assert (Hact : activePage (startPageSync (ps_pageId ps) false s) =
            [{| es_stream := PageStream (ps_pageId ps) false;
                readyState := CONNECTING |}]) by by apply activePage_startPageSync.
  generalize dependent (startPageSync (ps_pageId ps) false s). intros sA.
  intros HtA HwA E1 E4 K2 K4 Hsrc Hdocs Hact.
  destruct (currentCollectionSync sA) as [cs|]; [|done].
  destruct (isOpen (cs_eventSource cs) sA); [done|].
  destruct (view_collection_ops sA) as [_ V].
  specialize (V (cs_collectionId cs)). apply pageView_inv in V as (V1&V2&_&_&_&V6).
  destruct (startCollectionSync_frame (cs_collectionId cs) sA) as (_&C2&_).
  destruct (clock_collection_ops sA) as [_ C4].
  rewrite V1, V2, V6, C2, C4, activePage_startCollectionSync by done.
  repeat split; try done.
  rewrite <- Hsrc.
  apply (lookup_startCollectionSync _ sA
           {| ps_eventSource := length (sources s); ps_pageId := ps_pageId ps |});
    done.
Qed.

(** X15: a transport error on the page stream followed by the tab
    becoming visible reconnects twice.  The visibility handler restarts
    the sync at once; the reconnect timer set by the error is still
    pending, and when it fires 3000 ms after the error it restarts the
    sync again: the stream opened in between is closed, and the document
    created in between is replaced by another empty one. *)
Theorem error_then_visible_reconnects_twice appState entries coverEl tr i pageId rs :
  let s := run (boot appState entries coverEl) tr in
  sources s !! i =
    Some {| es_stream := PageStream pageId false; readyState := rs |} ->
  rs <> CLOSED ->
  let s2 := run s [SourceError i; VisibilityChange false] in
  let s3 := run s2 [Elapse 3000; TimerFire (nextTimer s)] in
  let fresh := {| es_stream := PageStream pageId false; readyState := CONNECTING |} in
  (sources s2 !! length (sources s) = Some fresh /\
   activePage s2 = [fresh] /\
   length (docs s2) = S (length (docs s))) /\
  (sources s3 !! length (sources s) = Some (closedES fresh) /\
   activePage s3 = [fresh] /\
   length (docs s3) = S (S (length (docs s)))).
Proof.
  intros s Hi Hrs s2 s3 fresh.
  assert (Ht : tracked s) by apply tracked_run, tracked_boot.
  assert (Hw : wired s) by apply wired_run, wired_boot.
  destruct (reachable_page_stream s i pageId rs Ht Hi Hrs) as (Hps&_).
  set (s1 := step s (SourceError i)).
  set (t := {| due := clock s + 3000; action := Reconnect pageId false |}).
  assert (E1 : s1 = snd (setTimeout (Reconnect pageId false) 3000 (close i s))).
  { unfold s1. cbn. unfold sourceError. rewrite Hi. by destruct rs. }
  assert (Ht1 : tracked s1) by by apply tracked_step.
  assert (Hw1 : wired s1) by by apply wired_step.
  assert (F1 : currentPageSync s1 = Some {| ps_eventSource := i; ps_pageId := pageId |} /\
               isOpen i s1 = false /\ length (sources s1) = length (sources s) /\
               timers s1 = <[nextTimer s := t]> (timers s) /\ clock s1 = clock s /\
               length (docs s1) = length (docs s)).
  { rewrite E1. unfold setTimeout, close, isOpen. cbn.
    rewrite list_lookup_alter_eq, Hi, length_alter. done. }
  destruct F1 as (F1&F2&F3&F4&F5&F6).
  destruct (visible_restarts_page s1 _ Ht1 Hw1 F1 F2)
    as (Ht2&G1&G2&G3&G4&G5&G6&G7).
  cbn [ps_pageId] in G1, G2, G3, G4.
  change (handleVisibilityChange false s1) with s2 in Ht2, G1, G2, G3, G4, G5, G6, G7.
  rewrite F3 in G1, G3. rewrite F4 in G5. rewrite F5 in G6. rewrite F6 in G7.
  split; [done|]. clearbody s2. clear s1 E1 Ht1 Hw1 F1 F2 F3 F4 F5 F6.
  set (sE := step s2 (Elapse 3000)).
  assert (E3 : s3 = startPageSync pageId false (clearTimeout (nextTimer s) sE)).
  { unfold s3. change (run s2 [Elapse 3000; TimerFire (nextTimer s)])
      with (timerFire (nextTimer s) sE).
    rewrite (timerFire_reconnect (nextTimer s) t pageId false).
    - rewrite decide_True by (unfold sE; cbn; lia).
      by rewrite decide_True by (by unfold sE).
    - unfold sE. cbn. rewrite G5. apply lookup_insert_eq.
    - done. }
  set (sC := clearTimeout (nextTimer s) sE) in E3.
  assert (HtC : tracked sC).
  { revert Ht2. by apply tracked_control. }
  assert (HC : currentPageSync sC =
                 Some {| ps_eventSource := length (sources s); ps_pageId := pageId |} /\
               sources sC = sources s2 /\ docs sC = docs s2) by done.
  destruct HC as (HC1&HC2&HC3). clearbody sC s3. subst s3.
  pose proof (startPageSync_fields pageId sC) as F. cbv zeta in F.
  destruct F as (_&_&_&_&_&_&F7&_).
  destruct (stopPageSync_frame sC) as (_&_&_&_&_&_&K7).
  split; [|split].
  - rewrite sources_startPageSync, sources_stopPageSync, HC1. cbn [ps_eventSource].
    rewrite lookup_app_l by (rewrite length_alter, HC2; by eapply lookup_lt_Some).
    by rewrite list_lookup_alter_eq, HC2, G3.
  - by apply activePage_startPageSync.
  - rewrite F7, length_app, K7, HC3, G7. cbn. lia.
Qed.

(** ** Strings without white space at their ends *)



















(** ** The sidebar entry of a page *)

Lemma updateFirst_query pageId f l :
  (forall e, entry_pageId (f e) = entry_pageId e) ->
  querySelector pageId (updateFirst pageId f l) = f <$> querySelector pageId l.
Proof.
  intros Hf. unfold querySelector.
  induction l as [|e l IH]; [done|]. cbn [updateFirst List.find].
  case_decide as He.
  - cbn [List.find]. rewrite Hf. by rewrite !bool_decide_eq_true_2.
  - cbn [List.find]. by rewrite !bool_decide_eq_false_2.
Qed.

Lemma updateFirst_same pageId f l :
  match querySelector pageId l with
  | Some e => f e = e
  | None => True
  end ->
  updateFirst pageId f l = l.
Proof.
  unfold querySelector. induction l as [|e l IH]; [done|].
  cbn [updateFirst List.find]. case_decide as He.
  - rewrite bool_decide_eq_true_2 by done. by intros ->.
  - rewrite bool_decide_eq_false_2 by done. intros Hq. by rewrite IH.
Qed.



Lemma set_sidebar_id (s : State) : set_sidebar (sidebar s) s = s.
Proof. by destruct s. Qed.

(** X16: [updatePageInSidebar] changes nothing when no element carries
    the page id, when the field is neither ['title'] nor ['icon'], or
    when the element found has no title span. *)
Theorem sidebar_update_skipped pageId field value s :
  querySelector pageId (sidebar s) = None \/
  (field <> "title" /\ field <> "icon") \/
  (exists e, querySelector pageId (sidebar s) = Some e /\ entry_title e = None) ->
  updatePageInSidebar pageId field value s = s.
Proof.
  intros Hcase. unfold updatePageInSidebar.
  rewrite updateFirst_same; [apply set_sidebar_id|].
  destruct Hcase as [->|[[H1 H2]|(e&->&He)]]; [done| |].
  - destruct (querySelector pageId (sidebar s)); [|done].
    unfold updateEntry. by rewrite !decide_False.
  - unfold updateEntry. rewrite He. by repeat case_decide.
Qed.


(** X18: after an ['icon'] change to a value without markup, on a title
    span whose text the parser gives back as it is, the element found
    for the page shows the new icon, and as text the trimmed
    [textContent] of the old title span, which includes the text of an
    icon that is a [span]: the text is kept, up to the white space at
    its ends, only when the old icon was absent or an [<i>]. *)
Theorem icon_change_text pageId value s e t :
  plainValue value = true ->
  querySelector pageId (sidebar s) = Some e ->
  entry_title e = Some t ->
  plainText (textContent t) = true ->
  let s1 := updatePageInSidebar pageId "icon" value s in
  querySelector pageId (sidebar s1) =
    Some (withTitle (iconOf value) (trim (iconText (span_icon t) +:+ span_text t)) e) /\
  ((forall body, span_icon t <> Some (IconSpan body)) ->
     querySelector pageId (sidebar s1) =
       Some (withTitle (iconOf value) (trim (span_text t)) e)).
Proof.
  intros _ Hq Ht _ s1.
  assert (E : querySelector pageId (sidebar s1) =
              Some (withTitle (iconOf value)
                      (trim (iconText (span_icon t) +:+ span_text t)) e)).
  { unfold s1, updatePageInSidebar. cbn [sidebar set_sidebar].
    rewrite updateFirst_query by apply updateEntry_pageId. rewrite Hq. cbn.
    unfold updateEntry, withTitle, textContent.
    rewrite decide_False by done. rewrite decide_True by done. by rewrite Ht. }
  split; [done|].
  intros Hno. rewrite E. do 2 f_equal.
  destruct (span_icon t) as [[cls|body]|]; try done. by destruct (Hno body).
Qed.



End Properties.

(** * Instances on the example engine *)

Lemma remote_update_always_merged_witness :
  sources (withFocus true (run (boot exampleApp [] None) exampleLive)) !! 0 =
    Some {| es_stream := PageStream "p1" false; readyState := OPEN |} /\
  exists r d,
    ydoc (withFocus true (run (boot exampleApp [] None) exampleLive)) = Some r /\
    docs (withFocus true (run (boot exampleApp [] None) exampleLive)) !! r = Some d /\
    ydoc (step (withFocus true (run (boot exampleApp [] None) exampleLive))
            (SourceMessage 0 (MYjsUpdate (Some updateB)))) = Some r /\
    docs (step (withFocus true (run (boot exampleApp [] None) exampleLive))
            (SourceMessage 0 (MYjsUpdate (Some updateB)))) !! r =
      Some (merged d updateB).
Proof.
  split; [by vm_compute|].
  apply (remote_update_always_merged exampleApp [] None exampleLive true 0 "p1" false).
  by vm_compute.
Defined.

(** The second update arrives with the editor focused: its content is
    what the editor shows, so the slot keeps the content of the first
    one, and the blur shows that although the merged state reads
    [<p>A</p>].  In the second run the user types after the first
    update and the edit is written and sent; the blur then replaces
    what was typed by the content of the slot, which is not what the
    merged state reads. *)
Lemma deferred_until_blur_counterexample :
  hasFocus <$> editor (run (boot exampleApp [] None)
                         (exampleFocused ++
                          [SourceMessage 0 (MYjsUpdate (Some updateB))])) = Some true /\
  isOpen 0 (run (boot exampleApp [] None)
              (exampleFocused ++ [SourceMessage 0 (MYjsUpdate (Some updateB))])) = true /\
  mergedContent (run (boot exampleApp [] None)
                   (exampleFocused ++
                    [SourceMessage 0 (MYjsUpdate (Some updateB))])) = Some "<p>B</p>" /\
  pendingSlot
    (run (boot exampleApp [] None)
       (exampleFocused ++
        [SourceMessage 0 (MYjsUpdate (Some updateB));
         SourceMessage 0 (MYjsUpdate (Some updateA))])) = Some "<p>B</p>" /\
  rendered
    (run (boot exampleApp [] None)
       (exampleFocused ++
        [SourceMessage 0 (MYjsUpdate (Some updateB));
         SourceMessage 0 (MYjsUpdate (Some updateA)); EditorBlur])) = Some "<p>B</p>" /\
  mergedContent
    (run (boot exampleApp [] None)
       (exampleFocused ++
        [SourceMessage 0 (MYjsUpdate (Some updateB));
         SourceMessage 0 (MYjsUpdate (Some updateA)); EditorBlur])) = Some "<p>A</p>" /\
  ~ deferred_until_blur
      (run (boot exampleApp [] None)
         (exampleFocused ++ [SourceMessage 0 (MYjsUpdate (Some updateB))]))
      0 updateA /\
  rendered
    (run (boot exampleApp [] None)
       (exampleFocused ++
        [SourceMessage 0 (MYjsUpdate (Some updateB)); EditorInput "<p>AX</p>";
         Elapse 200; TimerFire 1; EditorBlur])) = Some "<p>B</p>" /\
  mergedContent
    (run (boot exampleApp [] None)
       (exampleFocused ++
        [SourceMessage 0 (MYjsUpdate (Some updateB)); EditorInput "<p>AX</p>";
         Elapse 200; TimerFire 1; EditorBlur])) = Some "<p>AX</p>".
Proof.
  split; [by vm_compute|]. split; [by vm_compute|]. split; [by vm_compute|].
  split; [by vm_compute|]. split; [by vm_compute|]. split; [by vm_compute|].
  split; [|split; by vm_compute].
  intros (_&Hslot&_). vm_compute in Hslot. discriminate Hslot.
Qed.

Lemma focused_update_deferred_until_blur_witness :
  hasFocus <$> editor (run (boot exampleApp [] None) exampleFocused) = Some true /\
  truthy "<p>B</p>" = true /\
  deferred_until_blur (run (boot exampleApp [] None) exampleFocused) 0 updateB.
Proof.
  split; [vm_compute; reflexivity|]. split; [vm_compute; reflexivity|].
  apply (focused_update_deferred_until_blur
           (run (boot exampleApp [] None) exampleFocused) 0 "p1" false updateB
           {| getHTML := "<p>A</p>"; hasFocus := true;
              bindings := [{| remoteUpdatePending := None; updateTimeout := None;
                              isUpdating := false |}];
              _setPendingRemoteUpdate := Some 0; _syncIsUpdating := Some false |}
           []
           {| remoteUpdatePending := None; updateTimeout := None; isUpdating := false |}
           "<p>B</p>").
  - vm_compute; reflexivity.
  - vm_compute; reflexivity.
  - vm_compute; reflexivity.
  - vm_compute; reflexivity.
  - vm_compute; reflexivity.
  - vm_compute; reflexivity.
  - vm_compute; reflexivity.
  - vm_compute. discriminate.
Defined.

Lemma reconnect_after_error_witness :
  OPEN <> CLOSED /\
  readyState <$>
    sources (step (run (boot exampleApp [] None) exampleLive) (SourceError 0)) !! 0 =
  Some CLOSED.
Proof.
  split; [discriminate|].
  apply (reconnect_after_error (run (boot exampleApp [] None) exampleLive) 0 "p1" OPEN);
    [by vm_compute|discriminate].
Defined.

Lemma metadata_change_frame_witness :
  sources (run (boot exampleApp exampleSidebar None) exampleCollection) !! 0 =
    Some {| es_stream := CollectionStream "c1"; readyState := OPEN |} /\
  editor (step (run (boot exampleApp exampleSidebar None) exampleCollection)
            (SourceMessage 0
               (MMetadataChange
                  (Some {| md_pageId := "p1"; md_field := "title";
                           md_value := "New Title" |})))) =
  editor (run (boot exampleApp exampleSidebar None) exampleCollection).
Proof.
  split; [by vm_compute|].
  apply (metadata_change_frame
           (run (boot exampleApp exampleSidebar None) exampleCollection) 0 "c1").
  by vm_compute.
Defined.

Lemma stale_content_rendered_on_blur_witness :
  sources (run (boot exampleApp [] None) exampleStale) !! 0 =
    Some {| es_stream := PageStream "p1" false; readyState := OPEN |} /\
  editor (run (boot exampleApp [] None) exampleStale) = Some examplePending /\
  hasFocus examplePending = true /\
  mergedContent <$>
    applyUpdate (ydoc (run (boot exampleApp [] None) exampleStale)) updateA OriginRemote
      (run (boot exampleApp [] None) exampleStale) = Some (Some "<p>A</p>") /\
  rendered (step (step (run (boot exampleApp [] None) exampleStale)
                    (SourceMessage 0 (MYjsUpdate (Some updateA)))) EditorBlur) =
    Some "<p>B</p>" /\
  mergedContent (step (step (run (boot exampleApp [] None) exampleStale)
                         (SourceMessage 0 (MYjsUpdate (Some updateA)))) EditorBlur) =
    Some "<p>A</p>".
Proof.
  split; [by vm_compute|]. split; [by vm_compute|]. split; [done|].
  split; [by vm_compute|].
  destruct (stale_content_rendered_on_blur
              (run (boot exampleApp [] None) exampleStale) 0 "p1" false updateA
              examplePending []
              {| remoteUpdatePending := Some "<p>B</p>"; updateTimeout := None;
                 isUpdating := false |}
              "<p>B</p>" "<p>A</p>") as (_&(Hr&Hm&_)&_);
    [by vm_compute|by vm_compute|done|done|done|done|done|by vm_compute|by left|done|].
  by split.
Defined.

Lemma pending_slot_after_focused_update_witness :
  sources (run (boot exampleApp [] None) exampleStale) !! 0 =
    Some {| es_stream := PageStream "p1" false; readyState := OPEN |} /\
  editor (run (boot exampleApp [] None) exampleStale) = Some examplePending /\
  hasFocus examplePending = true /\
  mergedContent <$>
    applyUpdate (ydoc (run (boot exampleApp [] None) exampleStale)) updateA OriginRemote
      (run (boot exampleApp [] None) exampleStale) = Some (Some "<p>A</p>") /\
  pendingSlot (step (run (boot exampleApp [] None) exampleStale)
                 (SourceMessage 0 (MYjsUpdate (Some updateA)))) = Some "<p>B</p>" /\
  mergedContent (step (run (boot exampleApp [] None) exampleStale)
                   (SourceMessage 0 (MYjsUpdate (Some updateA)))) = Some "<p>A</p>".
Proof.
  split; [by vm_compute|]. split; [by vm_compute|]. split; [done|].
  split; [by vm_compute|].
  destruct (pending_slot_after_focused_update
              (run (boot exampleApp [] None) exampleStale) 0 "p1" false updateA
              examplePending 0 "<p>A</p>") as (Hs&_&_&Hm&_);
    [by vm_compute|by vm_compute|done|done|cbn; lia|by vm_compute|].
  split; [|exact Hm]. rewrite Hs. by vm_compute.
Defined.

(** The slot need not hold the content of the most recent update, and
    there is one slot for each run of [setupEditorBinding].  After
    [exampleStale] the update back to [<p>A</p>] is merged and the slot
    still holds [<p>B</p>].  After [exampleSwitched] the slot of the
    first binding still holds [<p>B</p>] beside the empty slot of the
    second; the blur shows [<p>B</p>], and the debounce timer of the
    second binding then sends it to page [p2]. *)
Lemma stale_slot_counterexample :
  pendingSlot (run (boot exampleApp [] None)
                 (exampleStale ++ [SourceMessage 0 (MYjsUpdate (Some updateA))])) =
    Some "<p>B</p>" /\
  mergedContent (run (boot exampleApp [] None)
                   (exampleStale ++ [SourceMessage 0 (MYjsUpdate (Some updateA))])) =
    Some "<p>A</p>" /\
  slots (run (boot exampleApp [] None) exampleSwitched) = [Some "<p>B</p>"; None] /\
  pendingSlot (run (boot exampleApp [] None) exampleSwitched) = None /\
  rendered (run (boot exampleApp [] None) (exampleSwitched ++ [EditorBlur])) =
    Some "<p>B</p>" /\
  sent (run (boot exampleApp [] None)
          (exampleSwitched ++ [EditorBlur; Elapse 200; TimerFire 1])) =
    sent (run (boot exampleApp [] None) exampleSwitched) ++
    [("p2", [("content", "<p>B</p>")])].
Proof. repeat split; vm_compute; reflexivity. Qed.

(** An encrypted start does not keep the page from being synced.  With
    page [p2] on display, [startPageSync] with [isEncrypted] opens
    nothing, and the ['online'] event that follows opens a stream and
    creates a document for [p2].  With a sync of page [p1] running, the
    encrypted start of [p1] leaves its stream open, a remote update that
    follows is merged and shown, and after an error the tab becoming
    visible opens a second stream with a second document; so does the
    reconnect timer of the error when the page is the one on display. *)
Lemma encrypted_page_synced_counterexample :
  sources (run (boot exampleOpened [] None) [CallStartPageSync "p2" true]) = [] /\
  sources (run (boot exampleOpened [] None) [CallStartPageSync "p2" true; WindowOnline]) =
    [{| es_stream := PageStream "p2" false; readyState := CONNECTING |}] /\
  docs (run (boot exampleOpened [] None) [CallStartPageSync "p2" true; WindowOnline]) =
    [freshDoc "p2"] /\
  sources (run (boot exampleApp [] None) (exampleLive ++ [CallStartPageSync "p1" true])) =
    [{| es_stream := PageStream "p1" false; readyState := OPEN |}] /\
  mergedContent
    (run (boot exampleApp [] None)
       (exampleLive ++
        [CallStartPageSync "p1" true; SourceMessage 0 (MYjsUpdate (Some updateB))])) =
    Some "<p>B</p>" /\
  sources (run (boot exampleApp [] None)
             (exampleLive ++
              [CallStartPageSync "p1" true; SourceError 0; VisibilityChange false])) =
    [{| es_stream := PageStream "p1" false; readyState := CLOSED |};
     {| es_stream := PageStream "p1" false; readyState := CONNECTING |}] /\
  sources (run (boot exampleOpened [] None)
             [CallStartPageSync "p2" false; SourceOpen 0; CallStartPageSync "p2" true;
              SourceError 0; Elapse 3000; TimerFire 1]) =
    [{| es_stream := PageStream "p2" false; readyState := CLOSED |};
     {| es_stream := PageStream "p2" false; readyState := CONNECTING |}] /\
  length (docs (run (boot exampleApp [] None)
                  (exampleLive ++
                   [CallStartPageSync "p1" true; SourceError 0;
                    VisibilityChange false]))) = 2.
Proof. repeat split; vm_compute; reflexivity. Qed.

Lemma encrypted_page_never_synced_witness :
  untargeted "p2" (boot exampleApp [] None) /\
  pageSources "p2"
    (run (startPageSync "p2" true (boot exampleApp [] None)) exampleSignals) =
  pageSources "p2" (boot exampleApp [] None).
Proof.
  assert (Hu : untargeted "p2" (boot exampleApp [] None)).
  { split; [discriminate|]. split; [discriminate|].
    split; [apply map_Forall_empty|apply Forall_nil_2]. }
  split; [exact Hu|].
  apply (encrypted_page_never_synced "p2" (boot exampleApp [] None) exampleSignals Hu).
  unfold exampleSignals.
  repeat (apply Forall_cons; split; [discriminate|]). apply Forall_nil_2.
Defined.

(** C9: after page [p1] is opened, its stream has connected and the
    ['init'] event has delivered a snapshot, the first update posted to
    the server is that snapshot itself; the second is the editor's
    content written by [setupEditorBinding]. *)
Theorem init_snapshot_sent_back :
  sent (run (boot exampleApp [] None) exampleLive) =
    [("p1", [("content", "<p>S</p>")]); ("p1", [("content", "<p>A</p>")])].
Proof. vm_compute. reflexivity. Qed.

(** * Runs of the example *)

(** Two edits 10 ms apart, then the timer of the second one: one update
    is sent, with the content of the second edit. *)
Example burst_sends_one_update :
  sent (run (run (boot exampleApp [] None) exampleLive)
          [EditorInput "<p>x</p>"; Elapse 10; EditorInput "<p>xy</p>";
           TimerFire 1; Elapse 200; TimerFire 1; TimerFire 2]) =
  sent (run (boot exampleApp [] None) exampleLive) ++
  [("p1", [("content", "<p>xy</p>")])].
Proof. vm_compute. reflexivity. Qed.

(** A remote update received without focus is rendered at once and is
    not sent back. *)
Example unfocused_update_rendered :
  rendered (run (boot exampleApp [] None)
              (exampleLive ++ [SourceMessage 0 (MYjsUpdate (Some updateB))])) =
    Some "<p>B</p>" /\
  sent (run (boot exampleApp [] None)
          (exampleLive ++ [SourceMessage 0 (MYjsUpdate (Some updateB))])) =
  sent (run (boot exampleApp [] None) exampleLive).
Proof. split; vm_compute; reflexivity. Qed.

(** The reconnect timer set by an error opens a second stream for the
    page; after [stopPageSync] it opens none. *)
Example reconnect_runs :
  readyState <$>
    sources (run (boot exampleApp [] None)
               (exampleLive ++ [SourceError 0; Elapse 3000; TimerFire 1])) =
    [CLOSED; CONNECTING] /\
  readyState <$>
    sources (run (boot exampleApp [] None)
               (exampleLive ++
                [SourceError 0; CallStopPageSync; Elapse 3000; TimerFire 1])) =
    [CLOSED].
Proof. split; vm_compute; reflexivity. Qed.

(** A title change for page [p1] rewrites the first sidebar entry and
    leaves the second. *)
Example title_change_updates_one_entry :
  sidebar (run (boot exampleApp exampleSidebar None)
             (exampleCollection ++
              [SourceMessage 0
                 (MMetadataChange
                    (Some {| md_pageId := "p1"; md_field := "title";
                             md_value := "New Title" |}))])) =
  [{| entry_pageId := "p1";
      entry_title := Some {| span_icon := None; span_text := "New Title" |} |};
   {| entry_pageId := "p2";
      entry_title := Some {| span_icon := Some (IconSpan "*"); span_text := "Two" |} |}].
Proof. vm_compute. reflexivity. Qed.

(** ** Instances of the further properties *)

Lemma getCsrfToken_reads_jar_witness :
  wellFormedJar exampleJar = true /\
  getCsrfToken "theme=dark; nteok_csrf=ab12==; nteok_session=s1" = Some "ab12".
Proof.
  split; [by vm_compute|].
  refine (proj1 (getCsrfToken_reads_jar exampleJar _)). by vm_compute.
Defined.

Lemma client_token_verifies_witness :
  wellFormedJar exampleSession = true /\
  cookieValue "nteok_csrf" exampleSession = Some "9f3c0a7d" /\
  isToken "9f3c0a7d" = true /\
  verifyCsrfToken (getCsrfToken "nteok_session=5b1e; nteok_csrf=9f3c0a7d; theme=dark")
    (Some "9f3c0a7d") = Returns true.
Proof.
  split; [by vm_compute|]. split; [by vm_compute|]. split; [by vm_compute|].
  refine (proj2 (client_token_verifies exampleSession "9f3c0a7d" _ _ _)); by vm_compute.
Defined.

Lemma online_only_notifies_witness :
  app_currentPageId exampleApp = None /\
  app_currentCollectionId exampleApp = None /\
  sources (step (run (boot exampleApp [] None) (exampleConnected ++ [SourceError 0]))
             WindowOnline) =
  [{| es_stream := PageStream "p1" false; readyState := CLOSED |}].
Proof.
  split; [done|]. split; [done|].
  rewrite (online_only_notifies exampleApp [] None (exampleConnected ++ [SourceError 0]))
    by done.
  by vm_compute.
Defined.

Lemma collection_error_not_retried_witness :
  sources (run (boot exampleApp exampleSidebar None) exampleCollection) !! 0 =
    Some {| es_stream := CollectionStream "c1"; readyState := OPEN |} /\
  OPEN <> CLOSED /\
  forallb (fun e => negb (startsCollection e)) exampleAfterFailure = true /\
  activeCollection
    (run (step (run (boot exampleApp exampleSidebar None) exampleCollection)
            (SourceError 0)) exampleAfterFailure) = [].
Proof.
  split; [by vm_compute|]. split; [discriminate|]. split; [by vm_compute|].
  apply (collection_error_not_retried exampleApp exampleSidebar None exampleCollection
           0 "c1" OPEN exampleAfterFailure);
    [by vm_compute|discriminate|by vm_compute].
Defined.

Lemma nothing_sent_after_stop_witness :
  forallb (fun e => negb (startsPage e)) exampleAfterStop = true /\
  sent (run (stopPageSync (run (boot exampleApp [] None) exampleTyped)) exampleAfterStop) =
  sent (stopPageSync (run (boot exampleApp [] None) exampleTyped)).
Proof.
  split; [by vm_compute|].
  apply (nothing_sent_after_stop exampleApp [] None exampleTyped exampleAfterStop).
  by vm_compute.
Defined.


Lemma init_sends_witness :
  sources (run (boot exampleApp [] None) exampleConnected) !! 0 =
    Some {| es_stream := PageStream "p1" false; readyState := OPEN |} /\
  exists r d,
    ydoc (run (boot exampleApp [] None) exampleConnected) = Some r /\
    docs (run (boot exampleApp [] None) exampleConnected) !! r = Some d /\
    sent (step (run (boot exampleApp [] None) exampleConnected)
            (SourceMessage 0 (MInit (Some updateB)))) =
      sent (run (boot exampleApp [] None) exampleConnected) ++
      match Y_applyUpdate (doc_content d) updateB with
      | None => []
      | Some (c, e) =>
        match e with
        | Some x => [("p1", x)]
        | None => []
        end ++
        match editor (run (boot exampleApp [] None) exampleConnected) with
        | Some ed => [("p1", (Y_mapSet c "content" (getHTML ed)).2)]
        | None => []
        end
      end.
Proof.
  split; [by vm_compute|].
  apply (init_sends exampleApp [] None exampleConnected 0 "p1" updateB).
  by vm_compute.
Defined.

Lemma debounce_timers_send_once_witness :
  readsBack /\
  onlyDebounce (timers (run (boot exampleApp [] None) exampleTyped)) = true /\
  exists l,
    sent (run (run (boot exampleApp [] None) exampleTyped) (TimerFire <$> [1; 1; 2])) =
      sent (run (boot exampleApp [] None) exampleTyped) ++ l /\
    length l <= 1.
Proof.
  assert (Hlaw : readsBack).
  { intros c k v. apply lookup_insert_eq. }
  split; [exact Hlaw|]. split; [by vm_compute|].
  destruct (debounce_timers_send_once exampleApp [] None exampleTyped [1; 1; 2] Hlaw)
    as (l&E&Hl&_); [by vm_compute|].
  exists l. by split.
Defined.

Lemma sidebar_update_skipped_witness :
  (querySelector "p9" (sidebar (boot exampleApp exampleSidebar None)) = None \/
   ("title" <> "title" /\ "title" <> "icon") \/
   (exists e, querySelector "p9" (sidebar (boot exampleApp exampleSidebar None)) = Some e /\
              entry_title e = None)) /\
  updatePageInSidebar "p9" "title" "Nine" (boot exampleApp exampleSidebar None) =
    boot exampleApp exampleSidebar None.
Proof.
  assert (Hq : querySelector "p9" (sidebar (boot exampleApp exampleSidebar None)) = None)
    by by vm_compute.
  split; [by left|].
  apply (sidebar_update_skipped "p9" "title" "Nine" (boot exampleApp exampleSidebar None)).
  by left.
Defined.

Lemma icon_change_text_witness :
  plainValue "fa-file" = true /\
  plainText "*Two" = true /\
  querySelector "p2" (sidebar (boot exampleApp exampleSidebar None)) =
    Some {| entry_pageId := "p2";
            entry_title := Some {| span_icon := Some (IconSpan "*");
                                   span_text := "Two" |} |} /\
  querySelector "p2"
    (sidebar (updatePageInSidebar "p2" "icon" "fa-file"
                (boot exampleApp exampleSidebar None))) =
    Some {| entry_pageId := "p2";
            entry_title := Some {| span_icon := Some (IconI "fa-file");
                                   span_text := "*Two" |} |}.
Proof.
  split; [by vm_compute|]. split; [by vm_compute|]. split; [by vm_compute|].
  refine (proj1 (icon_change_text "p2" "fa-file" (boot exampleApp exampleSidebar None)
                   {| entry_pageId := "p2";
                      entry_title := Some {| span_icon := Some (IconSpan "*");
                                             span_text := "Two" |} |}
                   {| span_icon := Some (IconSpan "*"); span_text := "Two" |} _ _ _ _));
    by vm_compute.
Defined.


Lemma error_then_visible_reconnects_twice_witness :
  sources (run (boot exampleApp [] None) exampleConnected) !! 0 =
    Some {| es_stream := PageStream "p1" false; readyState := OPEN |} /\
  OPEN <> CLOSED /\
  length (docs (run (run (run (boot exampleApp [] None) exampleConnected)
                       [SourceError 0; VisibilityChange false])
                  [Elapse 3000; TimerFire 1])) = 3.
Proof.
  split; [by vm_compute|]. split; [discriminate|].
  apply (error_then_visible_reconnects_twice exampleApp [] None exampleConnected
           0 "p1" OPEN); [by vm_compute|discriminate].
Defined.

Lemma debounce_stores_editor_content_witness :
  readsBack /\
  timers (run (boot exampleApp [] None) exampleTyped) !! 1 =
    Some {| due := 200; action := Debounce 0 |} /\
  200 <= clock (run (boot exampleApp [] None) exampleTyped) /\
  editor (run (boot exampleApp [] None) exampleTyped) = Some exampleEdited /\
  is_Some (currentPageSync (run (boot exampleApp [] None) exampleTyped)) /\
  mergedContent (step (run (boot exampleApp [] None) exampleTyped) (TimerFire 1)) =
    Some "<p>AB</p>".
Proof.
  assert (Hlaw : readsBack).
  { intros c k v. apply lookup_insert_eq. }
  assert (Hclock : 200 <= clock (run (boot exampleApp [] None) exampleTyped))
    by (vm_compute; lia).
  assert (Hps : is_Some (currentPageSync (run (boot exampleApp [] None) exampleTyped)))
    by (eexists; vm_compute; reflexivity).
  split; [exact Hlaw|]. split; [by vm_compute|]. split; [exact Hclock|].
  split; [by vm_compute|]. split; [exact Hps|].
  refine (proj1 (debounce_stores_editor_content exampleApp [] None exampleTyped 1
                   {| due := 200; action := Debounce 0 |} 0 exampleEdited
                   Hlaw _ _ Hclock _ Hps)); by vm_compute.
Defined.

Lemma init_keeps_editor_content_witness :
  readsBack /\
  sources (run (boot exampleApp [] None) exampleConnected) !! 0 =
    Some {| es_stream := PageStream "p1" false; readyState := OPEN |} /\
  editor (run (boot exampleApp [] None) exampleConnected) = Some exampleInitial /\
  mergedContent (step (run (boot exampleApp [] None) exampleConnected)
                   (SourceMessage 0 (MInit (Some [("content", "<p>S</p>")])))) =
    Some "<p>A</p>".
Proof.
  assert (Hlaw : readsBack).
  { intros c k v. apply lookup_insert_eq. }
  split; [exact Hlaw|]. split; [by vm_compute|]. split; [by vm_compute|].
  refine (proj2 (init_keeps_editor_content exampleApp [] None exampleConnected 0 "p1"
                   [("content", "<p>S</p>")] exampleInitial Hlaw _ _ _));
    [by vm_compute|by vm_compute|done].
Defined.
